(** * AURA: GPU memory attribution engine and active-probe detector

    A shallow embedding of the attribution heuristics of
    [gpu-inference-exporter/enhanced_gpu_inference.py] (with the sibling
    paths of [gpu_inference_exporter.py], [aura-simple/mega_exporter.py]
    and [unified-exporter/unified_exporter.py]) and of the probe detector
    of [ollama-exporter/enhanced_ollama_exporter.py]; further, of the
    resolver from a process to its container, of the CPU block of
    [collect_docker_stats] and of the dashboard's history
    ([aura-simple/enhanced_dashboard.py]).

    Numbers: Python mixes [int] byte counts with [float] readings.  Both
    are embedded in [Q]; every statement below is therefore one of exact
    arithmetic, and numeric results are compared with [==].

    Effects: the Prometheus registry is modelled as the sequence of
    samples written to it, the wall clock as an oracle indexed by the
    number of reads made so far, the driver, the container runtime and
    the process table as per-cycle readings. *)

From Stdlib Require Import QArith Lqa ZArith Ascii String.
From stdpp Require Import base gmap strings list sorting.
From stdpp Require Import pretty.

Local Open Scope Q_scope.

(** ** Python numerics *)

(** [max(0, x)]: Python returns the first argument unless a later one is
    strictly greater. *)
Definition py_max0 (x : Q) : Q := if Qlt_le_dec 0 x then x else 0.

(** [min(a, b)]: the first argument unless the second is strictly smaller. *)
Definition py_min (a b : Q) : Q := if Qlt_le_dec b a then b else a.

(** [max(l)] on a non-empty list, seeded with its head. *)
Definition py_max_list (x : Q) (l : list Q) : Q :=
  fold_left (fun m y => if Qlt_le_dec m y then y else m) l x.

(** [sum(l)]: a left fold from [0]. *)
Definition py_sum (l : list Q) : Q := fold_left Qplus l 0.

Definition Qnat (n : nat) : Q := inject_Z (Z.of_nat n).

(** [len(l)] as a number. *)
Definition py_len {A} (l : list A) : Q := Qnat (length l).

(** [deque(maxlen=n).append(x)]: a full deque drops its leftmost entry
    first; a deque of capacity [0] discards every append. *)
Definition deque_append {A} (maxlen : nat) (d : list A) (x : A) : list A :=
  match maxlen with
  | O => d
  | S _ => if (length d <? maxlen)%nat then d ++ [x] else drop 1 d ++ [x]
  end.

(** ** Python strings (ASCII) *)

Definition ascii_lower (c : ascii) : ascii :=
  let n := nat_of_ascii c in
  if ((65 <=? n) && (n <=? 90))%nat then ascii_of_nat (n + 32) else c.

Fixpoint lower (s : string) : string :=
  match s with
  | EmptyString => EmptyString
  | String c s' => String (ascii_lower c) (lower s')
  end.

(** [needle in hay] on strings: substring test. *)
Fixpoint str_in (needle hay : string) : bool :=
  match hay with
  | EmptyString => String.prefix needle EmptyString
  | String _ hay' => String.prefix needle hay || str_in needle hay'
  end.

(** [s.lstrip('/')] *)
Fixpoint lstrip_slash (s : string) : string :=
  match s with
  | String "/"%char s' => lstrip_slash s'
  | _ => s
  end.

(** [s[:12]] *)
Definition take12 (s : string) : string := String.substring 0 12 s.

(** ** Container profiles ([class ContainerProfile]) *)

Record Observation := {
  timestamp : Q;
  visible : bool;
  memory : Q
}.

Record ContainerProfile := {
  container_id : string;
  container_name : string;
  gpu_history : list Observation;
  last_seen_with_gpu : option Q;
  typical_memory : Q;
  is_llm : bool
}.

Definition llm_indicators : list string :=
  ["ollama"; "llama"; "gpt"; "llm"; "ai"; "ml"; "model"; "inference"]%string.

Definition _detect_llm_container (name : string) : bool :=
  let name_lower := lower name in
  existsb (fun indicator => str_in indicator name_lower) llm_indicators.

Definition ContainerProfile_init (cid cname : string) : ContainerProfile :=
  {| container_id := cid;
     container_name := cname;
     gpu_history := [];
     last_seen_with_gpu := None;
     typical_memory := 0;
     is_llm := _detect_llm_container cname |}.

(** [[h['memory'] for h in self.gpu_history if h['visible'] and h['memory'] > 0]] *)
Definition visible_memories (history : list Observation) : list Q :=
  List.map memory
    (List.filter (fun h => visible h && (if Qlt_le_dec 0 (memory h) then true else false))
       history).

(** [sum(1 for h in self.gpu_history if h['visible'])] *)
Definition visible_count (history : list Observation) : nat :=
  length (List.filter visible history).

(** Truth value of [self.last_seen_with_gpu]: [None] and [0.0] are false. *)
Definition truthy_time (o : option Q) : option Q :=
  match o with
  | Some t => if Qeq_dec t 0 then None else Some t
  | None => None
  end.

Section Profile.

Variable HISTORY_SIZE : nat.

(** [ContainerProfile.update].  The method reads the clock once for the
    history entry ([t_entry]) and once more for [last_seen_with_gpu]
    ([t_seen], used only when [has_visible_gpu]). *)
Definition update (t_entry t_seen : Q) (has_visible_gpu : bool) (memory_bytes : Q)
    (self : ContainerProfile) : ContainerProfile :=
  let history :=
    deque_append HISTORY_SIZE (gpu_history self)
      {| timestamp := t_entry; visible := has_visible_gpu; memory := memory_bytes |} in
  let last_seen :=
    if has_visible_gpu then Some t_seen else last_seen_with_gpu self in
  let typical :=
    if (5 <? length history)%nat then
      let vm := visible_memories history in
      match vm with
      | [] => typical_memory self
      | _ :: _ => py_sum vm / py_len vm
      end
    else typical_memory self in
  {| container_id := container_id self;
     container_name := container_name self;
     gpu_history := history;
     last_seen_with_gpu := last_seen;
     typical_memory := typical;
     is_llm := is_llm self |}.

(** [ContainerProfile.get_gpu_likelihood_score]; [now] is the clock
    reading taken when [last_seen_with_gpu] is truthy. *)
Definition get_gpu_likelihood_score (now : Q) (self : ContainerProfile) : Q :=
  let score := 0 in
  let score := if is_llm self then score + (1 # 2) else score in
  let score :=
    match truthy_time (last_seen_with_gpu self) with
    | Some seen =>
        let time_since_gpu := now - seen in
        if Qlt_le_dec time_since_gpu 300
        then score + (3 # 10) * (1 - time_since_gpu / 300)
        else score
    | None => score
    end in
  let score :=
    if (10 <? length (gpu_history self))%nat then
      let gpu_count := Qnat (visible_count (gpu_history self)) in
      score + (2 # 10) * (gpu_count / py_len (gpu_history self))
    else score in
  py_min score 1.

End Profile.

(** ** The exporter's world *)

(** A container as the resolver reports it: the dict with keys ['id'] and
    ['name'] (labels and runtime are carried along by the code but never
    read by the attribution). *)
Record Container := {
  c_id : string;
  c_name : string
}.

(** An entry of [known_processes]. *)
Record Process := {
  pid : Z;
  memory_bytes : Q
}.

(** [mem_info] of [pynvml.nvmlDeviceGetMemoryInfo]. *)
Record MemInfo := {
  total : Q;
  used : Q;
  free : Q
}.

(** One line of [nvidia-smi --query-compute-apps=pid,gpu_uuid,used_gpu_memory]. *)
Inductive SmiLine :=
| smi_skipped
    (* empty, starting with [[Not Supported]], or fewer than three fields *)
| smi_garbled
    (* [int(parts[0])] or [float(parts[2])] raises *)
| smi_row (row_pid : Z) (gpu_uuid : string) (memory_mb : Q).

(** One line of [docker ps] with what [docker inspect] tells about it:
    [ID] is the id [docker ps] prints, the other fields come from the
    inspection. *)
Record Inspect := {
  ID : string;
  Name : string;
  Runtime : option string;
  DeviceRequests : list (option string);   (* the ['Driver'] of each request *)
  Env : list string
}.

(** The readings one collection cycle obtains from its collaborators. *)
Record Readings := {
  nvmlDeviceGetMemoryInfo : nat -> MemInfo;
  nvmlDeviceGetUUID : nat -> string;
  nvidia_smi_stdout : list SmiLine;
  map_pid_to_container : Z -> option Container;
  docker_ps : list (option Inspect)        (* [None]: inspect failed *)
}.

Inductive Method := nvidia_smi | inference.

(** A write to the Prometheus registry: the gauge, its labels, the value. *)
Inductive Sample :=
| gpu_memory_total_bytes (gpu : nat) (v : Q)
| gpu_memory_used_bytes (gpu : nat) (v : Q)
| gpu_memory_free_bytes (gpu : nat) (v : Q)
| gpu_memory_known_bytes (gpu : nat) (v : Q)
| gpu_memory_unknown_bytes (gpu : nat) (v : Q)
| unknown_memory_histogram (v : Q)
| container_gpu_memory_bytes (name cid : string) (gpu : nat) (method : Method) (v : Q)
| container_gpu_score (name cid : string) (v : Q)
| container_gpu_detected (name cid : string) (v : Q)
| gpu_inference_active (gpu : nat) (v : Q)
| gpu_inference_confidence (gpu : nat) (v : Q).

(** [self] of [EnhancedGPUInference], together with the number of clock
    reads made so far. *)
Record Engine := {
  device_count : nat;
  container_profiles : gmap string ContainerProfile;
  memory_history : gmap nat (list Q);
  clock_reads : nat
}.

Definition set_profiles (f : gmap string ContainerProfile -> gmap string ContainerProfile)
    (s : Engine) : Engine :=
  {| device_count := device_count s;
     container_profiles := f (container_profiles s);
     memory_history := memory_history s;
     clock_reads := clock_reads s |}.

Definition set_history (f : gmap nat (list Q) -> gmap nat (list Q)) (s : Engine) : Engine :=
  {| device_count := device_count s;
     container_profiles := container_profiles s;
     memory_history := f (memory_history s);
     clock_reads := clock_reads s |}.

Definition tick (s : Engine) : Engine :=
  {| device_count := device_count s;
     container_profiles := container_profiles s;
     memory_history := memory_history s;
     clock_reads := S (clock_reads s) |}.

(** ** A state-and-output monad for the engine's methods *)

Definition M (A : Type) : Type := Engine -> A * Engine * list Sample.

Definition ret {A} (a : A) : M A := fun s => (a, s, []).

Definition bind {A B} (m : M A) (k : A -> M B) : M B :=
  fun s =>
    let '(a, s1, o1) := m s in
    let '(b, s2, o2) := k a s1 in
    (b, s2, o1 ++ o2).

Notation "x <- m ;; k" := (bind m (fun x => k))
  (at level 100, m at next level, right associativity).
Notation "m ;;; k" := (bind m (fun _ => k))
  (at level 100, right associativity).

Definition gets {A} (f : Engine -> A) : M A := fun s => (f s, s, []).
Definition modify (f : Engine -> Engine) : M unit := fun s => (tt, f s, []).
Definition emit (x : Sample) : M unit := fun s => (tt, s, [x]).

(** [for x in l: body x] *)
Fixpoint for_each {A} (l : list A) (body : A -> M unit) : M unit :=
  match l with
  | [] => ret tt
  | x :: l' => body x ;;; for_each l' body
  end.

(** A loop that carries local variables [acc] through its iterations. *)
Fixpoint for_fold {A B} (l : list A) (acc : B) (body : B -> A -> M B) : M B :=
  match l with
  | [] => ret acc
  | x :: l' => acc' <- body acc x ;; for_fold l' acc' body
  end.

Definition state_of {A} (r : A * Engine * list Sample) : Engine := snd (fst r).
Definition value_of {A} (r : A * Engine * list Sample) : A := fst (fst r).
Definition output_of {A} (r : A * Engine * list Sample) : list Sample := snd r.

(** ** Collaborators: the driver query and the container listing *)

(** [known_processes]: a [defaultdict(list)]; iteration follows insertion
    order, so it is kept as an association list. *)
Fixpoint dd_append (k : nat) (p : Process) (d : list (nat * list Process))
    : list (nat * list Process) :=
  match d with
  | [] => [(k, [p])]
  | (k', ps) :: d' =>
      if decide (k' = k) then (k', ps ++ [p]) :: d' else (k', ps) :: dd_append k p d'
  end.

(** [known_processes.get(k, [])] *)
Fixpoint dd_get (k : nat) (d : list (nat * list Process)) : list Process :=
  match d with
  | [] => []
  | (k', ps) :: d' => if decide (k' = k) then ps else dd_get k d'
  end.

(** [_get_gpu_index_from_uuid]: the first enumerated device whose UUID
    contains [uuid], and [0] when the loop finds none. *)
Fixpoint first_matching (uuid : string) (uuids : nat -> string) (indices : list nat)
    : option nat :=
  match indices with
  | [] => None
  | i :: rest =>
      if str_in uuid (uuids i) then Some i else first_matching uuid uuids rest
  end.

Definition _get_gpu_index_from_uuid (dc : nat) (uuids : nat -> string) (uuid : string) : nat :=
  match first_matching uuid uuids (seq 0 dc) with
  | Some i => i
  | None => 0%nat
  end.

(** [get_known_gpu_processes]: the loop over the output lines.  A line that
    fails to parse raises inside the [try]; the handler logs and the
    records gathered so far are returned. *)
Fixpoint known_processes_loop (dc : nat) (uuids : nat -> string) (lines : list SmiLine)
    (known_processes : list (nat * list Process)) : list (nat * list Process) :=
  match lines with
  | [] => known_processes
  | smi_skipped :: rest => known_processes_loop dc uuids rest known_processes
  | smi_garbled :: _ => known_processes
  | smi_row p gpu_uuid memory_mb :: rest =>
      let gpu_index := _get_gpu_index_from_uuid dc uuids gpu_uuid in
      known_processes_loop dc uuids rest
        (dd_append gpu_index
           {| pid := p; memory_bytes := memory_mb * 1024 * 1024 |} known_processes)
  end.

Definition get_known_gpu_processes (dc : nat) (r : Readings) : list (nat * list Process) :=
  known_processes_loop dc (nvmlDeviceGetUUID r) (nvidia_smi_stdout r) [].

(** The three signals of [get_containers_with_gpu_access]. *)
Definition has_gpu (data : Inspect) : bool :=
  (if decide (Runtime data = Some "nvidia"%string) then true else false)
  || existsb (fun req => if decide (req = Some "nvidia"%string) then true else false)
       (DeviceRequests data)
  || existsb (fun env =>
                String.prefix "NVIDIA_VISIBLE_DEVICES="%string env
                && negb (String.eqb env "NVIDIA_VISIBLE_DEVICES=none"
                         || String.eqb env "NVIDIA_VISIBLE_DEVICES=void"))
       (Env data).

Fixpoint get_containers_with_gpu_access (lines : list (option Inspect)) : list Container :=
  match lines with
  | [] => []
  | None :: rest => get_containers_with_gpu_access rest
  | Some data :: rest =>
      if has_gpu data
      then {| c_id := take12 (ID data); c_name := lstrip_slash (Name data) |}
             :: get_containers_with_gpu_access rest
      else get_containers_with_gpu_access rest
  end.

#[local] Instance Q_inhabited : Inhabited Q := populate 0.
#[local] Instance MemInfo_inhabited : Inhabited MemInfo :=
  populate {| total := 0; used := 0; free := 0 |}.

(** [EnhancedGPUInference.__init__] *)
Definition EnhancedGPUInference_init (dc : nat) : Engine :=
  {| device_count := dc;
     container_profiles := ∅;
     memory_history := ∅;
     clock_reads := 0 |}.

(** [known_used = sum(p['memory_bytes'] for p in known_processes.get(gpu_idx, []))] *)
Definition known_used_of (known_processes : list (nat * list Process)) (gpu_idx : nat) : Q :=
  py_sum (List.map memory_bytes (dd_get gpu_idx known_processes)).

(** [unknown_used = max(0, total_used - known_used)] *)
Definition unknown_used_of (total_used known_used : Q) : Q :=
  py_max0 (total_used - known_used).

(** The arithmetic of [calculate_inference_confidence] once the history
    has been read.  The conditional expression binds weaker than [/], so
    [1 / (1 + variance / (avg ** 2) if avg > 0 else 1)] divides 1 by the
    whole conditional. *)
Definition stability_of (history : list Q) : Q :=
  let avg := py_sum history / py_len history in
  let variance := py_sum (List.map (fun x => (x - avg) ^ 2) history) / py_len history in
  1 / (if Qlt_le_dec 0 avg then 1 + variance / (avg ^ 2) else 1).

Definition confidence_of (history : list Q) (unknown_memory total_memory : Q) : Q :=
  let unknown_ratio := unknown_memory / total_memory in
  if (10 <? length history)%nat
  then unknown_ratio * stability_of history
  else unknown_ratio * (1 # 2).

Section EnhancedGPUInference.

Variable HISTORY_SIZE : nat.
Variable clock : nat -> Q.

(** [time.time()] *)
Definition time_time : M Q := fun s => (clock (clock_reads s), tick s, []).

(** [if cid in self.container_profiles:
       self.container_profiles[cid].update(has_visible_gpu, memory_bytes)] *)
Definition update_if_profiled (cid : string) (has_visible_gpu : bool) (memory_bytes : Q)
    : M unit :=
  profiles <- gets container_profiles ;;
  match profiles !! cid with
  | Some profile =>
      t_entry <- time_time ;;
      t_seen <- (if has_visible_gpu then time_time else ret t_entry) ;;
      modify (set_profiles
                (insert cid
                   (update HISTORY_SIZE t_entry t_seen has_visible_gpu memory_bytes profile)))
  | None => ret tt
  end.

(** [profile.get_gpu_likelihood_score()], reading the clock as the method does. *)
Definition likelihood_score (profile : ContainerProfile) : M Q :=
  match truthy_time (last_seen_with_gpu profile) with
  | Some _ => now <- time_time ;; ret (get_gpu_likelihood_score now profile)
  | None => ret (get_gpu_likelihood_score 0 profile)
  end.

(** The body of the loop of [get_total_gpu_memory]. *)
Definition read_device (r : Readings) (gpu_stats : gmap nat MemInfo) (i : nat)
    : M (gmap nat MemInfo) :=
  let mem_info := nvmlDeviceGetMemoryInfo r i in
  emit (gpu_memory_total_bytes i (total mem_info)) ;;;
  emit (gpu_memory_used_bytes i (used mem_info)) ;;;
  emit (gpu_memory_free_bytes i (free mem_info)) ;;;
  modify (set_history (fun h =>
    <[i := deque_append HISTORY_SIZE (default [] (h !! i)) (used mem_info)]> h)) ;;;
  ret (<[i := mem_info]> gpu_stats).

Definition get_total_gpu_memory (r : Readings) : M (gmap nat MemInfo) :=
  dc <- gets device_count ;;
  for_fold (seq 0 dc) ∅ (read_device r).

Definition get_container_weight (container : Container) : M Q :=
  profiles <- gets container_profiles ;;
  profile <- match profiles !! c_id container with
             | Some profile => ret profile
             | None =>
                 let profile := ContainerProfile_init (c_id container) (c_name container) in
                 modify (set_profiles (insert (c_id container) profile)) ;;;
                 ret profile
             end ;;
  let base_weight := 1 in
  let base_weight := if is_llm profile then base_weight * 2 else base_weight in
  likelihood <- likelihood_score profile ;;
  let base_weight := base_weight * (1 + likelihood) in
  emit (container_gpu_score (c_name container) (c_id container) likelihood) ;;;
  ret base_weight.

(** The first loop of [distribute_unknown_memory]; [acc] holds its
    [weights] and [total_weight]. *)
Definition weigh (acc : gmap string Q * Q) (container : Container)
    : M (gmap string Q * Q) :=
  weight <- get_container_weight container ;;
  ret (<[c_id container := weight]> (fst acc), snd acc + weight).

Definition collect_weights (unknown_containers : list Container) : M (gmap string Q * Q) :=
  for_fold unknown_containers (∅, 0) weigh.

Definition distribute_unknown_memory (unknown_memory : Q)
    (unknown_containers : list Container) (gpu_idx : nat) : M unit :=
  match unknown_containers with
  | [] => ret tt
  | _ :: _ =>
      if Qlt_le_dec 0 unknown_memory then
        acc <- collect_weights unknown_containers ;;
        let weights := fst acc in
        let total_weight := snd acc in
        for_each unknown_containers (fun container =>
          if Qlt_le_dec 0 total_weight then
            let proportion := (weights !!! c_id container) / total_weight in
            let allocated_memory := unknown_memory * proportion in
            emit (container_gpu_memory_bytes (c_name container) (c_id container)
                    gpu_idx inference allocated_memory)
          else ret tt)
      else ret tt
  end.

Definition calculate_inference_confidence (gpu_idx : nat) (unknown_memory total_memory : Q)
    : M Q :=
  if Qeq_dec total_memory 0 then ret 0
  else
    hist <- gets memory_history ;;
    (* indexing the [defaultdict] creates a missing entry *)
    (match hist !! gpu_idx with
     | Some _ => ret tt
     | None => modify (set_history (insert gpu_idx []))
     end) ;;;
    let history := default [] (hist !! gpu_idx) in
    let confidence := confidence_of history unknown_memory total_memory in
    emit (gpu_inference_confidence gpu_idx confidence) ;;;
    ret confidence.

(** The body of the loop over the processes of one device; [acc] holds
    [known_memory] and [known_container_ids]. *)
Definition account_process (r : Readings) (gpu_idx : nat) (acc : Q * gset string)
    (proc : Process) : M (Q * gset string) :=
  let known_memory := fst acc + memory_bytes proc in
  match map_pid_to_container r (pid proc) with
  | Some container =>
      update_if_profiled (c_id container) true (memory_bytes proc) ;;;
      emit (container_gpu_memory_bytes (c_name container) (c_id container)
              gpu_idx nvidia_smi (memory_bytes proc)) ;;;
      ret (known_memory, {[c_id container]} ∪ snd acc)
  | None => ret (known_memory, snd acc)
  end.

(** The body of the loop over [known_processes.items()]. *)
Definition process_known (r : Readings) (known_container_ids : gset string)
    (item : nat * list Process) : M (gset string) :=
  let gpu_idx := fst item in
  res <- for_fold (snd item) (0, known_container_ids) (account_process r gpu_idx) ;;
  emit (gpu_memory_known_bytes gpu_idx (fst res)) ;;;
  ret (snd res).

(** The body of the inner loop over [gpu_containers]. *)
Definition classify_container (known_container_ids : gset string)
    (unknown_containers : list Container) (container : Container) : M (list Container) :=
  emit (container_gpu_detected (c_name container) (c_id container) 1) ;;;
  if decide (c_id container ∈ known_container_ids) then ret unknown_containers
  else
    update_if_profiled (c_id container) false 0 ;;;
    ret (unknown_containers ++ [container]).

Definition find_unknown_containers (gpu_containers : list Container)
    (known_container_ids : gset string) : M (list Container) :=
  for_fold gpu_containers [] (classify_container known_container_ids).

(** The body of the loop over [range(self.device_count)]. *)
Definition process_gpu (gpu_stats : gmap nat MemInfo)
    (known_processes : list (nat * list Process)) (gpu_containers : list Container)
    (known_container_ids : gset string) (gpu_idx : nat) : M unit :=
  let total_used := used (gpu_stats !!! gpu_idx) in
  let known_used := known_used_of known_processes gpu_idx in
  let unknown_used := unknown_used_of total_used known_used in
  emit (gpu_memory_unknown_bytes gpu_idx unknown_used) ;;;
  emit (unknown_memory_histogram unknown_used) ;;;
  unknown_containers <- find_unknown_containers gpu_containers known_container_ids ;;
  if Qlt_le_dec 0 unknown_used then
    emit (gpu_inference_active gpu_idx 1) ;;;
    confidence <- calculate_inference_confidence gpu_idx unknown_used total_used ;;
    distribute_unknown_memory unknown_used unknown_containers gpu_idx
  else
    emit (gpu_inference_active gpu_idx 0) ;;;
    emit (gpu_inference_confidence gpu_idx 0).

Definition calculate_inference (r : Readings) : M unit :=
  gpu_stats <- get_total_gpu_memory r ;;
  dc <- gets device_count ;;
  let known_processes := get_known_gpu_processes dc r in
  let gpu_containers := get_containers_with_gpu_access (docker_ps r) in
  known_container_ids <- for_fold known_processes ∅ (process_known r) ;;
  for_each (seq 0 dc)
    (process_gpu gpu_stats known_processes gpu_containers known_container_ids).

End EnhancedGPUInference.

(** ** Sibling exporters: the per-device inference step *)

(** [gpu_inference_exporter.py], [GPUMemoryInference.calculate_inference]:
    the loop body over [range(self.device_count)]. *)
Module GPUMemoryInference.

Definition process_gpu (total_used known_used : Q) (unknown_containers : list Container)
    (gpu_idx : nat) : list Sample :=
  let unknown_used := py_max0 (total_used - known_used) in
  gpu_memory_unknown_bytes gpu_idx unknown_used ::
  (if Qlt_le_dec 0 unknown_used then
     gpu_inference_active gpu_idx 1 ::
     match unknown_containers with
     | [] => []
     | _ :: _ =>
         let per_container := unknown_used / py_len unknown_containers in
         List.map (fun container =>
                container_gpu_memory_bytes (c_name container) (c_id container)
                  gpu_idx inference per_container)
             unknown_containers
     end
   else [gpu_inference_active gpu_idx 0]).

End GPUMemoryInference.

(** [aura-simple/mega_exporter.py], [AuraMegaExporter.collect_gpu_metrics]:
    the "process inference" block of one device. *)
Module AuraMegaExporter.

Inductive Sample :=
| gpu_memory_known (gpu_index : nat) (v : Q)
| gpu_memory_unknown (gpu_index : nat) (v : Q)
| gpu_inference_active (gpu_index : nat) (v : Q).

Record GpuData := {
  memory_known : Q;
  memory_unknown : Q;
  inference_active : bool
}.

(** [processes] is [None] when the driver call (or the sum over its
    result) raises; the handler only logs. *)
Definition process_inference (gpu_idx : nat) (mem_used : Q) (processes : option (list Q))
    : GpuData * list Sample :=
  match processes with
  | Some usedGpuMemory =>
      let known_memory := py_sum usedGpuMemory in
      let unknown_memory := py_max0 (mem_used - known_memory) in
      if Qlt_le_dec (100 * 1024 * 1024) unknown_memory then
        ({| memory_known := known_memory; memory_unknown := unknown_memory;
            inference_active := true |},
         [gpu_memory_known gpu_idx known_memory;
          gpu_memory_unknown gpu_idx unknown_memory;
          gpu_inference_active gpu_idx 1])
      else
        ({| memory_known := known_memory; memory_unknown := unknown_memory;
            inference_active := false |},
         [gpu_memory_known gpu_idx known_memory;
          gpu_memory_unknown gpu_idx unknown_memory;
          gpu_inference_active gpu_idx 0])
  | None =>
      ({| memory_known := 0; memory_unknown := 0; inference_active := false |}, [])
  end.

End AuraMegaExporter.

(** [unified-exporter/unified_exporter.py], [collect_gpu_inference_metrics]:
    the body of the [try] of one device. *)
Module UnifiedExporter.

Inductive Sample :=
| gpu_memory_known (gpu_index : nat) (v : Q)
| gpu_memory_unknown (gpu_index : nat) (v : Q)
| gpu_inference_active (gpu_index : nat) (v : Q)
| container_gpu_memory_bytes (name cid : string) (gpu_index : nat) (method : Method) (v : Q).

Definition process_gpu (gpu_idx : nat) (used_memory : Q) (processes : list Process)
    (containers_with_gpu : list Container)
    (pid_belongs_to_container : Z -> string -> bool) : list Sample :=
  let known_memory := py_sum (List.map memory_bytes processes) in
  let unknown_memory := py_max0 (used_memory - known_memory) in
  gpu_memory_known gpu_idx known_memory ::
  gpu_memory_unknown gpu_idx unknown_memory ::
  (if Qlt_le_dec (100 * 1024 * 1024) unknown_memory then
     gpu_inference_active gpu_idx 1 ::
     (let containers_without_visible :=
        List.filter (fun container =>
                  negb (existsb (fun process =>
                          pid_belongs_to_container (pid process) (c_id container))
                        processes))
               containers_with_gpu in
      match containers_without_visible with
      | [] => []
      | _ :: _ =>
          let memory_per_container := unknown_memory / py_len containers_without_visible in
          List.map (fun container =>
                 container_gpu_memory_bytes (c_name container) (take12 (c_id container))
                   gpu_idx inference memory_per_container)
            containers_without_visible
      end)
   else [gpu_inference_active gpu_idx 0]).

End UnifiedExporter.

(** ** The active-probe detector ([class InferenceDetector]) *)

Module InferenceDetector.

(** The detector's deque together with the gauges it drives. *)
Record Detector := {
  inference_history : list Q;               (* [deque(maxlen=10)] *)
  ollama_inference_active : Q;
  ollama_gpu_likely_active : Q;
  ollama_last_inference_timestamp : Q;
  ollama_inference_requests_total : Q
}.

Definition init : Detector :=
  {| inference_history := [];
     ollama_inference_active := 0;
     ollama_gpu_likely_active := 0;
     ollama_last_inference_timestamp := 0;
     ollama_inference_requests_total := 0 |}.

(** [current_time] is the clock reading taken under the lock. *)
Definition mark_inference_active (current_time : Q) (self : Detector) : Detector :=
  {| inference_history := deque_append 10 (inference_history self) current_time;
     ollama_inference_active := 1;
     ollama_gpu_likely_active := 1;
     ollama_last_inference_timestamp := current_time;
     ollama_inference_requests_total := ollama_inference_requests_total self + 1 |}.

Definition mark_inference_likely_active (likelihood : Q) (self : Detector) : Detector :=
  {| inference_history := inference_history self;
     ollama_inference_active := ollama_inference_active self;
     ollama_gpu_likely_active := likelihood;
     ollama_last_inference_timestamp := ollama_last_inference_timestamp self;
     ollama_inference_requests_total := ollama_inference_requests_total self |}.

Definition recent_inferences (current_time : Q) (history : list Q) : list Q :=
  List.filter (fun t => if Qlt_le_dec (current_time - t) 30 then true else false) history.

Definition update_status (current_time : Q) (self : Detector) : Detector :=
  match recent_inferences current_time (inference_history self) with
  | t0 :: rest =>
      let time_since_last := current_time - py_max_list t0 rest in
      let likelihood := py_max0 (1 - time_since_last / 30) in
      {| inference_history := inference_history self;
         ollama_inference_active := 1;
         ollama_gpu_likely_active := likelihood;
         ollama_last_inference_timestamp := ollama_last_inference_timestamp self;
         ollama_inference_requests_total := ollama_inference_requests_total self |}
  | [] =>
      {| inference_history := inference_history self;
         ollama_inference_active := 0;
         ollama_gpu_likely_active := 0;
         ollama_last_inference_timestamp := ollama_last_inference_timestamp self;
         ollama_inference_requests_total := ollama_inference_requests_total self |}
  end.

(** How a request of [check_inference] ends. *)
Inductive Outcome :=
| responded (response_time : Q)
| timed_out                   (* [requests.exceptions.Timeout] *)
| failed.                     (* any other exception *)

(** The backend as the probe sees it. *)
Inductive Backend :=
| answers_after (seconds : Q)
| never_answers
| refuses.

(** [requests.post(..., timeout=0.5)] against a backend. *)
Definition post_generate (b : Backend) : Outcome :=
  match b with
  | answers_after seconds =>
      if Qlt_le_dec (1 # 2) seconds then timed_out else responded seconds
  | never_answers => timed_out
  | refuses => failed
  end.

(** The sections that run under [self.lock]; these are the atomic steps
    of the detector, whichever thread takes them. *)
Inductive Step :=
| MarkActive (current_time : Q)
| MarkLikely (likelihood : Q)
| UpdateStatus (current_time : Q).

Definition step (e : Step) (self : Detector) : Detector :=
  match e with
  | MarkActive t => mark_inference_active t self
  | MarkLikely l => mark_inference_likely_active l self
  | UpdateStatus t => update_status t self
  end.

(** The locked sections one call of [check_inference] enters: [generate]
    and [tags] are the outcomes of its two requests, [now] the clock
    reading of [mark_inference_active]. *)
Definition check_inference (generate tags : Outcome) (now : Q) : list Step :=
  (match generate with
   | responded response_time =>
       if Qlt_le_dec (3 # 10) response_time then [MarkActive now] else []
   | timed_out => [MarkActive now]
   | failed => []
   end)
  ++
  (match tags with
   | responded response_time =>
       if Qlt_le_dec (1 # 2) response_time then [MarkLikely (7 # 10)] else []
   | _ => []
   end).

(** A run of the detector: the locked sections in the order the lock
    serialises them. *)
Definition run (steps : list Step) (self : Detector) : Detector :=
  fold_left (fun d e => step e d) steps self.

(** The clock readings of the qualifying observations of a run. *)
Fixpoint marks (steps : list Step) : list Q :=
  match steps with
  | [] => []
  | MarkActive t :: rest => t :: marks rest
  | _ :: rest => marks rest
  end.

Definition is_active (self : Detector) : bool :=
  if Qeq_dec (ollama_inference_active self) 1 then true else false.

End InferenceDetector.

(** ** Reading the registry *)

Definition sample_value (x : Sample) : Q :=
  match x with
  | gpu_memory_total_bytes _ v | gpu_memory_used_bytes _ v | gpu_memory_free_bytes _ v
  | gpu_memory_known_bytes _ v | gpu_memory_unknown_bytes _ v
  | unknown_memory_histogram v
  | container_gpu_memory_bytes _ _ _ _ v
  | container_gpu_score _ _ v | container_gpu_detected _ _ v
  | gpu_inference_active _ v | gpu_inference_confidence _ v => v
  end.

Definition with_value (w : Q) (x : Sample) : Sample :=
  match x with
  | gpu_memory_total_bytes g _ => gpu_memory_total_bytes g w
  | gpu_memory_used_bytes g _ => gpu_memory_used_bytes g w
  | gpu_memory_free_bytes g _ => gpu_memory_free_bytes g w
  | gpu_memory_known_bytes g _ => gpu_memory_known_bytes g w
  | gpu_memory_unknown_bytes g _ => gpu_memory_unknown_bytes g w
  | unknown_memory_histogram _ => unknown_memory_histogram w
  | container_gpu_memory_bytes n c g m _ => container_gpu_memory_bytes n c g m w
  | container_gpu_score n c _ => container_gpu_score n c w
  | container_gpu_detected n c _ => container_gpu_detected n c w
  | gpu_inference_active g _ => gpu_inference_active g w
  | gpu_inference_confidence g _ => gpu_inference_confidence g w
  end.

(** Two samples agree when they address the same labelled gauge with equal
    numbers. *)
Definition Sample_equiv (x y : Sample) : Prop :=
  with_value 0 x = with_value 0 y /\ sample_value x == sample_value y.

(** The values written to [container_gpu_memory_bytes] with
    [method='inference']. *)
Definition inferred_allocations (out : list Sample) : list Q :=
  omap (fun x => match x with
                 | container_gpu_memory_bytes _ _ _ inference v => Some v
                 | _ => None
                 end) out.

(** The values written to [gpu_inference_active] of device [gpu]. *)
Definition active_flags (gpu : nat) (out : list Sample) : list Q :=
  omap (fun x => match x with
                 | gpu_inference_active g v => if decide (g = gpu) then Some v else None
                 | _ => None
                 end) out.

(** The values written to [gpu_inference_confidence] of device [gpu]. *)
Definition confidences (gpu : nat) (out : list Sample) : list Q :=
  omap (fun x => match x with
                 | gpu_inference_confidence g v => if decide (g = gpu) then Some v else None
                 | _ => None
                 end) out.

(** Samples about a container rather than about a device. *)
Definition container_level (x : Sample) : Prop :=
  match x with
  | container_gpu_memory_bytes _ _ _ _ _ | container_gpu_score _ _ _
  | container_gpu_detected _ _ _ => True
  | _ => False
  end.

(** The containers the first loop of [calculate_inference] resolves some
    known process to. *)
Definition resolved (r : Readings) (known_processes : list (nat * list Process))
    (cid : string) : Prop :=
  exists item proc container,
    In item known_processes /\ In proc (snd item) /\
    map_pid_to_container r (pid proc) = Some container /\ c_id container = cid.

(** [s'] has the devices of [s] and a profile for every container that
    has one in [s]. *)
Definition extends (s s' : Engine) : Prop :=
  device_count s' = device_count s
  /\ forall cid, is_Some (container_profiles s !! cid) ->
                 is_Some (container_profiles s' !! cid).

(** The records [get_known_gpu_processes] reads off the output: the rows
    before the first line that fails to parse. *)
Fixpoint parsed_rows (lines : list SmiLine) : list (Z * string * Q) :=
  match lines with
  | [] => []
  | smi_skipped :: rest => parsed_rows rest
  | smi_garbled :: _ => []
  | smi_row p gpu_uuid memory_mb :: rest => (p, gpu_uuid, memory_mb) :: parsed_rows rest
  end.

(** All the records of [known_processes], whatever their device. *)
Definition all_known (known_processes : list (nat * list Process)) : list Process :=
  concat (List.map snd known_processes).

(** [main]: the perpetual loop, one [calculate_inference] per round of
    readings ([time.sleep] between rounds is not modelled). *)
Definition run_cycles (HISTORY_SIZE : nat) (clock : nat -> Q) (rounds : list Readings)
    (s : Engine) : Engine :=
  fold_left (fun s r => state_of (calculate_inference HISTORY_SIZE clock r s)) rounds s.

(** The shape the engine keeps its stores in: every profile sits under
    its own container id with the flag its name gives, and no history is
    longer than [HISTORY_SIZE]. *)
Definition well_formed (HISTORY_SIZE : nat) (s : Engine) : Prop :=
  (forall cid p, container_profiles s !! cid = Some p ->
     container_id p = cid
     /\ is_llm p = _detect_llm_container (container_name p)
     /\ (length (gpu_history p) <= HISTORY_SIZE)%nat)
  /\ (forall i h, memory_history s !! i = Some h -> (length h <= HISTORY_SIZE)%nat).

(** The device and value of every write to [gpu_memory_unknown_bytes]. *)
Definition unknown_reports (out : list Sample) : list (nat * Q) :=
  omap (fun x => match x with
                 | gpu_memory_unknown_bytes g v => Some (g, v)
                 | _ => None
                 end) out.

(** The container ids of the writes to [container_gpu_memory_bytes] with
    [method='inference']. *)
Definition inferred_ids (out : list Sample) : list string :=
  omap (fun x => match x with
                 | container_gpu_memory_bytes _ cid _ inference _ => Some cid
                 | _ => None
                 end) out.


(** Whether the profile [get_container_weight] works with for a container
    (the stored one, or a fresh one on the first sighting) carries the
    inference-workload flag. *)
Definition llm_named (s : Engine) (container : Container) : bool :=
  is_llm
    match container_profiles s !! c_id container with
    | Some profile => profile
    | None => ContainerProfile_init (c_id container) (c_name container)
    end.

(** ** The profile observation as the specification words it *)

Definition mean (l : list Q) : Q := py_sum l / py_len l.

(** Memory values of the entries flagged visible with nonzero memory. *)
Definition visible_nonzero_memories (history : list Observation) : list Q :=
  List.map memory
    (List.filter (fun h => visible h && (if Qeq_dec (memory h) 0 then false else true))
       history).

Definition observe_spec (bound : nat) (t_entry t_seen : Q) (wasVisible : bool)
    (memoryBytes : Q) (p : ContainerProfile) : ContainerProfile :=
  let history :=
    deque_append bound (gpu_history p)
      {| timestamp := t_entry; visible := wasVisible; memory := memoryBytes |} in
  {| container_id := container_id p;
     container_name := container_name p;
     gpu_history := history;
     last_seen_with_gpu := if wasVisible then Some t_seen else last_seen_with_gpu p;
     typical_memory :=
       if (5 <? length history)%nat
       then mean (visible_nonzero_memories history)
       else typical_memory p;
     is_llm := is_llm p |}.

(** ** The scenario of a 16 GiB device *)

Module Scenario.

Definition MiB : Q := 1024 * 1024.
Definition GiB : Q := 1024 * 1024 * 1024.

Definition inspect_of (cid cname : string) : Inspect :=
  {| ID := cid; Name := String "/"%char cname; Runtime := Some "nvidia"%string;
     DeviceRequests := []; Env := [] |}.

Definition A : Container := {| c_id := "aaaaaaaaaaaa"; c_name := "trainer" |}.
Definition B : Container := {| c_id := "bbbbbbbbbbbb"; c_name := "ollama" |}.
Definition C : Container := {| c_id := "cccccccccccc"; c_name := "web" |}.

Definition readings : Readings :=
  {| nvmlDeviceGetMemoryInfo := fun _ =>
       {| total := 16 * GiB; used := 10 * GiB; free := 6 * GiB |};
     nvmlDeviceGetUUID := fun _ => "GPU-5a1f0e2c"%string;
     nvidia_smi_stdout := [smi_row 4242 "GPU-5a1f0e2c" 2048];
     map_pid_to_container := fun p => if decide (p = 4242%Z) then Some A else None;
     docker_ps :=
       [Some (inspect_of "aaaaaaaaaaaa0123" "trainer");
        Some (inspect_of "bbbbbbbbbbbb0123" "ollama");
        Some (inspect_of "cccccccccccc0123" "web")] |}.

Definition expected : list Sample :=
  [gpu_memory_total_bytes 0 (16 * GiB);
   gpu_memory_used_bytes 0 (10 * GiB);
   gpu_memory_free_bytes 0 (6 * GiB);
   container_gpu_memory_bytes "trainer" "aaaaaaaaaaaa" 0 nvidia_smi (2 * GiB);
   gpu_memory_known_bytes 0 (2 * GiB);
   gpu_memory_unknown_bytes 0 (8 * GiB);
   unknown_memory_histogram (8 * GiB);
   container_gpu_detected "trainer" "aaaaaaaaaaaa" 1;
   container_gpu_detected "ollama" "bbbbbbbbbbbb" 1;
   container_gpu_detected "web" "cccccccccccc" 1;
   gpu_inference_active 0 1;
   gpu_inference_confidence 0 (4 # 10);
   container_gpu_score "ollama" "bbbbbbbbbbbb" (1 # 2);
   container_gpu_score "web" "cccccccccccc" 0;
   container_gpu_memory_bytes "ollama" "bbbbbbbbbbbb" 0 inference (6 * GiB);
   container_gpu_memory_bytes "web" "cccccccccccc" 0 inference (2 * GiB)].

(** A cycle on an idle device that only container [A] can reach. *)
Definition idle_readings : Readings :=
  {| nvmlDeviceGetMemoryInfo := fun _ => {| total := 16 * GiB; used := 0; free := 16 * GiB |};
     nvmlDeviceGetUUID := fun _ => "GPU-5a1f0e2c"%string;
     nvidia_smi_stdout := [];
     map_pid_to_container := fun _ => None;
     docker_ps := [Some (inspect_of "aaaaaaaaaaaa0123" "trainer")] |}.

(** A cycle on a device with 50 MiB in use, no process and no container. *)
Definition quiet_readings : Readings :=
  {| nvmlDeviceGetMemoryInfo := fun _ =>
       {| total := 16 * GiB; used := 50 * MiB; free := 16 * GiB - 50 * MiB |};
     nvmlDeviceGetUUID := fun _ => "GPU-5a1f0e2c"%string;
     nvidia_smi_stdout := [];
     map_pid_to_container := fun _ => None;
     docker_ps := [] |}.

Definition wall_clock (n : nat) : Q := 1700000000 + Qnat n.

(** A profile after [seen] visible observations of 100 bytes followed by
    [unseen] invisible ones. *)
Definition observed (seen unseen : nat) : ContainerProfile :=
  Nat.iter unseen (update 30 1700000000 1700000000 false 0)
    (Nat.iter seen (update 30 1700000000 1700000000 true 100)
       (ContainerProfile_init "bbbbbbbbbbbb" "ollama")).

End Scenario.

(** ** The dashboard's history ([aura-simple/enhanced_dashboard.py]) *)

(** [class HistoricalData], fed by [collect_all_metrics] of
    [mega_exporter.py] through [update_historical_data].  The
    [defaultdict] of deques is a finite map; a key that was never
    written reads as the empty deque. *)
Module HistoricalData.

(** What [add_data_point] reads of [metrics_data['system']]. *)
Record SystemData := {
  cpu_percent : Q;
  memory_percent : Q;                      (* [sys['memory']['percent']] *)
  load_1m : Q;
  load_5m : Q;
  load_15m : Q
}.

(** What it reads of an element of [metrics_data['gpu']]. *)
Record GpuData := {
  index : nat;
  memory_total : Q;
  memory_used : Q;
  utilization : Q;
  temperature : Q;
  power : Q
}.

(** What it reads of an element of [metrics_data['docker']]. *)
Record ContainerData := {
  name : string;
  status : string;
  container_cpu_percent : Q;               (* [container['cpu_percent']] *)
  memory_usage : Q
}.

(** [metrics_data]: the three keys are always present; [system] is
    [None] while it still holds the initial empty dict, and the initial
    empty dicts under ['gpu'] and ['docker'] behave as empty lists. *)
Record MetricsData := {
  system : option SystemData;
  gpu : list GpuData;
  docker : list ContainerData
}.

Record Store := {
  max_points : nat;
  data : gmap string (list Q);
  timestamps : list Q
}.

Definition init (max_points : nat) : Store :=
  {| max_points := max_points; data := ∅; timestamps := [] |}.

(** [self.data[metric_name]] *)
Definition series (self : Store) (metric_name : string) : list Q :=
  default [] (data self !! metric_name).

(** [self.data[metric_name].append(value)] *)
Definition data_append (self : Store) (point : string * Q) : Store :=
  {| max_points := max_points self;
     data := <[fst point := deque_append (max_points self) (series self (fst point))
                              (snd point)]> (data self);
     timestamps := timestamps self |}.

Definition system_points (sys : option SystemData) : list (string * Q) :=
  [("cpu_percent"%string, from_option cpu_percent 0 sys);
   ("memory_percent"%string, from_option memory_percent 0 sys);
   ("load_1m"%string, from_option load_1m 0 sys);
   ("load_5m"%string, from_option load_5m 0 sys);
   ("load_15m"%string, from_option load_15m 0 sys)].

Definition gpu_memory_percent (gpu : GpuData) : Q :=
  if Qlt_le_dec 0 (memory_total gpu)
  then (memory_used gpu / memory_total gpu) * 100 else 0.

Definition gpu_points (gpu : GpuData) : list (string * Q) :=
  let gpu_idx := pretty (index gpu) in
  [("gpu_" +:+ gpu_idx +:+ "_utilization", utilization gpu);
   ("gpu_" +:+ gpu_idx +:+ "_memory_percent", gpu_memory_percent gpu);
   ("gpu_" +:+ gpu_idx +:+ "_temperature", temperature gpu);
   ("gpu_" +:+ gpu_idx +:+ "_power", power gpu)].

Definition running_containers (docker : list ContainerData) : Q :=
  Qnat (length (List.filter (fun c => String.eqb (status c) "running") docker)).

Definition container_points (container : ContainerData) : list (string * Q) :=
  [("container_" +:+ name container +:+ "_cpu", container_cpu_percent container);
   ("container_" +:+ name container +:+ "_memory_mb",
    memory_usage container / 1024 / 1024)].

Definition docker_points (docker : list ContainerData) : list (string * Q) :=
  [("total_containers"%string, Qnat (length docker));
   ("running_containers"%string, running_containers docker)]
  ++ flat_map container_points docker.

(** The appends of one [add_data_point], in the order they are made. *)
Definition points_of (metrics_data : MetricsData) : list (string * Q) :=
  system_points (system metrics_data)
  ++ flat_map gpu_points (gpu metrics_data)
  ++ docker_points (docker metrics_data).

(** [now] is the reading of [time.time()]. *)
Definition add_data_point (now : Q) (metrics_data : MetricsData) (self : Store) : Store :=
  let timestamp := now * 1000 in
  fold_left data_append (points_of metrics_data)
    {| max_points := max_points self;
       data := data self;
       timestamps := deque_append (max_points self) (timestamps self) timestamp |}.

(** The loop of [get_time_series] from position [i] on. *)
Fixpoint data_points (cutoff : Q) (values : list Q) (i : nat) (timestamps : list Q)
    : list (Q * Q) :=
  match timestamps with
  | [] => []
  | ts :: rest =>
      (if Qle_bool cutoff ts
       then match values !! i with Some y => [(ts, y)] | None => [] end
       else [])
      ++ data_points cutoff values (S i) rest
  end.

Definition get_time_series (metric_name : string) (time_range_minutes : Q) (now : Q)
    (self : Store) : list (Q * Q) :=
  let cutoff := now * 1000 - time_range_minutes * 60 * 1000 in
  data_points cutoff (series self metric_name) 0 (timestamps self).

Definition get_latest_value (metric_name : string) (self : Store) : Q :=
  default 0 (last (series self metric_name)).

(** The collection loop: one [add_data_point] per round, each with the
    clock reading it takes. *)
Definition record (rounds : list (Q * MetricsData)) (self : Store) : Store :=
  fold_left (fun s round => add_data_point (fst round) (snd round) s) rounds self.

(** The metrics every round appends exactly once, with what is appended. *)
Definition scalar_metrics : list (string * (MetricsData -> Q)) :=
  [("cpu_percent"%string, fun m => from_option cpu_percent 0 (system m));
   ("memory_percent"%string, fun m => from_option memory_percent 0 (system m));
   ("load_1m"%string, fun m => from_option load_1m 0 (system m));
   ("load_5m"%string, fun m => from_option load_5m 0 (system m));
   ("load_15m"%string, fun m => from_option load_15m 0 (system m));
   ("total_containers"%string, fun m => Qnat (length (docker m)));
   ("running_containers"%string, fun m => running_containers (docker m))].

(** What one round appends under [metric_name], in order. *)
Definition values_under (metric_name : string) (points : list (string * Q)) : list Q :=
  map snd (List.filter (fun point => String.eqb (fst point) metric_name) points).

(** The CPU readings one round holds for the containers called
    [container_name]. *)
Definition cpu_readings (container_name : string) (metrics_data : MetricsData) : list Q :=
  map container_cpu_percent
      (List.filter (fun c => String.eqb (name c) container_name) (docker metrics_data)).

(** The device reports no more memory in use than it has. *)
Definition plausible (gpu : GpuData) : Prop :=
  0 <= memory_used gpu /\ memory_used gpu <= memory_total gpu.

End HistoricalData.

(** The last character of a string. *)
Fixpoint last_char (s : string) : option ascii :=
  match s with
  | EmptyString => None
  | String c EmptyString => Some c
  | String _ rest => last_char rest
  end.

(** The last [n] elements of a list. *)
Definition lastn {A} (n : nat) (l : list A) : list A := drop (length l - n) l.

(** ** From a process to its container ([map_pid_to_container]) *)

(** The resolver of both GPU inference exporters: the process's cgroup
    file is searched for [docker[/-]([a-f0-9]{64})] and the first twelve
    characters of the group are handed to [docker inspect]. *)
Module Resolver.

(** [[a-f0-9]] *)
Definition is_hex (c : ascii) : bool :=
  let n := nat_of_ascii c in
  ((48 <=? n)%nat && (n <=? 57)%nat) || ((97 <=? n)%nat && (n <=? 102)%nat).

Fixpoint all_hex (s : string) : bool :=
  match s with
  | EmptyString => true
  | String c rest => is_hex c && all_hex rest
  end.

(** [([a-f0-9]{n})] matched at the head of [s]: the group. *)
Fixpoint hex_group (n : nat) (s : string) : option string :=
  match n with
  | O => Some EmptyString
  | S n' =>
      match s with
      | String c rest =>
          if is_hex c then option_map (String c) (hex_group n' rest) else None
      | EmptyString => None
      end
  end.

(** [s] without its prefix [p], when it has it. *)
Fixpoint strip_prefix (p s : string) : option string :=
  match p, s with
  | EmptyString, _ => Some s
  | String a p', String b s' => if Ascii.eqb a b then strip_prefix p' s' else None
  | String _ _, EmptyString => None
  end.

(** The pattern matched at the head of [s]: group 1. *)
Definition match_here (s : string) : option string :=
  match strip_prefix "docker" s with
  | Some (String sep rest) =>
      if Ascii.eqb sep "/" || Ascii.eqb sep "-" then hex_group 64 rest else None
  | _ => None
  end.

(** [re.search]: the match at the leftmost position that has one. *)
Fixpoint re_search (s : string) : option string :=
  match match_here s with
  | Some group => Some group
  | None =>
      match s with
      | EmptyString => None
      | String _ rest => re_search rest
      end
  end.

(** [proc_cgroup pid] is the content of the process's cgroup file,
    [None] when it cannot be read; [docker_inspect] answers [None] when
    the command fails or its output does not parse.  Every exception is
    caught and gives [None]. *)
Definition map_pid_to_container (proc_cgroup : Z -> option string)
    (docker_inspect : string -> option Inspect) (pid : Z) : option Container :=
  match proc_cgroup pid with
  | Some cgroup_content =>
      match re_search cgroup_content with
      | Some group =>
          let container_id := take12 group in
          match docker_inspect container_id with
          | Some data =>
              Some {| c_id := container_id; c_name := lstrip_slash (Name data) |}
          | None => None
          end
      | None => None
      end
  | None => None
  end.

End Resolver.

(** ** Container CPU usage ([collect_docker_stats]) *)

(** The block "Calculate CPU percentage" of [collect_docker_stats], the
    same in [mega_exporter.py] and [unified_exporter.py]. *)
Module DockerStats.

(** [stats['cpu_stats']] and [stats['precpu_stats']]; a field is [None]
    when its key is missing. *)
Record CpuStats := {
  total_usage : option Q;                  (* [['cpu_usage']['total_usage']] *)
  system_cpu_usage : option Q;
  percpu_usage : option (list Q)           (* [['cpu_usage']['percpu_usage']] *)
}.

(** [len(... .get('percpu_usage', [])) or 1] *)
Definition number_cpus (cpu_stats : CpuStats) : Q :=
  match length (default [] (percpu_usage cpu_stats)) with
  | O => 1
  | n => Qnat n
  end.

(** [None]: a [KeyError], raised before the block writes anything; the
    container is then skipped.  Otherwise the value [cpu_percent] has
    after the block (the mega exporter starts it at 0 and keeps it for
    the dashboard) and the value written to the gauge
    [docker_cpu_usage], if any. *)
Definition cpu_percent (cpu_stats precpu_stats : CpuStats) : option (Q * option Q) :=
  match total_usage cpu_stats, total_usage precpu_stats,
        system_cpu_usage cpu_stats, system_cpu_usage precpu_stats with
  | Some usage, Some pre_usage, Some system_usage, Some pre_system_usage =>
      let cpu_delta := usage - pre_usage in
      let system_cpu_delta := system_usage - pre_system_usage in
      if Qlt_le_dec 0 system_cpu_delta then
        if Qlt_le_dec 0 cpu_delta then
          let cpu_percent :=
            (cpu_delta / system_cpu_delta) * number_cpus cpu_stats * 100 in
          Some (cpu_percent, Some cpu_percent)
        else Some (0, None)
      else Some (0, None)
  | _, _, _, _ => None
  end.

End DockerStats.

(** ** A process in a systemd-managed container *)

Module ResolverScenario.

Definition full_id : string :=
  "aaaaaaaaaaaa0123456789abcdef0123456789abcdef0123456789abcdef0123".

Definition proc_cgroup (pid : Z) : option string :=
  if decide (pid = 4242%Z)
  then Some ("0::/system.slice/docker-" +:+ full_id +:+ ".scope")
  else None.

Definition docker_inspect (cid : string) : option Inspect :=
  if String.eqb cid "aaaaaaaaaaaa"
  then Some (Scenario.inspect_of full_id "trainer")
  else None.

(** The cycle of [Scenario.readings] with the resolver reading that
    cgroup file. *)
Definition readings : Readings :=
  {| nvmlDeviceGetMemoryInfo := nvmlDeviceGetMemoryInfo Scenario.readings;
     nvmlDeviceGetUUID := nvmlDeviceGetUUID Scenario.readings;
     nvidia_smi_stdout := nvidia_smi_stdout Scenario.readings;
     map_pid_to_container := Resolver.map_pid_to_container proc_cgroup docker_inspect;
     docker_ps := docker_ps Scenario.readings |}.

End ResolverScenario.

(** [self.memory_history[gpu_idx]]: the deque of a device, empty when
    nothing was recorded for it. *)
Definition used_history (s : Engine) (gpu_idx : nat) : list Q :=
  default [] (memory_history s !! gpu_idx).

(** The engine has [dc] devices and the used-memory histories [f]. *)
Definition history_is (dc : nat) (f : nat -> list Q) (s : Engine) : Prop :=
  device_count s = dc /\ forall i, used_history s i = f i.

(** * Properties *)

(** ** Sums, maxima and lengths *)

Lemma fold_plus_from (l : list Q) (a : Q) : fold_left Qplus l a == a + py_sum l.
Proof.
  unfold py_sum. revert a.
  induction l as [|x l IH]; intros a; simpl.
  - lra.
  - rewrite (IH (a + x)), (IH (0 + x)). lra.
Qed.

Lemma py_sum_nil : py_sum [] == 0.
Proof. reflexivity. Qed.

Lemma py_sum_cons (x : Q) (l : list Q) : py_sum (x :: l) == x + py_sum l.
Proof. unfold py_sum at 1. simpl. rewrite fold_plus_from. lra. Qed.

Lemma py_sum_app (l1 l2 : list Q) : py_sum (l1 ++ l2) == py_sum l1 + py_sum l2.
Proof.
  induction l1 as [|x l1 IH]; simpl.
  - rewrite py_sum_nil. lra.
  - rewrite !py_sum_cons, IH. lra.
Qed.

Lemma py_sum_nonneg (l : list Q) : Forall (fun x => 0 <= x) l -> 0 <= py_sum l.
Proof.
  induction 1 as [|x l Hx _ IH].
  - rewrite py_sum_nil. lra.
  - rewrite py_sum_cons. lra.
Qed.

Lemma py_sum_lower (l : list Q) (x : Q) :
  Forall (fun y => 0 <= y) l -> x ∈ l -> x <= py_sum l.
Proof.
  intros Hall Hin. induction Hall as [|y l Hy Hl IH].
  - inversion Hin.
  - rewrite py_sum_cons. apply py_sum_nonneg in Hl as Hs.
    inversion Hin; subst.
    + lra.
    + specialize (IH ltac:(assumption)). lra.
Qed.

Lemma Qnat_nonneg (n : nat) : 0 <= Qnat n.
Proof. unfold Qnat, Qle. simpl. lia. Qed.

Lemma Qnat_le (n m : nat) : (n <= m)%nat -> Qnat n <= Qnat m.
Proof. intros H. unfold Qnat, Qle. simpl. lia. Qed.

Lemma Qdiv_nonneg (a b : Q) : 0 <= a -> 0 <= b -> 0 <= a / b.
Proof.
  intros Ha Hb. unfold Qdiv.
  apply Qmult_le_0_compat; [assumption|].
  apply Qinv_le_0_compat. assumption.
Qed.

Lemma Qdiv_le_1 (a b : Q) : 0 <= a -> a <= b -> a / b <= 1.
Proof.
  intros Ha Hab.
  destruct (Qlt_le_dec 0 b) as [Hb|Hb].
  - apply Qle_shift_div_r; lra.
  - assert (Hb0 : b == 0) by lra. assert (Ha0 : a == 0) by lra.
    rewrite Ha0. unfold Qdiv. rewrite Qmult_0_l. lra.
Qed.

(** ** The monad's projections *)

Lemma value_bind {A B} (m : M A) (k : A -> M B) (s : Engine) :
  value_of (bind m k s) = value_of (k (value_of (m s)) (state_of (m s))).
Proof.
  unfold bind, value_of, state_of.
  destruct (m s) as [[a s1] o1]; simpl. destruct (k a s1) as [[b s2] o2]. reflexivity.
Qed.

Lemma state_bind {A B} (m : M A) (k : A -> M B) (s : Engine) :
  state_of (bind m k s) = state_of (k (value_of (m s)) (state_of (m s))).
Proof.
  unfold bind, value_of, state_of.
  destruct (m s) as [[a s1] o1]; simpl. destruct (k a s1) as [[b s2] o2]. reflexivity.
Qed.

Lemma output_bind {A B} (m : M A) (k : A -> M B) (s : Engine) :
  output_of (bind m k s)
  = output_of (m s) ++ output_of (k (value_of (m s)) (state_of (m s))).
Proof.
  unfold bind, value_of, state_of, output_of.
  destruct (m s) as [[a s1] o1]; simpl. destruct (k a s1) as [[b s2] o2]. reflexivity.
Qed.

Lemma for_fold_output_Forall {A B} (P : Sample -> Prop) (body : B -> A -> M B) (l : list A) :
  (forall acc x s, Forall P (output_of (body acc x s))) ->
  forall acc s, Forall P (output_of (for_fold l acc body s)).
Proof.
  intros Hbody. induction l as [|x l IH]; intros acc s; simpl.
  - constructor.
  - rewrite output_bind. apply Forall_app. split; [apply Hbody | apply IH].
Qed.

Lemma for_each_output_Forall {A} (P : Sample -> Prop) (body : A -> M unit) (l : list A) :
  (forall x s, Forall P (output_of (body x s))) ->
  forall s, Forall P (output_of (for_each l body s)).
Proof.
  intros Hbody. induction l as [|x l IH]; intros s; simpl.
  - constructor.
  - rewrite output_bind. apply Forall_app. split; [apply Hbody | apply IH].
Qed.

Lemma omap_none {A B} (f : A -> option B) (l : list A) :
  Forall (fun x => f x = None) l -> omap f l = [].
Proof.
  induction 1 as [|x l Hx _ IH]; simpl; [reflexivity|]. rewrite Hx. exact IH.
Qed.

(** ** C1: unknown memory *)

(** The enhanced exporter writes [max(0, total_used - known_used)] to
    [gpu_memory_unknown_bytes] first of all in a device's iteration. *)
Lemma process_gpu_unknown_sample (HISTORY_SIZE : nat) (clock : nat -> Q)
    (gpu_stats : gmap nat MemInfo) (known_processes : list (nat * list Process))
    (gpu_containers : list Container) (known_container_ids : gset string)
    (gpu_idx : nat) (s : Engine) :
  head (output_of (process_gpu HISTORY_SIZE clock gpu_stats known_processes gpu_containers
                     known_container_ids gpu_idx s))
  = Some (gpu_memory_unknown_bytes gpu_idx
            (unknown_used_of (used (gpu_stats !!! gpu_idx))
               (known_used_of known_processes gpu_idx))).
Proof. unfold process_gpu. rewrite output_bind. reflexivity. Qed.

(** C1, as amended.  For every reported [total_used] and every known
    memory [known_used] of a device, the unknown memory
    [max(0, total_used - known_used)] is non-negative; known plus unknown
    equals the reported used memory whenever the known memory does not
    exceed it, and when it does the unknown memory is clamped to zero, so
    that known plus unknown equals the known memory.  Both inference
    exporters write exactly this value to [gpu_memory_unknown_bytes]. *)
Theorem C1_unknown_memory_clamped (total_used known_used : Q) :
  0 <= unknown_used_of total_used known_used
  /\ (known_used <= total_used ->
      known_used + unknown_used_of total_used known_used == total_used)
  /\ (total_used < known_used ->
      unknown_used_of total_used known_used == 0
      /\ known_used + unknown_used_of total_used known_used == known_used)
  /\ (forall unknown_containers gpu_idx,
        head (GPUMemoryInference.process_gpu total_used known_used unknown_containers gpu_idx)
        = Some (gpu_memory_unknown_bytes gpu_idx (unknown_used_of total_used known_used)))
  /\ (forall HISTORY_SIZE clock (gpu_stats : gmap nat MemInfo) known_processes
        gpu_containers known_container_ids gpu_idx s,
        used (gpu_stats !!! gpu_idx) = total_used ->
        known_used_of known_processes gpu_idx = known_used ->
        head (output_of (process_gpu HISTORY_SIZE clock gpu_stats known_processes
                           gpu_containers known_container_ids gpu_idx s))
        = Some (gpu_memory_unknown_bytes gpu_idx (unknown_used_of total_used known_used))).
Proof.
  assert (Hbasic : forall unknown_containers gpu_idx,
    head (GPUMemoryInference.process_gpu total_used known_used unknown_containers gpu_idx)
    = Some (gpu_memory_unknown_bytes gpu_idx (unknown_used_of total_used known_used)))
    by reflexivity.
  assert (Henhanced : forall HISTORY_SIZE clock (gpu_stats : gmap nat MemInfo)
            known_processes gpu_containers known_container_ids gpu_idx s,
    used (gpu_stats !!! gpu_idx) = total_used ->
    known_used_of known_processes gpu_idx = known_used ->
    head (output_of (process_gpu HISTORY_SIZE clock gpu_stats known_processes
                       gpu_containers known_container_ids gpu_idx s))
    = Some (gpu_memory_unknown_bytes gpu_idx (unknown_used_of total_used known_used))).
  { intros. subst. apply process_gpu_unknown_sample. }
  revert Hbasic Henhanced. unfold unknown_used_of, py_max0.
  destruct (Qlt_le_dec 0 (total_used - known_used)) as [H|H]; intros Hbasic Henhanced;
    repeat split; intros; try lra; try apply Hbasic; try (apply Henhanced; assumption).
Qed.

Lemma C1_unknown_memory_clamped_witness :
  3 + unknown_used_of 10 3 == 10
  /\ unknown_used_of 3 10 == 0 /\ 10 + unknown_used_of 3 10 == 10.
Proof.
  destruct (C1_unknown_memory_clamped 10 3) as (_ & Hle & _).
  destruct (C1_unknown_memory_clamped 3 10) as (_ & _ & Hgt & _).
  split; [apply Hle; lra | apply Hgt; lra].
Defined.

(** The equation of C1 as stated fails when the driver attributes more to
    known processes than it reports as used: with 1 byte used and 2 bytes
    known, known plus unknown is 2. *)
Lemma C1_known_plus_unknown_counterexample :
  ~ (2 + unknown_used_of 1 2 == 1).
Proof. vm_compute. discriminate. Qed.

(** ** C5: the likelihood score *)

Lemma visible_count_le (history : list Observation) :
  (visible_count history <= length history)%nat.
Proof.
  unfold visible_count. induction history as [|h l IH]; simpl; [lia|].
  destruct (visible h); simpl; lia.
Qed.

Lemma visible_fraction_bounds (history : list Observation) :
  0 <= Qnat (visible_count history) / py_len history
  /\ Qnat (visible_count history) / py_len history <= 1.
Proof.
  split.
  - apply Qdiv_nonneg; apply Qnat_nonneg.
  - apply Qdiv_le_1; [apply Qnat_nonneg | apply Qnat_le, visible_count_le].
Qed.

Lemma visible_count_none (history : list Observation) :
  Forall (fun h => visible h = false) history -> visible_count history = 0%nat.
Proof.
  unfold visible_count. induction 1 as [|h l Hh _ IH]; simpl; [reflexivity|].
  rewrite Hh. exact IH.
Qed.

Lemma likelihood_score_bounds (now : Q) (profile : ContainerProfile) :
  0 <= get_gpu_likelihood_score now profile /\ get_gpu_likelihood_score now profile <= 1.
Proof.
  unfold get_gpu_likelihood_score, py_min. cbv zeta.
  pose proof (visible_fraction_bounds (gpu_history profile)) as [Hf0 Hf1].
  set (fraction := Qnat (visible_count (gpu_history profile)) / py_len (gpu_history profile)) in *.
  destruct (is_llm profile);
    destruct (truthy_time (last_seen_with_gpu profile)) as [seen|];
    try (destruct (Qlt_le_dec (now - seen) 300) as [Hrecent|Hstale];
         [assert (Hdecay : (now - seen) / 300 < 1) by (apply Qlt_shift_div_r; lra);
          set (decay := (now - seen) / 300) in * |]);
    destruct (10 <? length (gpu_history profile))%nat;
    match goal with |- context [Qlt_le_dec ?a ?b] => destruct (Qlt_le_dec a b) end;
    split; lra.
Qed.

(** C5.  The likelihood score of every profile at every clock reading
    lies in [[0,1]]; and of two profiles that differ only in their name
    (and so in the flag derived from it at creation), neither ever seen
    visible, the one named [ollama-worker] scores strictly higher than the
    one named [nginx]. *)
Theorem C5_likelihood_score_bounded_and_ranked :
  (forall (now : Q) (profile : ContainerProfile),
      0 <= get_gpu_likelihood_score now profile
      /\ get_gpu_likelihood_score now profile <= 1)
  /\ (forall (cid : string) (history : list Observation) (typical now now' : Q),
        Forall (fun h => visible h = false) history ->
        let candidate (name : string) :=
          {| container_id := cid; container_name := name; gpu_history := history;
             last_seen_with_gpu := None; typical_memory := typical;
             is_llm := _detect_llm_container name |} in
        get_gpu_likelihood_score now' (candidate "nginx"%string)
        < get_gpu_likelihood_score now (candidate "ollama-worker"%string)).
Proof.
  split; [exact likelihood_score_bounds|].
  intros cid history typical now now' Hnone candidate.
  unfold get_gpu_likelihood_score, py_min, candidate, truthy_time,
    gpu_history, last_seen_with_gpu, is_llm.
  cbv zeta.
  change (_detect_llm_container "nginx") with false.
  change (_detect_llm_container "ollama-worker") with true.
  cbv iota.
  rewrite (visible_count_none history Hnone).
  assert (Hz : Qnat 0 / py_len history == 0) by (unfold Qdiv, Qnat; simpl; ring).
  set (fraction := Qnat 0 / py_len history) in *.
  destruct (10 <? length history)%nat;
    repeat match goal with |- context [Qlt_le_dec ?a ?b] => destruct (Qlt_le_dec a b) end;
    lra.
Qed.

Lemma C5_likelihood_score_bounded_and_ranked_witness :
  get_gpu_likelihood_score 0
    {| container_id := "c0ffee000000"; container_name := "nginx";
       gpu_history := [{| timestamp := 1; visible := false; memory := 0 |}];
       last_seen_with_gpu := None; typical_memory := 0;
       is_llm := _detect_llm_container "nginx" |}
  < get_gpu_likelihood_score 0
      {| container_id := "c0ffee000000"; container_name := "ollama-worker";
         gpu_history := [{| timestamp := 1; visible := false; memory := 0 |}];
         last_seen_with_gpu := None; typical_memory := 0;
         is_llm := _detect_llm_container "ollama-worker" |}.
Proof.
  apply (proj2 C5_likelihood_score_bounded_and_ranked
           "c0ffee000000"%string [{| timestamp := 1; visible := false; memory := 0 |}] 0 0 0).
  repeat constructor.
Defined.

(** ** C2: proportional distribution *)

Lemma py_sum_div (t : Q) (l : list Q) :
  py_sum (List.map (fun w => w / t) l) == py_sum l / t.
Proof.
  induction l as [|x l IH]; simpl.
  - rewrite !py_sum_nil. unfold Qdiv. ring.
  - rewrite !py_sum_cons, IH. unfold Qdiv. ring.
Qed.

Lemma py_sum_mult (a : Q) (l : list Q) :
  py_sum (List.map (fun p => a * p) l) == a * py_sum l.
Proof.
  induction l as [|x l IH]; simpl.
  - rewrite !py_sum_nil. ring.
  - rewrite !py_sum_cons, IH. ring.
Qed.

Lemma likelihood_score_value_bounds (clock : nat -> Q) (profile : ContainerProfile)
    (s : Engine) :
  0 <= value_of (likelihood_score clock profile s)
  /\ value_of (likelihood_score clock profile s) <= 1.
Proof.
  unfold likelihood_score.
  destruct (truthy_time (last_seen_with_gpu profile)).
  - rewrite value_bind. apply likelihood_score_bounds.
  - apply likelihood_score_bounds.
Qed.

Lemma get_container_weight_ge_1 (clock : nat -> Q) (container : Container) (s : Engine) :
  1 <= value_of (get_container_weight clock container s).
Proof.
  unfold get_container_weight. rewrite !value_bind.
  match goal with
  | |- context [likelihood_score clock ?p ?s'] =>
      pose proof (likelihood_score_value_bounds clock p s') as [Hl _];
      set (likelihood := value_of (likelihood_score clock p s')) in *;
      destruct (is_llm p)
  end; unfold ret, value_of; simpl; lra.
Qed.

Lemma get_container_weight_output (clock : nat -> Q) (container : Container) (s : Engine) :
  exists likelihood,
    output_of (get_container_weight clock container s)
    = [container_gpu_score (c_name container) (c_id container) likelihood].
Proof.
  unfold get_container_weight. rewrite !output_bind.
  destruct (container_profiles s !! c_id container) eqn:E;
    unfold gets, value_of, state_of, output_of; simpl; rewrite E; simpl;
    unfold likelihood_score;
    try match goal with |- context [truthy_time ?o] => destruct (truthy_time o) end;
    eexists; reflexivity.
Qed.

Lemma weigh_value (clock : nat -> Q) (acc : gmap string Q * Q) (container : Container)
    (s : Engine) :
  value_of (weigh clock acc container s)
  = (<[c_id container := value_of (get_container_weight clock container s)]> (fst acc),
     snd acc + value_of (get_container_weight clock container s)).
Proof. unfold weigh. rewrite value_bind. reflexivity. Qed.

Lemma weigh_output (clock : nat -> Q) (acc : gmap string Q * Q) (container : Container)
    (s : Engine) :
  output_of (weigh clock acc container s) = output_of (get_container_weight clock container s).
Proof. unfold weigh. rewrite output_bind. simpl. apply app_nil_r. Qed.

(** What the first loop of [distribute_unknown_memory] leaves in
    [weights] and [total_weight] when no two containers share an id. *)
Lemma collect_weights_spec (clock : nat -> Q) (l : list Container) :
  forall (acc : gmap string Q * Q) (s : Engine),
    NoDup (List.map c_id l) ->
    exists wl : list Q,
      length wl = length l
      /\ Forall (fun w => 1 <= w) wl
      /\ snd (value_of (for_fold l acc (weigh clock) s)) = fold_left Qplus wl (snd acc)
      /\ (forall i c, l !! i = Some c ->
            fst (value_of (for_fold l acc (weigh clock) s)) !! c_id c = wl !! i)
      /\ (forall k, ~ In k (List.map c_id l) ->
            fst (value_of (for_fold l acc (weigh clock) s)) !! k = fst acc !! k).
Proof.
  induction l as [|c l IH]; intros acc s Hnodup.
  - exists []. simpl. repeat split; try constructor. intros i c H. inversion H.
  - apply NoDup_cons in Hnodup as [Hfresh Hnodup].
    simpl for_fold. rewrite value_bind, weigh_value.
    set (w := value_of (get_container_weight clock c s)).
    set (s1 := state_of (weigh clock acc c s)).
    destruct (IH (<[c_id c := w]> (fst acc), snd acc + w) s1 Hnodup)
      as (wl & Hlen & Hge & Htotal & Hlook & Hother).
    exists (w :: wl). repeat split.
    + simpl. congruence.
    + constructor; [apply get_container_weight_ge_1 | exact Hge].
    + rewrite Htotal. reflexivity.
    + intros [|i] c' Hc'; simpl in *.
      * injection Hc' as <-. rewrite Hother.
        -- simpl. apply lookup_insert_eq.
        -- rewrite <- list_elem_of_In. exact Hfresh.
      * apply Hlook. exact Hc'.
    + intros k Hk. rewrite Hother.
      * simpl. apply lookup_insert_ne. intros Heq. apply Hk. left. exact Heq.
      * intros Hin. apply Hk. right. exact Hin.
Qed.

Lemma collect_weights_output (clock : nat -> Q) (l : list Container)
    (acc : gmap string Q * Q) (s : Engine) :
  inferred_allocations (output_of (for_fold l acc (weigh clock) s)) = [].
Proof.
  apply omap_none. apply for_fold_output_Forall.
  intros acc' c s'. rewrite weigh_output.
  destruct (get_container_weight_output clock c s') as [likelihood ->].
  repeat constructor.
Qed.

Lemma for_each_emit_output {A} (f : A -> Sample) (l : list A) (s : Engine) :
  output_of (for_each l (fun x => emit (f x)) s) = List.map f l.
Proof.
  revert s. induction l as [|x l IH]; intros s; simpl.
  - reflexivity.
  - rewrite output_bind. simpl. f_equal. apply IH.
Qed.

Lemma weights_in_order (g : Q -> Q) (weights : gmap string Q) (l : list Container)
    (wl : list Q) :
  length wl = length l ->
  (forall i c, l !! i = Some c -> weights !! c_id c = wl !! i) ->
  List.map (fun c => g (weights !!! c_id c)) l = List.map g wl.
Proof.
  revert wl. induction l as [|c l IH]; intros [|w wl] Hlen Hlook; simpl in *; try lia.
  - reflexivity.
  - f_equal.
    + f_equal. rewrite lookup_total_alt, (Hlook 0%nat c eq_refl). reflexivity.
    + apply IH; [lia|]. intros i c' Hc'. apply (Hlook (S i) c' Hc').
Qed.

Lemma inferred_allocations_map {A} (name cid : A -> string) (gpu : nat) (f : A -> Q)
    (l : list A) :
  inferred_allocations
    (List.map (fun x => container_gpu_memory_bytes (name x) (cid x) gpu inference (f x)) l)
  = List.map f l.
Proof. induction l as [|x l IH]; simpl; [reflexivity | f_equal; exact IH]. Qed.

Lemma total_weight_ge_1 (wl : list Q) :
  wl <> [] -> Forall (fun w => 1 <= w) wl -> 1 <= py_sum wl.
Proof.
  intros Hne Hge. destruct Hge as [|w wl Hw Hrest]; [congruence|].
  rewrite py_sum_cons.
  assert (0 <= py_sum wl).
  { apply py_sum_nonneg. eapply Forall_impl; [exact Hrest|]. simpl. intros; lra. }
  lra.
Qed.

(** The allocations [distribute_unknown_memory] writes, in terms of the
    weights its first loop gathered. *)
Lemma distribute_allocations (clock : nat -> Q) (unknown_memory : Q)
    (unknown_containers : list Container) (gpu_idx : nat) (s : Engine) :
  0 < unknown_memory ->
  0 < snd (value_of (collect_weights clock unknown_containers s)) ->
  inferred_allocations
    (output_of (distribute_unknown_memory clock unknown_memory unknown_containers gpu_idx s))
  = List.map (fun c =>
           unknown_memory
           * ((fst (value_of (collect_weights clock unknown_containers s)) !!! c_id c)
              / snd (value_of (collect_weights clock unknown_containers s))))
      unknown_containers.
Proof.
  intros Hpos Htotal. unfold distribute_unknown_memory.
  destruct unknown_containers as [|c0 rest]; [reflexivity|].
  destruct (Qlt_le_dec 0 unknown_memory) as [_|Hle]; [|lra].
  rewrite output_bind. unfold inferred_allocations at 1. rewrite omap_app.
  fold (inferred_allocations (output_of (collect_weights clock (c0 :: rest) s))).
  unfold collect_weights at 1. rewrite collect_weights_output, app_nil_l.
  set (acc := value_of (collect_weights clock (c0 :: rest) s)) in *.
  destruct (Qlt_le_dec 0 (snd acc)) as [_|Hle]; [|lra].
  rewrite (for_each_emit_output
             (fun container =>
                container_gpu_memory_bytes (c_name container) (c_id container) gpu_idx inference
                  (unknown_memory * ((fst acc !!! c_id container) / snd acc)))).
  apply (inferred_allocations_map c_name c_id gpu_idx
           (fun container => unknown_memory * ((fst acc !!! c_id container) / snd acc))).
Qed.

(** C2.  Whenever the unknown memory of a device is positive and the
    unresolved candidates are a non-empty set (no two share an id), the
    proportions [weights[id] / total_weight] sum to 1, the allocations
    written with [method='inference'] are [unknown_memory] times these
    proportions, they sum to [unknown_memory], and each lies between 0 and
    [unknown_memory]. *)
Theorem C2_distribution_normalised (clock : nat -> Q) (unknown_memory : Q)
    (unknown_containers : list Container) (gpu_idx : nat) (s : Engine) :
  0 < unknown_memory ->
  unknown_containers <> [] ->
  NoDup (List.map c_id unknown_containers) ->
  let acc := value_of (collect_weights clock unknown_containers s) in
  let normalized := List.map (fun c => (fst acc !!! c_id c) / snd acc) unknown_containers in
  let allocations :=
    inferred_allocations
      (output_of (distribute_unknown_memory clock unknown_memory unknown_containers gpu_idx s)) in
  py_sum normalized == 1
  /\ allocations = List.map (fun p => unknown_memory * p) normalized
  /\ py_sum allocations == unknown_memory
  /\ Forall (fun a => 0 <= a /\ a <= unknown_memory) allocations.
Proof.
  intros Hpos Hne Hnodup acc normalized allocations.
  destruct (collect_weights_spec clock unknown_containers (∅, 0) s Hnodup)
    as (wl & Hlen & Hge & Htotal & Hlook & _).
  change (for_fold unknown_containers (∅, 0) (weigh clock) s)
    with (collect_weights clock unknown_containers s) in *.
  fold acc in Htotal, Hlook. simpl in Htotal. fold (py_sum wl) in Htotal.
  assert (Hwl : wl <> []).
  { intros ->. destruct unknown_containers; [congruence | discriminate]. }
  pose proof (total_weight_ge_1 wl Hwl Hge) as Hsum.
  assert (Hnorm : normalized = List.map (fun w => w / snd acc) wl).
  { subst normalized. apply (weights_in_order (fun w => w / snd acc)); assumption. }
  assert (Halloc : allocations = List.map (fun p => unknown_memory * p) normalized).
  { subst allocations normalized. rewrite distribute_allocations.
    - fold acc. rewrite List.map_map. reflexivity.
    - exact Hpos.
    - fold acc. rewrite Htotal. lra. }
  assert (Hone : py_sum normalized == 1).
  { rewrite Hnorm, py_sum_div, Htotal. field. lra. }
  repeat split.
  - exact Hone.
  - exact Halloc.
  - rewrite Halloc, py_sum_mult, Hone. ring.
  - rewrite Halloc, Hnorm, List.map_map. apply Forall_forall.
    intros a Ha. apply list_elem_of_In, in_map_iff in Ha as (w & <- & Hw).
    assert (1 <= w) by (rewrite Forall_forall in Hge; apply Hge, list_elem_of_In, Hw).
    assert (w <= py_sum wl).
    { apply py_sum_lower; [|apply list_elem_of_In, Hw].
      eapply Forall_impl; [exact Hge|]. simpl. intros; lra. }
    rewrite Htotal.
    assert (0 <= w / py_sum wl) by (apply Qdiv_nonneg; lra).
    assert (w / py_sum wl <= 1) by (apply Qdiv_le_1; lra).
    set (p := w / py_sum wl) in *. split; nra.
Qed.

Lemma C2_distribution_normalised_witness :
  py_sum
    (inferred_allocations
       (output_of
          (distribute_unknown_memory Scenario.wall_clock (8 * Scenario.GiB)
             [Scenario.B; Scenario.C] 0 (EnhancedGPUInference_init 1))))
  == 8 * Scenario.GiB.
Proof.
  assert (Hpos : 0 < 8 * Scenario.GiB) by reflexivity.
  assert (Hne : [Scenario.B; Scenario.C] <> []) by discriminate.
  assert (Hnodup : NoDup (List.map c_id [Scenario.B; Scenario.C])).
  { apply (bool_decide_unpack _). vm_compute. exact I. }
  exact (proj1 (proj2 (proj2
           (C2_distribution_normalised Scenario.wall_clock (8 * Scenario.GiB)
              [Scenario.B; Scenario.C] 0 (EnhancedGPUInference_init 1) Hpos Hne Hnodup)))).
Defined.

(** ** C3: the 16 GiB scenario *)

(** The weight of a container on its first sighting. *)
Lemma get_container_weight_first_sighting (clock : nat -> Q) (container : Container)
    (s : Engine) :
  container_profiles s !! c_id container = None ->
  value_of (get_container_weight clock container s)
  == (if _detect_llm_container (c_name container) then 2 else 1)
     * (if _detect_llm_container (c_name container) then 3 # 2 else 1).
Proof.
  intros Hnew. unfold get_container_weight. rewrite !value_bind.
  unfold gets, value_of, state_of; simpl. rewrite Hnew; simpl.
  unfold get_gpu_likelihood_score, py_min; simpl.
  destruct (_detect_llm_container (c_name container)); vm_compute; reflexivity.
Qed.

(** C3.  One device with 16 GiB total and 10 GiB used; a known process of
    2 GiB mapped to container A; unresolved GPU containers B ([ollama])
    and C ([web]), neither seen before.  The cycle reports 8 GiB unknown,
    weighs B at 3 and C at 1, allocates 6 GiB to B and 2 GiB to C, and
    sets the device's inference-active flag. *)
Theorem C3_scenario_16GiB (HISTORY_SIZE : nat) (clock : nat -> Q) :
  let cycle :=
    calculate_inference HISTORY_SIZE clock Scenario.readings (EnhancedGPUInference_init 1) in
  Forall2 Sample_equiv (output_of cycle) Scenario.expected
  /\ In (gpu_memory_unknown_bytes 0
           (unknown_used_of (10 * Scenario.GiB)
              (known_used_of (get_known_gpu_processes 1 Scenario.readings) 0)))
        (output_of cycle)
  /\ unknown_used_of (10 * Scenario.GiB)
       (known_used_of (get_known_gpu_processes 1 Scenario.readings) 0) == 8 * Scenario.GiB
  /\ (forall s, container_profiles s !! c_id Scenario.B = None ->
        value_of (get_container_weight clock Scenario.B s) == 1 * 2 * (1 + (1 # 2))
        /\ value_of (get_container_weight clock Scenario.B s) == 3)
  /\ (forall s, container_profiles s !! c_id Scenario.C = None ->
        value_of (get_container_weight clock Scenario.C s) == 1 * 1 * (1 + 0)
        /\ value_of (get_container_weight clock Scenario.C s) == 1)
  /\ Forall2 Qeq (inferred_allocations (output_of cycle))
       [6 * Scenario.GiB; 2 * Scenario.GiB]
  /\ active_flags 0 (output_of cycle) = [1].
Proof.
  intros cycle.
  assert (Hout : exists out, output_of cycle = out /\ Forall2 Sample_equiv out Scenario.expected
                             /\ active_flags 0 out = [1]
                             /\ Forall2 Qeq (inferred_allocations out)
                                  [6 * Scenario.GiB; 2 * Scenario.GiB]
                             /\ In (gpu_memory_unknown_bytes 0
           (unknown_used_of (10 * Scenario.GiB)
              (known_used_of (get_known_gpu_processes 1 Scenario.readings) 0))) out).
  { subst cycle. destruct HISTORY_SIZE as [|n]; eexists; (split; [vm_compute; reflexivity|]);
      (split; [repeat constructor|]); (split; [reflexivity|]);
      (split; [repeat constructor | vm_compute; tauto]). }
  destruct Hout as (out & -> & Hexp & Hflag & Halloc & Hin).
  repeat split; try assumption.
  - rewrite (get_container_weight_first_sighting clock Scenario.B s) by assumption.
    reflexivity.
  - rewrite (get_container_weight_first_sighting clock Scenario.B s) by assumption.
    reflexivity.
  - rewrite (get_container_weight_first_sighting clock Scenario.C s) by assumption.
    reflexivity.
  - rewrite (get_container_weight_first_sighting clock Scenario.C s) by assumption.
    reflexivity.
Qed.

Lemma C3_scenario_16GiB_witness :
  value_of (get_container_weight Scenario.wall_clock Scenario.B (EnhancedGPUInference_init 1))
  == 3.
Proof.
  destruct (C3_scenario_16GiB 30 Scenario.wall_clock) as (_ & _ & _ & HB & _).
  apply (HB (EnhancedGPUInference_init 1)). reflexivity.
Defined.

(** ** The samples of one device's iteration *)

Lemma container_level_no_flag (gpu : nat) (out : list Sample) :
  Forall container_level out -> active_flags gpu out = [].
Proof.
  intros H. apply omap_none. eapply Forall_impl; [exact H|].
  intros []; simpl; intros; tauto.
Qed.

Lemma container_level_no_confidence (gpu : nat) (out : list Sample) :
  Forall container_level out -> confidences gpu out = [].
Proof.
  intros H. apply omap_none. eapply Forall_impl; [exact H|].
  intros []; simpl; intros; tauto.
Qed.

Lemma update_if_profiled_output (HISTORY_SIZE : nat) (clock : nat -> Q) (cid : string)
    (has_visible_gpu : bool) (memory_bytes : Q) (s : Engine) :
  output_of (update_if_profiled HISTORY_SIZE clock cid has_visible_gpu memory_bytes s) = [].
Proof.
  unfold update_if_profiled. rewrite output_bind. simpl.
  unfold gets, value_of, state_of; simpl.
  destruct (container_profiles s !! cid); [|reflexivity].
  destruct has_visible_gpu; reflexivity.
Qed.

Lemma find_unknown_containers_output (HISTORY_SIZE : nat) (clock : nat -> Q)
    (gpu_containers : list Container) (known_container_ids : gset string) (s : Engine) :
  Forall container_level
    (output_of (find_unknown_containers HISTORY_SIZE clock gpu_containers
                  known_container_ids s)).
Proof.
  unfold find_unknown_containers. apply for_fold_output_Forall.
  intros acc c s'. unfold classify_container. rewrite output_bind. simpl.
  constructor; [exact I|].
  destruct (decide (c_id c ∈ known_container_ids)); [constructor|].
  rewrite output_bind, update_if_profiled_output. constructor.
Qed.

Lemma distribute_unknown_memory_output (clock : nat -> Q) (unknown_memory : Q)
    (unknown_containers : list Container) (gpu_idx : nat) (s : Engine) :
  Forall container_level
    (output_of (distribute_unknown_memory clock unknown_memory unknown_containers gpu_idx s)).
Proof.
  unfold distribute_unknown_memory.
  destruct unknown_containers as [|c0 rest]; [constructor|].
  destruct (Qlt_le_dec 0 unknown_memory); [|constructor].
  rewrite output_bind. apply Forall_app. split.
  - unfold collect_weights. apply for_fold_output_Forall.
    intros acc c s'. rewrite weigh_output.
    destruct (get_container_weight_output clock c s') as [likelihood ->].
    repeat constructor.
  - apply for_each_output_Forall. intros c s'.
    match goal with |- context [Qlt_le_dec ?a ?b] => destruct (Qlt_le_dec a b) end;
      repeat constructor.
Qed.

Lemma calculate_inference_confidence_output (gpu_idx : nat)
    (unknown_memory total_memory : Q) (s : Engine) :
  output_of (calculate_inference_confidence gpu_idx unknown_memory total_memory s)
  = if Qeq_dec total_memory 0 then []
    else [gpu_inference_confidence gpu_idx
            (confidence_of (default [] (memory_history s !! gpu_idx))
               unknown_memory total_memory)].
Proof.
  unfold calculate_inference_confidence.
  destruct (Qeq_dec total_memory 0); [reflexivity|].
  rewrite !output_bind. unfold gets, value_of, state_of; simpl.
  destruct (memory_history s !! gpu_idx); reflexivity.
Qed.

(** The registry writes of one iteration of the loop over the devices. *)
Lemma process_gpu_output (HISTORY_SIZE : nat) (clock : nat -> Q)
    (gpu_stats : gmap nat MemInfo) (known_processes : list (nat * list Process))
    (gpu_containers : list Container) (known_container_ids : gset string)
    (gpu_idx : nat) (s : Engine) :
  let total_used := used (gpu_stats !!! gpu_idx) in
  let unknown_used := unknown_used_of total_used (known_used_of known_processes gpu_idx) in
  exists (detected distributed : list Sample) (history : list Q),
    Forall container_level detected
    /\ Forall container_level distributed
    /\ output_of (process_gpu HISTORY_SIZE clock gpu_stats known_processes gpu_containers
                    known_container_ids gpu_idx s)
       = [gpu_memory_unknown_bytes gpu_idx unknown_used;
          unknown_memory_histogram unknown_used]
         ++ detected
         ++ (if Qlt_le_dec 0 unknown_used then
               [gpu_inference_active gpu_idx 1]
               ++ (if Qeq_dec total_used 0 then []
                   else [gpu_inference_confidence gpu_idx
                           (confidence_of history unknown_used total_used)])
               ++ distributed
             else [gpu_inference_active gpu_idx 0; gpu_inference_confidence gpu_idx 0]).
Proof.
  intros total_used unknown_used. unfold process_gpu.
  fold total_used. fold unknown_used. cbv zeta.
  rewrite !output_bind.
  set (found := find_unknown_containers HISTORY_SIZE clock gpu_containers known_container_ids _).
  destruct (Qlt_le_dec 0 unknown_used) as [Hpos|Hnone].
  - rewrite !output_bind, calculate_inference_confidence_output.
    eexists (output_of found), _, _. split; [apply find_unknown_containers_output|].
    split; [apply distribute_unknown_memory_output|]. reflexivity.
  - exists (output_of found), [], []. split; [apply find_unknown_containers_output|].
    split; [constructor|]. reflexivity.
Qed.

(** ** C4: the inference-active flag *)

(** C4, as amended.  The mega and the unified exporter set the flag of a
    device to 1 exactly when its unknown memory exceeds 100 MiB
    ([100 * 1024 * 1024] bytes) and to 0 at or below it.  The two
    inference exporters have no threshold: they set the flag to 1 exactly
    when the unknown memory is positive, and to 0 when it is zero. *)
Theorem C4_inference_active_flag :
  (forall (gpu_idx : nat) (mem_used : Q) (processes : option (list Q)),
      let result := AuraMegaExporter.process_inference gpu_idx mem_used processes in
      (AuraMegaExporter.inference_active (fst result) = true
       <-> 100 * 1024 * 1024 < AuraMegaExporter.memory_unknown (fst result))
      /\ (forall usedGpuMemory, processes = Some usedGpuMemory ->
            AuraMegaExporter.memory_unknown (fst result)
            = py_max0 (mem_used - py_sum usedGpuMemory)
            /\ In (AuraMegaExporter.gpu_inference_active gpu_idx
                     (if AuraMegaExporter.inference_active (fst result) then 1 else 0))
                 (snd result)))
  /\ (forall (gpu_idx : nat) (used_memory : Q) (processes : list Process)
        (containers_with_gpu : list Container)
        (pid_belongs_to_container : Z -> string -> bool),
        let unknown_memory :=
          py_max0 (used_memory - py_sum (List.map memory_bytes processes)) in
        let out :=
          UnifiedExporter.process_gpu gpu_idx used_memory processes containers_with_gpu
            pid_belongs_to_container in
        (In (UnifiedExporter.gpu_inference_active gpu_idx 1) out
         <-> 100 * 1024 * 1024 < unknown_memory)
        /\ (In (UnifiedExporter.gpu_inference_active gpu_idx 0) out
            <-> unknown_memory <= 100 * 1024 * 1024))
  /\ (forall (HISTORY_SIZE : nat) (clock : nat -> Q) (gpu_stats : gmap nat MemInfo)
        (known_processes : list (nat * list Process)) (gpu_containers : list Container)
        (known_container_ids : gset string) (gpu_idx : nat) (s : Engine),
        let unknown_used :=
          unknown_used_of (used (gpu_stats !!! gpu_idx))
            (known_used_of known_processes gpu_idx) in
        active_flags gpu_idx
          (output_of (process_gpu HISTORY_SIZE clock gpu_stats known_processes gpu_containers
                        known_container_ids gpu_idx s))
        = [if Qlt_le_dec 0 unknown_used then 1 else 0])
  /\ (forall (total_used known_used : Q) (unknown_containers : list Container)
        (gpu_idx : nat),
        active_flags gpu_idx
          (GPUMemoryInference.process_gpu total_used known_used unknown_containers gpu_idx)
        = [if Qlt_le_dec 0 (unknown_used_of total_used known_used) then 1 else 0]).
Proof.
  split; [|split; [|split]].
  - intros gpu_idx mem_used [usedGpuMemory|] result; subst result;
      unfold AuraMegaExporter.process_inference.
    + destruct (Qlt_le_dec (100 * 1024 * 1024) (py_max0 (mem_used - py_sum usedGpuMemory)))
        as [Habove|Hbelow]; simpl; (split; [split; [intros; try lra; discriminate|] |]).
      * reflexivity.
      * intros l [= <-]. split; [reflexivity | tauto].
      * intros Habove. exfalso. lra.
      * intros l [= <-]. split; [reflexivity | tauto].
    + simpl. split; [split; [discriminate | intros H; vm_compute in H; discriminate] | discriminate].
  - intros gpu_idx used_memory processes containers belongs unknown_memory out.
    subst out. unfold UnifiedExporter.process_gpu. fold unknown_memory.
    destruct (Qlt_le_dec (100 * 1024 * 1024) unknown_memory) as [Habove|Hbelow].
    + split; (split; [intros Hin | intros Hcmp]); try assumption; try (exfalso; lra).
      * right. right. left. reflexivity.
      * exfalso. destruct Hin as [H|[H|[H|Hin]]]; try discriminate.
        destruct (List.filter _ containers); [destruct Hin|].
        apply in_map_iff in Hin as (c' & Hc' & _). discriminate.
    + split; (split; [intros Hin | intros Hcmp]); try assumption; try (exfalso; lra).
      * exfalso. destruct Hin as [H|[H|[H|[]]]]; discriminate.
      * right. right. left. reflexivity.
  - intros HISTORY_SIZE clock gpu_stats known_processes gpu_containers known_container_ids
      gpu_idx s unknown_used.
    destruct (process_gpu_output HISTORY_SIZE clock gpu_stats known_processes gpu_containers
                known_container_ids gpu_idx s)
      as (detected & distributed & history & Hdet & Hdist & ->).
    fold unknown_used.
    unfold active_flags. rewrite !omap_app.
    fold (active_flags gpu_idx detected).
    rewrite (container_level_no_flag gpu_idx detected Hdet).
    destruct (Qlt_le_dec 0 unknown_used).
    + rewrite !omap_app. fold (active_flags gpu_idx distributed).
      rewrite (container_level_no_flag gpu_idx distributed Hdist).
      simpl. rewrite decide_True by reflexivity.
      destruct (Qeq_dec _ 0); reflexivity.
    + simpl. rewrite decide_True by reflexivity. reflexivity.
  - intros total_used known_used unknown_containers gpu_idx.
    unfold GPUMemoryInference.process_gpu, unknown_used_of.
    destruct (Qlt_le_dec 0 (py_max0 (total_used - known_used))).
    + simpl. rewrite decide_True by reflexivity. f_equal.
      apply container_level_no_flag.
      destruct unknown_containers; [constructor|].
      apply Forall_forall. intros x Hx. apply list_elem_of_In, in_map_iff in Hx as (c' & <- & _).
      exact I.
    + simpl. rewrite decide_True by reflexivity. reflexivity.
Qed.

Lemma C4_inference_active_flag_witness :
  AuraMegaExporter.memory_unknown
    (fst (AuraMegaExporter.process_inference 0 (10 * Scenario.GiB) (Some [2 * Scenario.GiB])))
  = py_max0 (10 * Scenario.GiB - py_sum [2 * Scenario.GiB])
  /\ In (AuraMegaExporter.gpu_inference_active 0
           (if AuraMegaExporter.inference_active
                 (fst (AuraMegaExporter.process_inference 0 (10 * Scenario.GiB)
                         (Some [2 * Scenario.GiB])))
            then 1 else 0))
       (snd (AuraMegaExporter.process_inference 0 (10 * Scenario.GiB)
               (Some [2 * Scenario.GiB]))).
Proof.
  apply (proj2 (proj1 C4_inference_active_flag 0%nat (10 * Scenario.GiB)
                  (Some [2 * Scenario.GiB])) [2 * Scenario.GiB]).
  reflexivity.
Defined.

(** On the enhanced exporter the threshold of C4 as stated is absent: a
    device with 50 MiB of unknown memory, below 100 MiB, gets its flag set
    to 1. *)
Lemma C4_threshold_counterexample :
  let out :=
    output_of (calculate_inference 30 Scenario.wall_clock Scenario.quiet_readings
                 (EnhancedGPUInference_init 1)) in
  active_flags 0 out = [1]
  /\ exists unknown_used,
       In (gpu_memory_unknown_bytes 0 unknown_used) out
       /\ unknown_used == 50 * Scenario.MiB
       /\ ~ 100 * 1024 * 1024 < unknown_used.
Proof.
  split; [reflexivity|].
  eexists. split; [vm_compute; right; right; right; left; reflexivity|].
  split; [reflexivity | vm_compute; discriminate].
Qed.

(** ** C6: the confidence *)

Lemma Qsquare_nonneg (z : Q) : 0 <= z ^ 2.
Proof.
  assert (H : z ^ 2 == z * z) by (simpl; ring). rewrite H.
  destruct (Qlt_le_dec z 0) as [Hneg|Hpos].
  - assert (H' : z * z == (- z) * (- z)) by ring. rewrite H'.
    apply Qmult_le_0_compat; lra.
  - apply Qmult_le_0_compat; lra.
Qed.

Lemma variance_nonneg (avg : Q) (history : list Q) :
  0 <= py_sum (List.map (fun x => (x - avg) ^ 2) history) / py_len history.
Proof.
  apply Qdiv_nonneg; [|apply Qnat_nonneg].
  apply py_sum_nonneg. apply Forall_forall. intros y Hy.
  apply list_elem_of_In, in_map_iff in Hy as (x & <- & _).
  apply Qsquare_nonneg.
Qed.

Lemma stability_bounds (history : list Q) :
  0 <= stability_of history /\ stability_of history <= 1.
Proof.
  unfold stability_of. cbv zeta.
  set (avg := py_sum history / py_len history).
  pose proof (variance_nonneg avg history) as Hvar.
  set (variance := py_sum (List.map (fun x => (x - avg) ^ 2) history) / py_len history) in *.
  destruct (Qlt_le_dec 0 avg) as [Havg|Havg].
  - pose proof (Qsquare_nonneg avg) as Hsq.
    assert (Hratio : 0 <= variance / avg ^ 2) by (apply Qdiv_nonneg; assumption).
    split; [apply Qdiv_nonneg; lra | apply Qdiv_le_1; lra].
  - split; [apply Qdiv_nonneg; lra | apply Qdiv_le_1; lra].
Qed.

Lemma confidence_of_factor (history : list Q) (unknown_memory total_memory : Q) :
  confidence_of history unknown_memory total_memory
  == unknown_memory / total_memory
     * (if (10 <? length history)%nat then stability_of history else 1 # 2).
Proof. unfold confidence_of. destruct (10 <? length history)%nat; reflexivity. Qed.

Lemma confidence_of_bounds (history : list Q) (unknown_memory total_memory : Q) :
  0 <= unknown_memory -> unknown_memory <= total_memory ->
  0 <= confidence_of history unknown_memory total_memory
  /\ confidence_of history unknown_memory total_memory <= 1.
Proof.
  intros Hu Hle. rewrite confidence_of_factor.
  assert (Hr0 : 0 <= unknown_memory / total_memory) by (apply Qdiv_nonneg; lra).
  assert (Hr1 : unknown_memory / total_memory <= 1) by (apply Qdiv_le_1; lra).
  set (ratio := unknown_memory / total_memory) in *.
  pose proof (stability_bounds history) as [Hs0 Hs1].
  destruct (10 <? length history)%nat; split; nra.
Qed.

Lemma confidence_of_monotone (h1 h2 : list Q) (u1 t1 u2 t2 : Q) :
  (if (10 <? length h1)%nat then stability_of h1 else 1 # 2)
  == (if (10 <? length h2)%nat then stability_of h2 else 1 # 2) ->
  u1 / t1 <= u2 / t2 ->
  confidence_of h1 u1 t1 <= confidence_of h2 u2 t2.
Proof.
  intros Hsame Hratio. rewrite !confidence_of_factor, Hsame.
  pose proof (stability_bounds h2) as [Hs0 _].
  destruct (10 <? length h2)%nat; apply Qmult_le_compat_r; lra.
Qed.

(** C6.  The confidence a cycle writes for a device lies in [[0,1]]
    (the memory reserved by known processes being non-negative); it is 0
    when the device's used memory is 0, both as written by the cycle and
    as returned by [calculate_inference_confidence]; it is the unknown
    ratio times the stability factor, which is [1/(1 + variance/mean²)]
    once the history holds more than 10 samples of positive mean and
    [1/2] up to 10 samples; and between any two readings with the same
    stability factor it is monotonically non-decreasing in the unknown
    ratio. *)
Theorem C6_confidence :
  (forall (HISTORY_SIZE : nat) (clock : nat -> Q) (gpu_stats : gmap nat MemInfo)
      (known_processes : list (nat * list Process)) (gpu_containers : list Container)
      (known_container_ids : gset string) (gpu_idx : nat) (s : Engine),
      0 <= known_used_of known_processes gpu_idx ->
      let written :=
        confidences gpu_idx
          (output_of (process_gpu HISTORY_SIZE clock gpu_stats known_processes gpu_containers
                        known_container_ids gpu_idx s)) in
      Forall (fun c => 0 <= c /\ c <= 1) written
      /\ (used (gpu_stats !!! gpu_idx) == 0 -> written = [0]))
  /\ (forall (gpu_idx : nat) (unknown_memory total_memory : Q) (s : Engine),
        total_memory == 0 ->
        value_of (calculate_inference_confidence gpu_idx unknown_memory total_memory s) = 0)
  /\ (forall (history : list Q) (unknown_memory total_memory : Q),
        confidence_of history unknown_memory total_memory
        == unknown_memory / total_memory
           * (if (10 <? length history)%nat then stability_of history else 1 # 2))
  /\ (forall (history : list Q),
        let avg := py_sum history / py_len history in
        let variance := py_sum (List.map (fun x => (x - avg) ^ 2) history) / py_len history in
        0 < avg ->
        stability_of history == 1 / (1 + variance / (avg ^ 2)))
  /\ (forall (h1 h2 : list Q) (u1 t1 u2 t2 : Q),
        (if (10 <? length h1)%nat then stability_of h1 else 1 # 2)
        == (if (10 <? length h2)%nat then stability_of h2 else 1 # 2) ->
        u1 / t1 <= u2 / t2 ->
        confidence_of h1 u1 t1 <= confidence_of h2 u2 t2).
Proof.
  split; [|split; [|split; [|split]]].
  - intros HISTORY_SIZE clock gpu_stats known_processes gpu_containers known_container_ids
      gpu_idx s Hknown written.
    destruct (process_gpu_output HISTORY_SIZE clock gpu_stats known_processes gpu_containers
                known_container_ids gpu_idx s)
      as (detected & distributed & history & Hdet & Hdist & Hout).
    subst written. rewrite Hout. clear Hout.
    set (total_used := used (gpu_stats !!! gpu_idx)).
    set (known_used := known_used_of known_processes gpu_idx) in *.
    unfold confidences. rewrite !omap_app.
    fold (confidences gpu_idx detected).
    rewrite (container_level_no_confidence gpu_idx detected Hdet).
    unfold unknown_used_of, py_max0.
    destruct (Qlt_le_dec 0 (total_used - known_used)) as [Hpos|Hnone].
    + destruct (Qlt_le_dec 0 (total_used - known_used)) as [_|Hcontra]; [|lra].
      rewrite !omap_app. fold (confidences gpu_idx distributed).
      rewrite (container_level_no_confidence gpu_idx distributed Hdist).
      destruct (Qeq_dec total_used 0) as [Hzero|Hnonzero]; [lra|].
      simpl. rewrite decide_True by reflexivity. simpl. split.
      * constructor; [|constructor]. apply confidence_of_bounds; lra.
      * intros Hzero. lra.
    + destruct (Qlt_le_dec 0 0) as [Hcontra|_]; [lra|].
      simpl. rewrite decide_True by reflexivity. simpl. split.
      * constructor; [lra | constructor].
      * reflexivity.
  - intros gpu_idx unknown_memory total_memory s Hzero.
    unfold calculate_inference_confidence.
    destruct (Qeq_dec total_memory 0); [reflexivity | contradiction].
  - exact confidence_of_factor.
  - intros history avg variance Havg. unfold stability_of. cbv zeta.
    fold avg. fold variance.
    destruct (Qlt_le_dec 0 avg); [reflexivity | lra].
  - exact confidence_of_monotone.
Qed.

Lemma C6_confidence_witness :
  Forall (fun c => 0 <= c /\ c <= 1)
    (confidences 0
       (output_of
          (process_gpu 30 Scenario.wall_clock
             {[ 0%nat := {| total := 16 * Scenario.GiB; used := 10 * Scenario.GiB;
                            free := 6 * Scenario.GiB |} ]}
             [(0%nat, [{| pid := 4242; memory_bytes := 2 * Scenario.GiB |}])]
             [Scenario.B; Scenario.C] ∅ 0 (EnhancedGPUInference_init 1)))).
Proof.
  refine (proj1 (proj1 C6_confidence 30%nat Scenario.wall_clock _ _ _ _ _ _ _)).
  vm_compute. discriminate.
Defined.

(** ** C7: the active-probe detector *)

Module InferenceDetectorFacts.
Import InferenceDetector.

Lemma run_snoc (steps : list Step) (e : Step) (d : Detector) :
  run (steps ++ [e]) d = step e (run steps d).
Proof. unfold run. rewrite fold_left_app. reflexivity. Qed.

Lemma marks_app (l1 l2 : list Step) : marks (l1 ++ l2) = marks l1 ++ marks l2.
Proof.
  induction l1 as [|e l1 IH]; simpl; [reflexivity|].
  destruct e; simpl; rewrite IH; reflexivity.
Qed.

(** The deque holds the latest qualifying observations; anything it has
    dropped was dropped from a full deque. *)
Lemma history_is_suffix (steps : list Step) :
  exists evicted : list Q,
    marks steps = evicted ++ inference_history (run steps init)
    /\ (length (inference_history (run steps init)) <= 10)%nat
    /\ (evicted <> [] -> length (inference_history (run steps init)) = 10%nat).
Proof.
  induction steps as [|e steps IH] using rev_ind.
  - exists []. simpl. repeat split; [lia | congruence].
  - destruct IH as (evicted & Hmarks & Hlen & Hfull).
    rewrite run_snoc, marks_app. set (d := run steps init) in *.
    destruct e as [t|l|t]; simpl.
    + unfold deque_append.
      destruct (length (inference_history d) <? 10)%nat eqn:Hroom.
      * apply Nat.ltb_lt in Hroom.
        exists evicted. rewrite Hmarks, <- app_assoc. repeat split.
        -- rewrite length_app. simpl. lia.
        -- intros Hne. specialize (Hfull Hne). lia.
      * apply Nat.ltb_ge in Hroom.
        destruct (inference_history d) as [|oldest kept] eqn:Hh; simpl in *; [lia|].
        exists (evicted ++ [oldest]). rewrite Hmarks, <- !app_assoc. simpl.
        rewrite drop_0. repeat split.
        -- rewrite length_app. simpl. lia.
        -- intros _. rewrite length_app. simpl. lia.
    + exists evicted. rewrite app_nil_r. repeat split; assumption.
    + exists evicted. rewrite app_nil_r.
      unfold update_status.
      destruct (recent_inferences t (inference_history d)); simpl; repeat split; assumption.
Qed.

Lemma no_recent_inferences (now : Q) (history : list Q) :
  recent_inferences now history = [] ->
  forall t, In t history -> 30 <= now - t.
Proof.
  unfold recent_inferences. induction history as [|h history IH]; intros Hnone t Hin.
  - destruct Hin.
  - simpl in Hnone. destruct (Qlt_le_dec (now - h) 30) as [Hrecent|Hold]; [discriminate|].
    destruct Hin as [<-|Hin]; [exact Hold | apply IH; assumption].
Qed.

Lemma update_status_idle (now : Q) (d : Detector) :
  is_active (update_status now d) = false ->
  recent_inferences now (inference_history d) = [].
Proof.
  unfold update_status.
  destruct (recent_inferences now (inference_history d)); [reflexivity|].
  intros H. vm_compute in H. discriminate.
Qed.

End InferenceDetectorFacts.

(** C7.  A probe whose backend does not answer within the 0.5 s timeout
    ends in [Timeout], and the call of [check_inference] that made it
    enters [mark_inference_active] first of all, after which the detector
    is active whatever its state was (it takes no input from the memory
    attribution).  And in every run of the detector from its initial
    state, a step that takes the detector from active to idle is an
    [update_status] at a reading [now] such that every observation the
    deque holds (the latest ten) lies at least 30 s before [now]; when
    the qualifying observations carry non-decreasing clock readings, so
    does every qualifying observation made so far. *)
Theorem C7_probe_detector :
  (forall (backend : InferenceDetector.Backend) (tags : InferenceDetector.Outcome) (now : Q)
      (self : InferenceDetector.Detector),
      (backend = InferenceDetector.never_answers
       \/ exists seconds, backend = InferenceDetector.answers_after seconds /\ 1 # 2 < seconds) ->
      InferenceDetector.post_generate backend = InferenceDetector.timed_out
      /\ (exists rest,
            InferenceDetector.check_inference (InferenceDetector.post_generate backend) tags now
            = InferenceDetector.MarkActive now :: rest)
      /\ InferenceDetector.is_active
           (InferenceDetector.step (InferenceDetector.MarkActive now) self) = true
      /\ InferenceDetector.is_active
           (InferenceDetector.run
              (InferenceDetector.check_inference (InferenceDetector.post_generate backend)
                 tags now) self) = true)
  /\ (forall (steps : list InferenceDetector.Step) (e : InferenceDetector.Step),
        let before := InferenceDetector.run steps InferenceDetector.init in
        InferenceDetector.is_active before = true ->
        InferenceDetector.is_active (InferenceDetector.step e before) = false ->
        exists now,
          e = InferenceDetector.UpdateStatus now
          /\ (forall t, In t (InferenceDetector.inference_history before) -> 30 <= now - t)
          /\ (StronglySorted Qle (InferenceDetector.marks steps) ->
              forall t, In t (InferenceDetector.marks steps) -> 30 <= now - t)).
Proof.
  split.
  - intros backend tags now self Hslow.
    assert (Hout : InferenceDetector.post_generate backend = InferenceDetector.timed_out).
    { destruct Hslow as [->|(seconds & -> & Hslow)]; [reflexivity|].
      simpl. destruct (Qlt_le_dec (1 # 2) seconds); [reflexivity | lra]. }
    rewrite Hout. split; [reflexivity|]. split; [eexists; reflexivity|].
    split; [reflexivity|].
    destruct tags as [response_time| |]; simpl; try reflexivity.
    destruct (Qlt_le_dec (1 # 2) response_time); reflexivity.
  - intros steps e before Hactive Hidle.
    destruct e as [t|l|now].
    + vm_compute in Hidle. discriminate.
    + unfold InferenceDetector.is_active in *. simpl in Hidle. congruence.
    + exists now. split; [reflexivity|].
      apply InferenceDetectorFacts.update_status_idle in Hidle.
      pose proof (InferenceDetectorFacts.no_recent_inferences now _ Hidle) as Hold.
      split; [exact Hold|]. intros Hsorted t Ht.
      destruct (InferenceDetectorFacts.history_is_suffix steps)
        as (evicted & Hmarks & Hlen & Hfull).
      fold before in Hmarks, Hlen, Hfull.
      rewrite Hmarks in Ht, Hsorted. apply in_app_or in Ht as [Hev|Hkept].
      * assert (Hne : evicted <> []) by (intros ->; destruct Hev).
        specialize (Hfull Hne).
        destruct (InferenceDetector.inference_history before) as [|h kept] eqn:Hh;
          [simpl in Hfull; lia|].
        assert (Hle : t <= h).
        { eapply (StronglySorted_app_1_elem_of Qle); [exact Hsorted | |].
          - apply list_elem_of_In, Hev.
          - left. }
        specialize (Hold h (or_introl eq_refl)). lra.
      * apply Hold, Hkept.
Qed.

Lemma C7_probe_detector_witness :
  exists now,
    InferenceDetector.UpdateStatus 131 = InferenceDetector.UpdateStatus now
    /\ (forall t,
          In t (InferenceDetector.inference_history
                  (InferenceDetector.run
                     [InferenceDetector.MarkActive 100; InferenceDetector.UpdateStatus 110]
                     InferenceDetector.init)) ->
          30 <= now - t)
    /\ (StronglySorted Qle
          (InferenceDetector.marks
             [InferenceDetector.MarkActive 100; InferenceDetector.UpdateStatus 110]) ->
        forall t,
          In t (InferenceDetector.marks
                  [InferenceDetector.MarkActive 100; InferenceDetector.UpdateStatus 110]) ->
          30 <= now - t).
Proof.
  apply (proj2 C7_probe_detector
           [InferenceDetector.MarkActive 100; InferenceDetector.UpdateStatus 110]
           (InferenceDetector.UpdateStatus 131)).
  - reflexivity.
  - reflexivity.
Defined.

(** ** C9: the profile observation *)

Lemma visible_memories_spec (history : list Observation) (m : Q) :
  In m (visible_memories history)
  <-> exists h, In h history /\ visible h = true /\ 0 < memory h /\ memory h = m.
Proof.
  unfold visible_memories. rewrite in_map_iff. split.
  - intros (h & <- & Hh). apply filter_In in Hh as [Hin Hkeep].
    apply andb_prop in Hkeep as [Hvis Hpos].
    destruct (Qlt_le_dec 0 (memory h)); [|discriminate]. eauto.
  - intros (h & Hin & Hvis & Hpos & <-). exists h. split; [reflexivity|].
    apply filter_In. split; [exact Hin|]. rewrite Hvis. simpl.
    destruct (Qlt_le_dec 0 (memory h)); [reflexivity | lra].
Qed.

(** C9, as amended.  [update] appends the observation to the history,
    dropping the oldest entry when the history is full, so that a history
    within the bound stays within it; it sets [last_seen_with_gpu] to the
    clock reading exactly when the observation is visible and leaves it
    alone otherwise; and it sets the typical memory to the arithmetic mean
    of the memory of the entries that are visible with positive memory
    when the history then holds more than 5 entries and at least one such
    entry; in every other case the typical memory keeps its prior value.
    The identity of the profile and its naming flag never change. *)
Theorem C9_update_observation (HISTORY_SIZE : nat) (t_entry t_seen : Q)
    (has_visible_gpu : bool) (memory_bytes : Q) (self : ContainerProfile) :
  let entry :=
    {| timestamp := t_entry; visible := has_visible_gpu; memory := memory_bytes |} in
  let after := update HISTORY_SIZE t_entry t_seen has_visible_gpu memory_bytes self in
  ((length (gpu_history self) < HISTORY_SIZE)%nat ->
     gpu_history after = gpu_history self ++ [entry])
  /\ ((0 < HISTORY_SIZE)%nat -> (HISTORY_SIZE <= length (gpu_history self))%nat ->
      gpu_history after = drop 1 (gpu_history self) ++ [entry])
  /\ ((length (gpu_history self) <= HISTORY_SIZE)%nat ->
      (length (gpu_history after) <= HISTORY_SIZE)%nat)
  /\ last_seen_with_gpu after
     = (if has_visible_gpu then Some t_seen else last_seen_with_gpu self)
  /\ ((5 < length (gpu_history after))%nat ->
      visible_memories (gpu_history after) <> [] ->
      typical_memory after = mean (visible_memories (gpu_history after)))
  /\ ((length (gpu_history after) <= 5)%nat \/ visible_memories (gpu_history after) = [] ->
      typical_memory after = typical_memory self)
  /\ (forall m, In m (visible_memories (gpu_history after))
                <-> exists h, In h (gpu_history after)
                              /\ visible h = true /\ 0 < memory h /\ memory h = m)
  /\ container_id after = container_id self
  /\ container_name after = container_name self
  /\ is_llm after = is_llm self.
Proof.
  intros entry after.
  assert (Hhist : gpu_history after = deque_append HISTORY_SIZE (gpu_history self) entry)
    by reflexivity.
  split; [|split; [|split; [|split; [|split; [|split; [|split]]]]]].
  - intros Hroom. rewrite Hhist. unfold deque_append.
    destruct HISTORY_SIZE as [|n]; [lia|].
    apply Nat.ltb_lt in Hroom. rewrite Hroom. reflexivity.
  - intros Hpos Hfull. rewrite Hhist. unfold deque_append.
    destruct HISTORY_SIZE as [|n]; [lia|].
    apply Nat.ltb_ge in Hfull. rewrite Hfull. reflexivity.
  - intros Hbound. rewrite Hhist. unfold deque_append.
    destruct HISTORY_SIZE as [|n]; [exact Hbound|].
    destruct (length (gpu_history self) <? S n)%nat eqn:Hroom.
    + apply Nat.ltb_lt in Hroom. rewrite length_app. simpl. lia.
    + rewrite length_app, length_drop. simpl. lia.
  - reflexivity.
  - intros Hmany Hsome. unfold after at 1, update. cbv zeta. simpl typical_memory.
    fold entry. rewrite <- Hhist.
    apply Nat.ltb_lt in Hmany. rewrite Hmany.
    destruct (visible_memories (gpu_history after)); [congruence | reflexivity].
  - intros Hcase. unfold after at 1, update. cbv zeta. simpl typical_memory.
    fold entry. rewrite <- Hhist.
    destruct (5 <? length (gpu_history after))%nat eqn:Hmany; [|reflexivity].
    apply Nat.ltb_lt in Hmany.
    destruct Hcase as [Hfew|Hnone]; [lia|]. rewrite Hnone. reflexivity.
  - intros m. apply visible_memories_spec.
  - repeat split.
Qed.

Lemma C9_update_observation_witness :
  gpu_history (update 30 1700000000 1700000001 true 100 (Scenario.observed 6 0))
  = gpu_history (Scenario.observed 6 0)
    ++ [{| timestamp := 1700000000; visible := true; memory := 100 |}].
Proof.
  apply (proj1 (C9_update_observation 30 1700000000 1700000001 true 100
                  (Scenario.observed 6 0))).
  vm_compute. lia.
Defined.

(** The estimate of C9 as stated is not recomputed once the visible
    entries have left the history: after 6 visible observations of 100
    bytes and 30 invisible ones the history holds 30 entries, none of
    them visible, and the typical memory is still 100. *)
Lemma C9_stale_estimate_counterexample :
  let before := Scenario.observed 6 29 in
  let after := update 30 1700000000 1700000000 false 0 before in
  (5 < length (gpu_history after))%nat
  /\ visible_nonzero_memories (gpu_history after) = []
  /\ typical_memory after == 100
  /\ ~ typical_memory after
       == typical_memory (observe_spec 30 1700000000 1700000000 false 0 before).
Proof.
  split; [vm_compute; lia|]. split; [reflexivity|]. split; [reflexivity|].
  vm_compute. discriminate.
Qed.

(** ** C10: records of an unknown GPU UUID *)

Lemma first_matching_none (uuid : string) (uuids : nat -> string) (indices : list nat) :
  (forall i, In i indices -> str_in uuid (uuids i) = false) ->
  first_matching uuid uuids indices = None.
Proof.
  induction indices as [|i rest IH]; intros Hnone; simpl; [reflexivity|].
  rewrite (Hnone i (or_introl eq_refl)). apply IH.
  intros j Hj. apply Hnone. right. exact Hj.
Qed.

Lemma dd_get_append_same (k : nat) (p : Process) (d : list (nat * list Process)) :
  dd_get k (dd_append k p d) = dd_get k d ++ [p].
Proof.
  induction d as [|[k' ps] d IH]; simpl.
  - rewrite decide_True by reflexivity. reflexivity.
  - destruct (decide (k' = k)) as [->|Hne]; simpl.
    + rewrite decide_True by reflexivity. reflexivity.
    + rewrite decide_False by exact Hne. exact IH.
Qed.

Lemma dd_get_append_other (k k' : nat) (p : Process) (d : list (nat * list Process)) :
  k' <> k -> dd_get k (dd_append k' p d) = dd_get k d.
Proof.
  intros Hne. induction d as [|[k'' ps] d IH]; simpl.
  - rewrite decide_False by exact Hne. reflexivity.
  - destruct (decide (k'' = k')) as [->|Hne'']; simpl.
    + rewrite !decide_False by exact Hne. reflexivity.
    + destruct (decide (k'' = k)); [reflexivity | exact IH].
Qed.

(** Lines without a parse failure are all consumed. *)
Lemma known_processes_loop_app (dc : nat) (uuids : nat -> string)
    (pre rest : list SmiLine) (d : list (nat * list Process)) :
  ~ In smi_garbled pre ->
  known_processes_loop dc uuids (pre ++ rest) d
  = known_processes_loop dc uuids rest (known_processes_loop dc uuids pre d).
Proof.
  revert d. induction pre as [|line pre IH]; intros d Hclean; simpl; [reflexivity|].
  destruct line as [| |p uuid mb].
  - apply IH. intros Hin. apply Hclean. right. exact Hin.
  - exfalso. apply Hclean. left. reflexivity.
  - apply IH. intros Hin. apply Hclean. right. exact Hin.
Qed.

(** A record already filed under device [k] stays there, and the rest
    of the output is filed the same way with or without it. *)
Lemma known_processes_loop_extra (dc : nat) (uuids : nat -> string) (k : nat)
    (record : Process) (rest : list SmiLine) :
  forall (d1 d2 : list (nat * list Process)) (front back : list Process),
    dd_get k d1 = front ++ record :: back ->
    dd_get k d2 = front ++ back ->
    exists back',
      dd_get k (known_processes_loop dc uuids rest d1) = front ++ record :: back'
      /\ dd_get k (known_processes_loop dc uuids rest d2) = front ++ back'.
Proof.
  induction rest as [|line rest IH]; intros d1 d2 front back H1 H2; simpl.
  - exists back. split; assumption.
  - destruct line as [| |p uuid mb].
    + apply (IH d1 d2 front back); assumption.
    + exists back. split; assumption.
    + set (g := _get_gpu_index_from_uuid dc uuids uuid).
      set (q := {| pid := p; memory_bytes := mb * 1024 * 1024 |}).
      destruct (decide (g = k)) as [->|Hne].
      * apply (IH _ _ front (back ++ [q])).
        -- rewrite dd_get_append_same, H1, <- app_assoc. reflexivity.
        -- rewrite dd_get_append_same, H2, <- app_assoc. reflexivity.
      * apply (IH _ _ front back).
        -- rewrite dd_get_append_other by exact Hne. exact H1.
        -- rewrite dd_get_append_other by exact Hne. exact H2.
Qed.

(** C10.  A GPU UUID that no enumerated device's UUID contains is mapped
    to index 0 by [_get_gpu_index_from_uuid]; a record carrying it, on a
    line the parser reaches, is filed under device 0 with its memory
    converted to bytes, and device 0's known memory is what it would be
    without the record plus that memory. *)
Theorem C10_unmatched_uuid_counts_on_device_0 (dc : nat) (r : Readings)
    (pre post : list SmiLine) (p : Z) (uuid : string) (memory_mb : Q) :
  (forall i, (i < dc)%nat -> str_in uuid (nvmlDeviceGetUUID r i) = false) ->
  nvidia_smi_stdout r = pre ++ smi_row p uuid memory_mb :: post ->
  ~ In smi_garbled pre ->
  let record := {| pid := p; memory_bytes := memory_mb * 1024 * 1024 |} in
  _get_gpu_index_from_uuid dc (nvmlDeviceGetUUID r) uuid = 0%nat
  /\ In record (dd_get 0 (get_known_gpu_processes dc r))
  /\ known_used_of (get_known_gpu_processes dc r) 0
     == known_used_of (known_processes_loop dc (nvmlDeviceGetUUID r) (pre ++ post) []) 0
        + memory_mb * 1024 * 1024.
Proof.
  intros Hunmatched Hstdout Hclean record.
  assert (Hindex : _get_gpu_index_from_uuid dc (nvmlDeviceGetUUID r) uuid = 0%nat).
  { unfold _get_gpu_index_from_uuid. rewrite first_matching_none; [reflexivity|].
    intros i Hi. apply Hunmatched. apply in_seq in Hi. lia. }
  split; [exact Hindex|].
  unfold get_known_gpu_processes. rewrite Hstdout.
  rewrite !known_processes_loop_app by exact Hclean.
  set (uuids := nvmlDeviceGetUUID r) in *.
  set (d := known_processes_loop dc uuids pre []).
  assert (Hstep : known_processes_loop dc uuids (smi_row p uuid memory_mb :: post) d
                  = known_processes_loop dc uuids post (dd_append 0 record d)).
  { simpl. fold uuids. rewrite Hindex. reflexivity. }
  rewrite Hstep.
  destruct (known_processes_loop_extra dc uuids 0 record post
              (dd_append 0 record d) d (dd_get 0 d) [])
    as (back & Hwith & Hwithout).
  { apply dd_get_append_same. }
  { rewrite app_nil_r. reflexivity. }
  split.
  - rewrite Hwith. apply in_or_app. right. left. reflexivity.
  - unfold known_used_of. rewrite Hwith, Hwithout.
    rewrite !List.map_app. simpl List.map. rewrite !py_sum_app, py_sum_cons.
    simpl memory_bytes. lra.
Qed.

Lemma C10_unmatched_uuid_counts_on_device_0_witness :
  let r :=
    {| nvmlDeviceGetMemoryInfo := nvmlDeviceGetMemoryInfo Scenario.readings;
       nvmlDeviceGetUUID := fun i => if decide (i = 0%nat) then "GPU-5a1f0e2c"%string
                                     else "GPU-77aa41d0"%string;
       nvidia_smi_stdout := [smi_row 4242 "GPU-77aa41d0" 2048; smi_row 977 "GPU-deadbeef" 512];
       map_pid_to_container := map_pid_to_container Scenario.readings;
       docker_ps := docker_ps Scenario.readings |} in
  _get_gpu_index_from_uuid 2 (nvmlDeviceGetUUID r) "GPU-deadbeef" = 0%nat
  /\ In {| pid := 977; memory_bytes := 512 * 1024 * 1024 |}
       (dd_get 0 (get_known_gpu_processes 2 r))
  /\ known_used_of (get_known_gpu_processes 2 r) 0
     == known_used_of
          (known_processes_loop 2 (nvmlDeviceGetUUID r)
             ([smi_row 4242 "GPU-77aa41d0" 2048] ++ []) []) 0
        + 512 * 1024 * 1024.
Proof.
  intros r.
  apply (C10_unmatched_uuid_counts_on_device_0 2 r
           [smi_row 4242 "GPU-77aa41d0" 2048] [] 977 "GPU-deadbeef" 512).
  - intros [|[|i]] Hi; [reflexivity | reflexivity | lia].
  - reflexivity.
  - simpl. intros [H|[]]. discriminate.
Defined.

(** ** C8: the profile store over a cycle *)

Lemma extends_refl (s : Engine) : extends s s.
Proof. split; [reflexivity | tauto]. Qed.

Lemma extends_trans (s1 s2 s3 : Engine) : extends s1 s2 -> extends s2 s3 -> extends s1 s3.
Proof.
  intros [Hd12 Hp12] [Hd23 Hp23]. split; [congruence|].
  intros cid H. apply Hp23, Hp12, H.
Qed.

Lemma extends_bind {A B} (m : M A) (k : A -> M B) (s : Engine) :
  extends s (state_of (m s)) ->
  (forall a s1, extends s1 (state_of (k a s1))) ->
  extends s (state_of (bind m k s)).
Proof.
  intros Hm Hk. rewrite state_bind. eapply extends_trans; [exact Hm | apply Hk].
Qed.

Lemma extends_for_fold {A B} (body : B -> A -> M B) (l : list A) :
  (forall acc x s, extends s (state_of (body acc x s))) ->
  forall acc s, extends s (state_of (for_fold l acc body s)).
Proof.
  intros Hbody. induction l as [|x l IH]; intros acc s; simpl.
  - apply extends_refl.
  - apply extends_bind; [apply Hbody | intros; apply IH].
Qed.

Lemma extends_for_each {A} (body : A -> M unit) (l : list A) :
  (forall x s, extends s (state_of (body x s))) ->
  forall s, extends s (state_of (for_each l body s)).
Proof.
  intros Hbody. induction l as [|x l IH]; intros s; simpl.
  - apply extends_refl.
  - apply extends_bind; [apply Hbody | intros; apply IH].
Qed.

Lemma extends_tick (s : Engine) : extends s (tick s).
Proof. split; [reflexivity | tauto]. Qed.

Lemma extends_set_history (f : gmap nat (list Q) -> gmap nat (list Q)) (s : Engine) :
  extends s (set_history f s).
Proof. split; [reflexivity | tauto]. Qed.

Lemma extends_insert_profile (cid : string) (profile : ContainerProfile) (s : Engine) :
  extends s (set_profiles (insert cid profile) s).
Proof.
  split; [reflexivity|]. intros k Hk. simpl.
  destruct (decide (cid = k)) as [->|Hne].
  - rewrite lookup_insert_eq. eauto.
  - rewrite lookup_insert_ne by exact Hne. exact Hk.
Qed.

Lemma extends_time_time (clock : nat -> Q) (s : Engine) :
  extends s (state_of (time_time clock s)).
Proof. apply extends_tick. Qed.

Lemma extends_update_if_profiled (HISTORY_SIZE : nat) (clock : nat -> Q) (cid : string)
    (has_visible_gpu : bool) (memory_bytes : Q) (s : Engine) :
  extends s
    (state_of (update_if_profiled HISTORY_SIZE clock cid has_visible_gpu memory_bytes s)).
Proof.
  unfold update_if_profiled. apply extends_bind; [apply extends_refl|].
  intros profiles s1. destruct (profiles !! cid); [|apply extends_refl].
  apply extends_bind; [apply extends_time_time|]. intros t_entry s2.
  apply extends_bind.
  - destruct has_visible_gpu; [apply extends_time_time | apply extends_refl].
  - intros t_seen s3. apply extends_insert_profile.
Qed.

Lemma extends_likelihood_score (clock : nat -> Q) (profile : ContainerProfile) (s : Engine) :
  extends s (state_of (likelihood_score clock profile s)).
Proof.
  unfold likelihood_score. destruct (truthy_time _); [|apply extends_refl].
  apply extends_bind; [apply extends_time_time | intros; apply extends_refl].
Qed.

Lemma extends_get_container_weight (clock : nat -> Q) (container : Container) (s : Engine) :
  extends s (state_of (get_container_weight clock container s)).
Proof.
  unfold get_container_weight. apply extends_bind; [apply extends_refl|].
  intros profiles s1. apply extends_bind.
  - destruct (profiles !! c_id container); [apply extends_refl|].
    apply extends_bind; [apply extends_insert_profile | intros; apply extends_refl].
  - intros profile s2. apply extends_bind; [apply extends_likelihood_score|].
    intros likelihood s3. apply extends_bind; intros; apply extends_refl.
Qed.

(** After weighing a container its profile exists. *)
Lemma get_container_weight_profiled (clock : nat -> Q) (container : Container) (s : Engine) :
  is_Some (container_profiles (state_of (get_container_weight clock container s))
             !! c_id container).
Proof.
  unfold get_container_weight. rewrite !state_bind.
  match goal with
  | |- is_Some (container_profiles (state_of (ret _ (state_of (emit _ ?s3)))) !! _) =>
      change (is_Some (container_profiles s3 !! c_id container))
  end.
  match goal with
  | |- is_Some (container_profiles (state_of (likelihood_score clock ?p ?s2)) !! _) =>
      apply (extends_likelihood_score clock p s2)
  end.
  unfold gets, value_of, state_of; simpl.
  destruct (container_profiles s !! c_id container) eqn:E; simpl.
  - rewrite E. eauto.
  - rewrite lookup_insert_eq. eauto.
Qed.

Lemma extends_weigh (clock : nat -> Q) (acc : gmap string Q * Q) (container : Container)
    (s : Engine) :
  extends s (state_of (weigh clock acc container s)).
Proof.
  unfold weigh. apply extends_bind; [apply extends_get_container_weight|].
  intros; apply extends_refl.
Qed.

Lemma collect_weights_profiled (clock : nat -> Q) (l : list Container) :
  forall (acc : gmap string Q * Q) (s : Engine) (c : Container),
    In c l ->
    is_Some (container_profiles (state_of (for_fold l acc (weigh clock) s)) !! c_id c).
Proof.
  induction l as [|c0 l IH]; intros acc s c Hin; [destruct Hin|].
  simpl for_fold. rewrite state_bind. destruct Hin as [->|Hin].
  - apply (extends_for_fold (weigh clock) l (extends_weigh clock)).
    unfold weigh. rewrite state_bind. apply get_container_weight_profiled.
  - apply IH, Hin.
Qed.

Lemma extends_distribute_unknown_memory (clock : nat -> Q) (unknown_memory : Q)
    (unknown_containers : list Container) (gpu_idx : nat) (s : Engine) :
  extends s
    (state_of (distribute_unknown_memory clock unknown_memory unknown_containers gpu_idx s)).
Proof.
  unfold distribute_unknown_memory.
  destruct unknown_containers as [|c0 rest]; [apply extends_refl|].
  destruct (Qlt_le_dec 0 unknown_memory); [|apply extends_refl].
  apply extends_bind.
  - apply (extends_for_fold (weigh clock) _ (extends_weigh clock)).
  - intros acc s1. apply extends_for_each. intros c s2.
    destruct (Qlt_le_dec 0 (snd acc)); apply extends_refl.
Qed.

(** With positive unknown memory every container handed to
    [distribute_unknown_memory] has a profile afterwards. *)
Lemma distribute_unknown_memory_profiled (clock : nat -> Q) (unknown_memory : Q)
    (unknown_containers : list Container) (gpu_idx : nat) (s : Engine) (c : Container) :
  0 < unknown_memory ->
  In c unknown_containers ->
  is_Some
    (container_profiles
       (state_of (distribute_unknown_memory clock unknown_memory unknown_containers gpu_idx s))
       !! c_id c).
Proof.
  intros Hpos Hin. unfold distribute_unknown_memory.
  destruct unknown_containers as [|c0 rest]; [destruct Hin|].
  destruct (Qlt_le_dec 0 unknown_memory); [|lra].
  rewrite state_bind.
  match goal with
  | |- is_Some (container_profiles (state_of (for_each ?l ?body ?s1)) !! _) =>
      apply (extends_for_each body l)
  end.
  - intros c' s'. destruct (Qlt_le_dec 0 _); apply extends_refl.
  - apply collect_weights_profiled, Hin.
Qed.

Lemma extends_find_unknown_containers (HISTORY_SIZE : nat) (clock : nat -> Q)
    (gpu_containers : list Container) (known_container_ids : gset string) (s : Engine) :
  extends s
    (state_of (find_unknown_containers HISTORY_SIZE clock gpu_containers
                 known_container_ids s)).
Proof.
  unfold find_unknown_containers. apply extends_for_fold. intros acc c s'.
  unfold classify_container.
  apply extends_bind; [apply extends_refl|]. intros _ s1.
  destruct (decide (c_id c ∈ known_container_ids)); [apply extends_refl|].
  apply extends_bind; [apply extends_update_if_profiled | intros; apply extends_refl].
Qed.

(** The containers [find_unknown_containers] returns include every GPU
    container whose id is not among the known ones. *)
Lemma find_unknown_containers_value (HISTORY_SIZE : nat) (clock : nat -> Q)
    (known_container_ids : gset string) (gpu_containers : list Container) :
  forall (acc : list Container) (s : Engine) (c : Container),
    In c acc \/ (In c gpu_containers /\ c_id c ∉ known_container_ids) ->
    In c (value_of
            (for_fold gpu_containers acc
               (classify_container HISTORY_SIZE clock known_container_ids) s)).
Proof.
  induction gpu_containers as [|c0 l IH]; intros acc s c Hc.
  - simpl. destruct Hc as [Hc|[[] _]]. exact Hc.
  - simpl for_fold. rewrite value_bind. apply IH.
    unfold classify_container. rewrite value_bind.
    destruct (decide (c_id c0 ∈ known_container_ids)) as [Hknown|Hunknown].
    + destruct Hc as [Hc|[[->|Hc] Hid]]; [left; exact Hc | contradiction | right; tauto].
    + rewrite value_bind. simpl value_of at 1.
      destruct Hc as [Hc|[[->|Hc] Hid]].
      * left. apply in_or_app. left. exact Hc.
      * left. apply in_or_app. right. left. reflexivity.
      * right. tauto.
Qed.

Lemma extends_calculate_inference_confidence (gpu_idx : nat)
    (unknown_memory total_memory : Q) (s : Engine) :
  extends s (state_of (calculate_inference_confidence gpu_idx unknown_memory total_memory s)).
Proof.
  unfold calculate_inference_confidence.
  destruct (Qeq_dec total_memory 0); [apply extends_refl|].
  apply extends_bind; [apply extends_refl|]. intros hist s1.
  apply extends_bind.
  - destruct (hist !! gpu_idx); [apply extends_refl | apply extends_set_history].
  - intros _ s2. apply extends_bind; intros; apply extends_refl.
Qed.

Lemma extends_process_gpu (HISTORY_SIZE : nat) (clock : nat -> Q)
    (gpu_stats : gmap nat MemInfo) (known_processes : list (nat * list Process))
    (gpu_containers : list Container) (known_container_ids : gset string)
    (gpu_idx : nat) (s : Engine) :
  extends s
    (state_of (process_gpu HISTORY_SIZE clock gpu_stats known_processes gpu_containers
                 known_container_ids gpu_idx s)).
Proof.
  unfold process_gpu. cbv zeta.
  apply extends_bind; [apply extends_refl|]. intros _ s1.
  apply extends_bind; [apply extends_refl|]. intros _ s2.
  apply extends_bind; [apply extends_find_unknown_containers|]. intros unknown_containers s3.
  destruct (Qlt_le_dec 0 _).
  - apply extends_bind; [apply extends_refl|]. intros _ s4.
    apply extends_bind; [apply extends_calculate_inference_confidence|]. intros confidence s5.
    apply extends_distribute_unknown_memory.
  - apply extends_bind; intros; apply extends_refl.
Qed.

(** A device with positive unknown memory leaves a profile for every GPU
    container whose id is not among the known ones. *)
Lemma process_gpu_profiled (HISTORY_SIZE : nat) (clock : nat -> Q)
    (gpu_stats : gmap nat MemInfo) (known_processes : list (nat * list Process))
    (gpu_containers : list Container) (known_container_ids : gset string)
    (gpu_idx : nat) (s : Engine) (c : Container) :
  0 < unknown_used_of (used (gpu_stats !!! gpu_idx)) (known_used_of known_processes gpu_idx) ->
  In c gpu_containers ->
  c_id c ∉ known_container_ids ->
  is_Some
    (container_profiles
       (state_of (process_gpu HISTORY_SIZE clock gpu_stats known_processes gpu_containers
                    known_container_ids gpu_idx s))
       !! c_id c).
Proof.
  intros Hpos Hin Hid. unfold process_gpu. cbv zeta. rewrite !state_bind.
  destruct (Qlt_le_dec 0 _) as [_|Hle]; [|lra].
  rewrite !state_bind.
  apply distribute_unknown_memory_profiled; [exact Hpos|].
  unfold find_unknown_containers. apply find_unknown_containers_value.
  right. split; assumption.
Qed.

Lemma devices_loop_profiled (HISTORY_SIZE : nat) (clock : nat -> Q)
    (gpu_stats : gmap nat MemInfo) (known_processes : list (nat * list Process))
    (gpu_containers : list Container) (known_container_ids : gset string)
    (c : Container) (indices : list nat) :
  forall (s : Engine) (gpu_idx : nat),
    In gpu_idx indices ->
    0 < unknown_used_of (used (gpu_stats !!! gpu_idx))
          (known_used_of known_processes gpu_idx) ->
    In c gpu_containers ->
    c_id c ∉ known_container_ids ->
    is_Some
      (container_profiles
         (state_of (for_each indices
                      (process_gpu HISTORY_SIZE clock gpu_stats known_processes
                         gpu_containers known_container_ids) s))
         !! c_id c).
Proof.
  induction indices as [|i indices IH]; intros s gpu_idx Hidx Hpos Hin Hid; [destruct Hidx|].
  simpl for_each. rewrite state_bind. destruct Hidx as [->|Hidx].
  - apply (extends_for_each _ indices
             (extends_process_gpu HISTORY_SIZE clock gpu_stats known_processes gpu_containers
                known_container_ids)).
    apply process_gpu_profiled; assumption.
  - apply (IH _ gpu_idx); assumption.
Qed.

Lemma get_total_gpu_memory_loop (HISTORY_SIZE : nat) (r : Readings) (indices : list nat) :
  forall (gpu_stats : gmap nat MemInfo) (s : Engine),
    let body := read_device HISTORY_SIZE r in
    extends s (state_of (for_fold indices gpu_stats body s))
    /\ container_profiles (state_of (for_fold indices gpu_stats body s))
       = container_profiles s
    /\ forall i, In i indices ->
         value_of (for_fold indices gpu_stats body s) !! i
         = Some (nvmlDeviceGetMemoryInfo r i).
Proof.
  induction indices as [|i0 indices IH]; intros gpu_stats s body.
  - split; [apply extends_refl|]. split; [reflexivity|]. intros i [].
  - simpl for_fold. rewrite state_bind, value_bind.
    set (s1 := state_of (body gpu_stats i0 s)).
    assert (Hs1 : extends s s1 /\ container_profiles s1 = container_profiles s).
    { subst s1 body. unfold read_device. cbv beta zeta. rewrite !state_bind.
      split; [apply extends_set_history | reflexivity]. }
    assert (Hv : value_of (body gpu_stats i0 s)
                 = <[i0 := nvmlDeviceGetMemoryInfo r i0]> gpu_stats).
    { subst body. unfold read_device. cbv beta zeta. rewrite !value_bind. reflexivity. }
    rewrite Hv.
    destruct (IH (<[i0 := nvmlDeviceGetMemoryInfo r i0]> gpu_stats) s1)
      as (Hext & Hprof & Hlook).
    fold body in Hext, Hprof, Hlook.
    split; [eapply extends_trans; [apply Hs1 | exact Hext]|].
    split; [rewrite Hprof; apply Hs1|].
    intros i [<-|Hi]; [|apply Hlook, Hi].
    destruct (in_dec Nat.eq_dec i0 indices) as [Hin|Hnotin]; [apply Hlook, Hin|].
    clear -Hnotin.
    assert (Hkeep : forall (stats : gmap nat MemInfo) (s' : Engine) (m : MemInfo),
               stats !! i0 = Some m ->
               value_of (for_fold indices stats body s') !! i0 = Some m).
    { induction indices as [|j indices IH]; intros stats s' m Hm; [exact Hm|].
      simpl for_fold. rewrite value_bind. apply IH.
      - intros Hin. apply Hnotin. right. exact Hin.
      - subst body. unfold read_device. cbv beta zeta. rewrite !value_bind.
        change (<[j := nvmlDeviceGetMemoryInfo r j]> stats !! i0 = Some m).
        rewrite lookup_insert_ne; [exact Hm|].
        intros ->. apply Hnotin. left. reflexivity. }
    apply Hkeep. apply lookup_insert_eq.
Qed.

Lemma extends_account_process (HISTORY_SIZE : nat) (clock : nat -> Q) (r : Readings)
    (gpu_idx : nat) (acc : Q * gset string) (proc : Process) (s : Engine) :
  extends s (state_of (account_process HISTORY_SIZE clock r gpu_idx acc proc s)).
Proof.
  unfold account_process. cbv zeta.
  destruct (map_pid_to_container r (pid proc)); [|apply extends_refl].
  apply extends_bind; [apply extends_update_if_profiled|]. intros _ s1.
  apply extends_bind; intros; apply extends_refl.
Qed.

Lemma extends_process_known (HISTORY_SIZE : nat) (clock : nat -> Q) (r : Readings)
    (known_container_ids : gset string) (item : nat * list Process) (s : Engine) :
  extends s (state_of (process_known HISTORY_SIZE clock r known_container_ids item s)).
Proof.
  unfold process_known. cbv zeta.
  apply extends_bind; [apply extends_for_fold; intros; apply extends_account_process|].
  intros res s1. apply extends_bind; intros; apply extends_refl.
Qed.

(** An id enters [known_container_ids] only through a process that
    [map_pid_to_container] resolves to it. *)
Lemma account_process_ids (HISTORY_SIZE : nat) (clock : nat -> Q) (r : Readings)
    (gpu_idx : nat) (processes : list Process) :
  forall (acc : Q * gset string) (s : Engine) (cid : string),
    cid ∈ snd (value_of (for_fold processes acc
                           (account_process HISTORY_SIZE clock r gpu_idx) s)) ->
    cid ∈ snd acc
    \/ exists proc container,
         In proc processes
         /\ map_pid_to_container r (pid proc) = Some container /\ c_id container = cid.
Proof.
  induction processes as [|proc processes IH]; intros acc s cid Hcid.
  - left. exact Hcid.
  - simpl for_fold in Hcid. rewrite value_bind in Hcid.
    apply IH in Hcid as [Hacc|(proc' & container & Hin & Hmap & Hid)].
    + unfold account_process in Hacc. cbv zeta in Hacc.
      destruct (map_pid_to_container r (pid proc)) as [container|] eqn:Hmap.
      * rewrite !value_bind in Hacc. simpl in Hacc.
        apply elem_of_union in Hacc as [Hnew|Hold]; [|left; exact Hold].
        apply elem_of_singleton in Hnew. right. exists proc, container.
        split; [left; reflexivity|]. split; [exact Hmap | congruence].
      * left. exact Hacc.
    + right. exists proc', container. split; [right; exact Hin|]. tauto.
Qed.

Lemma process_known_ids (HISTORY_SIZE : nat) (clock : nat -> Q) (r : Readings)
    (known_processes : list (nat * list Process)) :
  forall (known_container_ids : gset string) (s : Engine) (cid : string),
    cid ∈ value_of (for_fold known_processes known_container_ids
                      (process_known HISTORY_SIZE clock r) s) ->
    cid ∈ known_container_ids \/ resolved r known_processes cid.
Proof.
  induction known_processes as [|item known_processes IH]; intros ids s cid Hcid.
  - left. exact Hcid.
  - simpl for_fold in Hcid. rewrite value_bind in Hcid.
    apply IH in Hcid as [Hitem|(item' & proc & container & Hin & Hrest)].
    + unfold process_known in Hitem. cbv zeta in Hitem. rewrite !value_bind in Hitem.
      simpl value_of at 1 in Hitem.
      apply account_process_ids in Hitem as [Hold|(proc & container & Hin & Hmap & Hid)].
      * left. exact Hold.
      * right. exists item, proc, container. split; [left; reflexivity|]. tauto.
    + right. exists item', proc, container. split; [right; exact Hin|]. exact Hrest.
Qed.

Lemma get_total_gpu_memory_spec (HISTORY_SIZE : nat) (r : Readings) (s : Engine) :
  extends s (state_of (get_total_gpu_memory HISTORY_SIZE r s))
  /\ forall i, (i < device_count s)%nat ->
       value_of (get_total_gpu_memory HISTORY_SIZE r s) !! i
       = Some (nvmlDeviceGetMemoryInfo r i).
Proof.
  unfold get_total_gpu_memory. rewrite state_bind, value_bind.
  change (value_of (gets device_count s)) with (device_count s).
  change (state_of (gets device_count s)) with s.
  destruct (get_total_gpu_memory_loop HISTORY_SIZE r (seq 0 (device_count s)) ∅ s)
    as (Hext & _ & Hstats).
  split; [exact Hext|]. intros i Hi. apply Hstats, in_seq. lia.
Qed.

(** C8, as amended.  A cycle never removes a profile; and when some device
    has positive unknown memory in the cycle, every container with GPU
    access that no known process resolves to has a profile in the store
    afterwards (created, when it had none, as the container is first
    weighed for the distribution). *)
Theorem C8_profiles_after_cycle (HISTORY_SIZE : nat) (clock : nat -> Q) (r : Readings)
    (s : Engine) :
  let after := state_of (calculate_inference HISTORY_SIZE clock r s) in
  let known_processes := get_known_gpu_processes (device_count s) r in
  let gpu_containers := get_containers_with_gpu_access (docker_ps r) in
  (forall cid, is_Some (container_profiles s !! cid) ->
               is_Some (container_profiles after !! cid))
  /\ ((exists gpu_idx,
         (gpu_idx < device_count s)%nat
         /\ 0 < unknown_used_of (used (nvmlDeviceGetMemoryInfo r gpu_idx))
                  (known_used_of known_processes gpu_idx)) ->
      forall c, In c gpu_containers ->
                ~ resolved r known_processes (c_id c) ->
                is_Some (container_profiles after !! c_id c)).
Proof.
  intros after known_processes gpu_containers.
  subst after. unfold calculate_inference. rewrite !state_bind.
  destruct (get_total_gpu_memory_spec HISTORY_SIZE r s) as (Hext1 & Hstats).
  set (read := get_total_gpu_memory HISTORY_SIZE r s) in *.
  change (value_of (gets device_count (state_of read))) with (device_count (state_of read)).
  change (state_of (gets device_count (state_of read))) with (state_of read).
  assert (Hdc : device_count (state_of read) = device_count s) by apply Hext1.
  rewrite !Hdc. fold known_processes. fold gpu_containers.
  set (known := for_fold known_processes ∅ (process_known HISTORY_SIZE clock r)
                  (state_of read)).
  assert (Hext2 : extends (state_of read) (state_of known)).
  { apply extends_for_fold. intros; apply extends_process_known. }
  split.
  - apply (extends_trans s (state_of known)).
    + eapply extends_trans; eassumption.
    + apply extends_for_each. intros; apply extends_process_gpu.
  - intros (gpu_idx & Hidx & Hpos) c Hin Hunresolved.
    apply (devices_loop_profiled _ _ _ _ _ _ _ _ _ gpu_idx).
    + apply in_seq. lia.
    + rewrite lookup_total_alt, (Hstats gpu_idx) by exact Hidx. exact Hpos.
    + exact Hin.
    + intros Hknown. apply Hunresolved.
      apply process_known_ids in Hknown as [Hempty|Hres]; [|exact Hres].
      apply not_elem_of_empty in Hempty. destruct Hempty.
Qed.

Lemma C8_profiles_after_cycle_witness :
  is_Some
    (container_profiles
       (state_of (calculate_inference 30 Scenario.wall_clock Scenario.readings
                    (EnhancedGPUInference_init 1)))
       !! c_id Scenario.B).
Proof.
  apply (proj2 (C8_profiles_after_cycle 30 Scenario.wall_clock Scenario.readings
                  (EnhancedGPUInference_init 1))).
  - exists 0%nat. split; [simpl; lia | reflexivity].
  - simpl. right. left. reflexivity.
  - intros (item & proc & container & Hitem & Hproc & Hmap & Hid).
    simpl in Hitem. destruct Hitem as [<-|[]].
    simpl in Hproc. destruct Hproc as [<-|[]].
    simpl in Hmap. injection Hmap as <-. discriminate.
Defined.

(** C8 as stated fails for a directly attributed container, and for any
    container on a cycle without unknown memory: in the 16 GiB scenario
    container A, resolved from a known process, has no profile after the
    cycle; nor has it after a cycle on an idle device that it alone can
    reach. *)
Lemma C8_no_profile_counterexample :
  In Scenario.A (get_containers_with_gpu_access (docker_ps Scenario.readings))
  /\ container_profiles
       (state_of (calculate_inference 30 Scenario.wall_clock Scenario.readings
                    (EnhancedGPUInference_init 1)))
       !! c_id Scenario.A = None
  /\ In Scenario.A (get_containers_with_gpu_access (docker_ps Scenario.idle_readings))
  /\ container_profiles
       (state_of (calculate_inference 30 Scenario.wall_clock Scenario.idle_readings
                    (EnhancedGPUInference_init 1)))
       !! c_id Scenario.A = None.
Proof.
  split; [left; reflexivity|]. split; [vm_compute; reflexivity|].
  split; [left; reflexivity|]. vm_compute. reflexivity.
Qed.

(** * Further properties of the exporters *)

(** ** Name detection *)

Lemma append_nil_l (b : string) : String.append EmptyString b = b.
Proof. reflexivity. Qed.

Lemma append_cons (c : ascii) (a b : string) :
  String.append (String c a) b = String c (String.append a b).
Proof. reflexivity. Qed.

Lemma prefix_split (a b : string) :
  String.prefix a b = true <-> exists post, b = String.append a post.
Proof.
  revert b. induction a as [|c a IH]; intros b; simpl.
  - split; [intros _; exists b; reflexivity | intros _; destruct b; reflexivity].
  - destruct b as [|d b]; simpl.
    + split; [discriminate | intros [post H]; rewrite append_cons in H; discriminate].
    + destruct (Ascii.ascii_dec c d) as [->|Hne].
      * rewrite IH. split; intros [post H]; exists post.
        -- rewrite append_cons. f_equal. exact H.
        -- rewrite append_cons in H. injection H as H. exact H.
      * split; [discriminate|]. intros [post H]. rewrite append_cons in H.
        injection H as Hc _. congruence.
Qed.

(** [needle in hay] holds exactly when [hay] is [pre + needle + post]. *)
Lemma str_in_split (needle hay : string) :
  str_in needle hay = true
  <-> exists pre post, hay = String.append pre (String.append needle post).
Proof.
  induction hay as [|c hay IH].
  - change (str_in needle EmptyString) with (String.prefix needle EmptyString).
    rewrite prefix_split. split.
    + intros [post H]. exists EmptyString, post. exact H.
    + intros (pre & post & H). destruct pre; [|rewrite append_cons in H; discriminate].
      exists post. exact H.
  - change (str_in needle (String c hay))
      with (String.prefix needle (String c hay) || str_in needle hay).
    rewrite orb_true_iff, prefix_split, IH. split.
    + intros [[post H]|(pre & post & H)].
      * exists EmptyString, post. exact H.
      * exists (String c pre), post. rewrite append_cons, H. reflexivity.
    + intros (pre & post & H). destruct pre as [|d pre].
      * left. exists post. exact H.
      * right. exists pre, post. rewrite append_cons in H. injection H as _ H. exact H.
Qed.

Lemma append_assoc (a b c : string) :
  String.append a (String.append b c) = String.append (String.append a b) c.
Proof.
  induction a as [|x a IH]; [reflexivity|].
  rewrite !append_cons, IH. reflexivity.
Qed.

Lemma lower_append (a b : string) :
  lower (String.append a b) = String.append (lower a) (lower b).
Proof.
  induction a as [|c a IH]; [reflexivity|].
  rewrite append_cons. simpl lower. rewrite IH, append_cons. reflexivity.
Qed.

Lemma ascii_lower_idempotent (c : ascii) : ascii_lower (ascii_lower c) = ascii_lower c.
Proof.
  destruct c as [[] [] [] [] [] [] [] []]; vm_compute; reflexivity.
Qed.

Lemma lower_idempotent (s : string) : lower (lower s) = lower s.
Proof.
  induction s as [|c s IH]; simpl; [reflexivity|].
  rewrite ascii_lower_idempotent, IH. reflexivity.
Qed.

(** X1.  A name is flagged as an inference workload exactly when its
    lower-cased form contains one of the eight indicators as a substring;
    the flag therefore ignores case, and putting text before or after a
    flagged name keeps it flagged. *)
Theorem X1_detect_llm_container_substring (name : string) :
  (_detect_llm_container name = true
   <-> exists indicator pre post,
         In indicator llm_indicators
         /\ lower name = String.append pre (String.append indicator post))
  /\ _detect_llm_container (lower name) = _detect_llm_container name
  /\ (forall before after,
        _detect_llm_container name = true ->
        _detect_llm_container (String.append before (String.append name after)) = true).
Proof.
  assert (Hiff : forall n, _detect_llm_container n = true
    <-> exists indicator pre post,
          In indicator llm_indicators
          /\ lower n = String.append pre (String.append indicator post)).
  { intros n. unfold _detect_llm_container. cbv zeta. rewrite existsb_exists. split.
    - intros (indicator & Hin & Hsub). apply str_in_split in Hsub as (pre & post & H).
      exists indicator, pre, post. split; assumption.
    - intros (indicator & pre & post & Hin & H). exists indicator. split; [exact Hin|].
      apply str_in_split. exists pre, post. exact H. }
  split; [apply Hiff|]. split.
  - unfold _detect_llm_container. cbv zeta. rewrite lower_idempotent. reflexivity.
  - intros before after Hname. apply Hiff in Hname as (indicator & pre & post & Hin & H).
    apply Hiff. exists indicator, (String.append (lower before) pre),
      (String.append post (lower after)).
    split; [exact Hin|]. rewrite !lower_append, H.
    rewrite !append_assoc. reflexivity.
Qed.

Lemma X1_detect_llm_container_substring_witness :
  _detect_llm_container "prod-OLLAMA-7" = true.
Proof.
  apply (proj2 (proj2 (X1_detect_llm_container_substring "OLLAMA")) "prod-" "-7").
  reflexivity.
Defined.

(** ** Likelihood and weights *)

Lemma Qdiv_300_le (a b : Q) : a <= b -> a / 300 <= b / 300.
Proof. intros H. unfold Qdiv. apply Qmult_le_compat_r; [exact H | discriminate]. Qed.

(** X2.  The likelihood score of a profile never rises as the clock
    advances: the recency bonus decays. *)
Theorem X2_likelihood_score_decays (profile : ContainerProfile) (now now' : Q) :
  now <= now' ->
  get_gpu_likelihood_score now' profile <= get_gpu_likelihood_score now profile.
Proof.
  intros Hlater. unfold get_gpu_likelihood_score, py_min. cbv zeta.
  pose proof (visible_fraction_bounds (gpu_history profile)) as [Hf0 Hf1].
  set (fraction := Qnat (visible_count (gpu_history profile)) / py_len (gpu_history profile)) in *.
  destruct (truthy_time (last_seen_with_gpu profile)) as [seen|].
  - assert (Hdecay : (now - seen) / 300 <= (now' - seen) / 300) by (apply Qdiv_300_le; lra).
    assert (Hd1 : now - seen < 300 -> (now - seen) / 300 < 1)
      by (intros; apply Qlt_shift_div_r; lra).
    assert (Hd2 : now' - seen < 300 -> (now' - seen) / 300 < 1)
      by (intros; apply Qlt_shift_div_r; lra).
    set (d := (now - seen) / 300) in *. set (d' := (now' - seen) / 300) in *.
    destruct (is_llm profile);
      destruct (Qlt_le_dec (now - seen) 300); destruct (Qlt_le_dec (now' - seen) 300);
      destruct (10 <? length (gpu_history profile))%nat;
      repeat match goal with |- context [Qlt_le_dec ?a ?b] => destruct (Qlt_le_dec a b) end;
      try specialize (Hd1 ltac:(assumption)); try specialize (Hd2 ltac:(assumption));
      lra.
  - destruct (is_llm profile); destruct (10 <? length (gpu_history profile))%nat;
      repeat match goal with |- context [Qlt_le_dec ?a ?b] => destruct (Qlt_le_dec a b) end;
      lra.
Qed.

Lemma X2_likelihood_score_decays_witness :
  get_gpu_likelihood_score 1700000200 (Scenario.observed 6 0)
  <= get_gpu_likelihood_score 1700000100 (Scenario.observed 6 0).
Proof.
  apply (X2_likelihood_score_decays (Scenario.observed 6 0) 1700000100 1700000200).
  vm_compute. discriminate.
Defined.

Lemma likelihood_score_llm (now : Q) (profile : ContainerProfile) :
  is_llm profile = true -> 1 # 2 <= get_gpu_likelihood_score now profile.
Proof.
  intros Hllm. unfold get_gpu_likelihood_score, py_min. cbv zeta. rewrite Hllm.
  pose proof (visible_fraction_bounds (gpu_history profile)) as [Hf0 Hf1].
  set (fraction := Qnat (visible_count (gpu_history profile)) / py_len (gpu_history profile)) in *.
  destruct (truthy_time (last_seen_with_gpu profile)) as [seen|];
    try (destruct (Qlt_le_dec (now - seen) 300) as [Hrecent|Hstale];
         [assert (Hdecay : (now - seen) / 300 < 1) by (apply Qlt_shift_div_r; lra);
          set (decay := (now - seen) / 300) in * |]);
    destruct (10 <? length (gpu_history profile))%nat;
    match goal with |- context [Qlt_le_dec ?a ?b] => destruct (Qlt_le_dec a b) end;
    lra.
Qed.

Lemma likelihood_score_value_llm (clock : nat -> Q) (profile : ContainerProfile) (s : Engine) :
  is_llm profile = true -> 1 # 2 <= value_of (likelihood_score clock profile s).
Proof.
  intros Hllm. unfold likelihood_score.
  destruct (truthy_time (last_seen_with_gpu profile)).
  - rewrite value_bind. apply likelihood_score_llm, Hllm.
  - apply likelihood_score_llm, Hllm.
Qed.

Lemma value_ret {A} (a : A) (s : Engine) : value_of (ret a s) = a.
Proof. reflexivity. Qed.

Lemma state_ret {A} (a : A) (s : Engine) : state_of (ret a s) = s.
Proof. reflexivity. Qed.

Lemma value_gets {A} (f : Engine -> A) (s : Engine) : value_of (gets f s) = f s.
Proof. reflexivity. Qed.

Lemma state_gets {A} (f : Engine -> A) (s : Engine) : state_of (gets f s) = s.
Proof. reflexivity. Qed.

Lemma state_emit (x : Sample) (s : Engine) : state_of (emit x s) = s.
Proof. reflexivity. Qed.

Lemma state_modify (f : Engine -> Engine) (s : Engine) : state_of (modify f s) = f s.
Proof. reflexivity. Qed.

Lemma output_ret {A} (a : A) (s : Engine) : output_of (ret a s) = [].
Proof. reflexivity. Qed.

Lemma output_gets {A} (f : Engine -> A) (s : Engine) : output_of (gets f s) = [].
Proof. reflexivity. Qed.

Lemma output_emit (x : Sample) (s : Engine) : output_of (emit x s) = [x].
Proof. reflexivity. Qed.

Lemma output_modify (f : Engine -> Engine) (s : Engine) : output_of (modify f s) = [].
Proof. reflexivity. Qed.

Create Rewrite HintDb run.

#[local] Hint Rewrite @value_bind @state_bind @output_bind @value_ret @state_ret
  @value_gets @state_gets state_emit state_modify @output_ret @output_gets output_emit
  output_modify : run.

Lemma likelihood_score_profiles (clock : nat -> Q) (profile : ContainerProfile) (s : Engine) :
  container_profiles (state_of (likelihood_score clock profile s)) = container_profiles s.
Proof. unfold likelihood_score. destruct (truthy_time _); reflexivity. Qed.

(** The profile [get_container_weight] works with: the stored one, or a
    fresh one on the first sighting. *)
Lemma get_container_weight_profile (clock : nat -> Q) (container : Container) (s : Engine) :
  let profile :=
    match container_profiles s !! c_id container with
    | Some profile => profile
    | None => ContainerProfile_init (c_id container) (c_name container)
    end in
  container_profiles (state_of (get_container_weight clock container s))
  = <[c_id container := profile]> (container_profiles s)
  /\ exists likelihood,
       0 <= likelihood /\ likelihood <= 1
       /\ (is_llm profile = true -> 1 # 2 <= likelihood)
       /\ value_of (get_container_weight clock container s)
          = (if is_llm profile then 1 * 2 else 1) * (1 + likelihood).
Proof.
  intros profile. subst profile. unfold get_container_weight.
  autorewrite with run.
  destruct (container_profiles s !! c_id container) as [p|] eqn:E;
    autorewrite with run; rewrite likelihood_score_profiles.
  - split; [symmetry; apply insert_id; exact E|].
    eexists. split; [apply likelihood_score_value_bounds|].
    split; [apply likelihood_score_value_bounds|].
    split; [apply likelihood_score_value_llm | reflexivity].
  - split; [reflexivity|].
    eexists. split; [apply likelihood_score_value_bounds|].
    split; [apply likelihood_score_value_bounds|].
    split; [apply likelihood_score_value_llm | reflexivity].
Qed.

Lemma weight_ranges (clock : nat -> Q) (container : Container) (s : Engine) :
  (llm_named s container = true ->
   3 <= value_of (get_container_weight clock container s)
   /\ value_of (get_container_weight clock container s) <= 4)
  /\ (llm_named s container = false ->
      1 <= value_of (get_container_weight clock container s)
      /\ value_of (get_container_weight clock container s) <= 2).
Proof.
  unfold llm_named.
  destruct (get_container_weight_profile clock container s)
    as (_ & likelihood & H0 & H1 & Hllm & ->).
  split; intros Hflag; rewrite Hflag in *.
  - specialize (Hllm eq_refl). split; lra.
  - split; lra.
Qed.

(** X3.  The weight of a container lies in [[3,4]] when the profile it is
    weighed with carries the inference-workload flag and in [[1,2]] when
    it does not, whatever its history and the clock. *)
Theorem X3_weight_ranges (clock : nat -> Q) (container : Container) (s : Engine) :
  let weight := value_of (get_container_weight clock container s) in
  (llm_named s container = true -> 3 <= weight /\ weight <= 4)
  /\ (llm_named s container = false -> 1 <= weight /\ weight <= 2).
Proof.
  intros weight. subst weight. apply weight_ranges.
Qed.

Lemma X3_weight_ranges_witness :
  3 <= value_of (get_container_weight Scenario.wall_clock Scenario.B
                   (EnhancedGPUInference_init 1))
  /\ value_of (get_container_weight Scenario.wall_clock Scenario.B
                 (EnhancedGPUInference_init 1)) <= 4.
Proof.
  apply (proj1 (X3_weight_ranges Scenario.wall_clock Scenario.B
                  (EnhancedGPUInference_init 1))).
  reflexivity.
Defined.

Lemma weigh_profiles (clock : nat -> Q) (acc : gmap string Q * Q) (container : Container)
    (s : Engine) :
  container_profiles (state_of (weigh clock acc container s))
  = container_profiles (state_of (get_container_weight clock container s)).
Proof. unfold weigh. autorewrite with run. reflexivity. Qed.

Lemma llm_named_weigh_other (clock : nat -> Q) (acc : gmap string Q * Q)
    (c0 c : Container) (s : Engine) :
  c_id c0 <> c_id c ->
  llm_named (state_of (weigh clock acc c0 s)) c = llm_named s c.
Proof.
  intros Hne. unfold llm_named. rewrite weigh_profiles.
  destruct (get_container_weight_profile clock c0 s) as (-> & _).
  rewrite lookup_insert_ne by exact Hne. reflexivity.
Qed.

(** The weights gathered by the first loop of [distribute_unknown_memory]
    lie in the range of their container's flag. *)
Lemma collect_weights_ranges (clock : nat -> Q) (l : list Container) :
  forall (acc : gmap string Q * Q) (s : Engine) (c : Container),
    NoDup (List.map c_id l) ->
    In c l ->
    exists w,
      fst (value_of (for_fold l acc (weigh clock) s)) !! c_id c = Some w
      /\ (llm_named s c = true -> 3 <= w /\ w <= 4)
      /\ (llm_named s c = false -> 1 <= w /\ w <= 2).
Proof.
  induction l as [|c0 l IH]; intros acc s c Hnodup Hin; [destruct Hin|].
  apply NoDup_cons in Hnodup as [Hfresh Hnodup].
  simpl for_fold. rewrite value_bind, weigh_value.
  destruct Hin as [->|Hin].
  - exists (value_of (get_container_weight clock c s)). split.
    + destruct (collect_weights_spec clock l
                  (<[c_id c := value_of (get_container_weight clock c s)]> (fst acc),
                   snd acc + value_of (get_container_weight clock c s))
                  (state_of (weigh clock acc c s)) Hnodup)
        as (_ & _ & _ & _ & _ & Hother).
      rewrite Hother; [apply lookup_insert_eq|].
      rewrite <- list_elem_of_In. exact Hfresh.
    + apply weight_ranges.
  - destruct (IH (<[c_id c0 := value_of (get_container_weight clock c0 s)]> (fst acc),
                  snd acc + value_of (get_container_weight clock c0 s))
                (state_of (weigh clock acc c0 s)) c Hnodup Hin) as (w & Hw & Hrange).
    exists w. split; [exact Hw|].
    rewrite llm_named_weigh_other in Hrange; [exact Hrange|].
    intros Heq. apply Hfresh. rewrite list_elem_of_In, Heq. apply in_map. exact Hin.
Qed.

Lemma distribute_output_samples (clock : nat -> Q) (unknown_memory : Q)
    (unknown_containers : list Container) (gpu_idx : nat) (s : Engine) :
  0 < unknown_memory ->
  0 < snd (value_of (collect_weights clock unknown_containers s)) ->
  output_of (distribute_unknown_memory clock unknown_memory unknown_containers gpu_idx s)
  = output_of (collect_weights clock unknown_containers s)
    ++ List.map (fun c =>
                   container_gpu_memory_bytes (c_name c) (c_id c) gpu_idx inference
                     (unknown_memory
                      * ((fst (value_of (collect_weights clock unknown_containers s))
                            !!! c_id c)
                         / snd (value_of (collect_weights clock unknown_containers s)))))
         unknown_containers.
Proof.
  intros Hpos Htotal. unfold distribute_unknown_memory.
  destruct unknown_containers as [|c0 rest]; [reflexivity|].
  destruct (Qlt_le_dec 0 unknown_memory) as [_|Hle]; [|lra].
  rewrite output_bind. f_equal.
  set (acc := value_of (collect_weights clock (c0 :: rest) s)) in *.
  destruct (Qlt_le_dec 0 (snd acc)) as [_|Hle]; [|lra].
  apply (for_each_emit_output
           (fun container =>
              container_gpu_memory_bytes (c_name container) (c_id container) gpu_idx inference
                (unknown_memory * ((fst acc !!! c_id container) / snd acc)))).
Qed.

(** X4.  In one distribution over containers with pairwise distinct ids,
    a container weighed with the inference-workload flag is allocated at
    least one and a half times what a container without the flag gets;
    both allocations are written with [method='inference']. *)
Theorem X4_flagged_allocation_dominates (clock : nat -> Q) (unknown_memory : Q)
    (unknown_containers : list Container) (gpu_idx : nat) (s : Engine)
    (c1 c2 : Container) :
  0 < unknown_memory ->
  NoDup (List.map c_id unknown_containers) ->
  In c1 unknown_containers -> In c2 unknown_containers ->
  llm_named s c1 = true -> llm_named s c2 = false ->
  let acc := value_of (collect_weights clock unknown_containers s) in
  let allocation c := unknown_memory * ((fst acc !!! c_id c) / snd acc) in
  let out :=
    output_of (distribute_unknown_memory clock unknown_memory unknown_containers gpu_idx s) in
  In (container_gpu_memory_bytes (c_name c1) (c_id c1) gpu_idx inference (allocation c1)) out
  /\ In (container_gpu_memory_bytes (c_name c2) (c_id c2) gpu_idx inference (allocation c2)) out
  /\ (3 # 2) * allocation c2 <= allocation c1.
Proof.
  intros Hpos Hnodup Hin1 Hin2 Hllm1 Hllm2 acc allocation out.
  destruct (collect_weights_spec clock unknown_containers (∅, 0) s Hnodup)
    as (wl & Hlen & Hge & Htotal & _ & _).
  change (for_fold unknown_containers (∅, 0) (weigh clock) s)
    with (collect_weights clock unknown_containers s) in Htotal.
  fold acc in Htotal. simpl in Htotal. fold (py_sum wl) in Htotal.
  assert (Hwl : wl <> []).
  { intros ->. destruct unknown_containers; [destruct Hin1 | discriminate]. }
  pose proof (total_weight_ge_1 wl Hwl Hge) as Hsum.
  assert (Htw : 0 < snd acc) by (rewrite Htotal; lra).
  destruct (collect_weights_ranges clock unknown_containers (∅, 0) s c1 Hnodup Hin1)
    as (w1 & Hw1 & Hr1 & _).
  destruct (collect_weights_ranges clock unknown_containers (∅, 0) s c2 Hnodup Hin2)
    as (w2 & Hw2 & _ & Hr2).
  change (for_fold unknown_containers (∅, 0) (weigh clock) s)
    with (collect_weights clock unknown_containers s) in Hw1, Hw2.
  fold acc in Hw1, Hw2.
  specialize (Hr1 Hllm1). specialize (Hr2 Hllm2).
  subst out. rewrite distribute_output_samples by assumption. fold acc.
  split; [|split].
  - apply in_or_app. right.
    apply (in_map (fun c => container_gpu_memory_bytes (c_name c) (c_id c) gpu_idx inference
                              (unknown_memory * ((fst acc !!! c_id c) / snd acc)))).
    exact Hin1.
  - apply in_or_app. right.
    apply (in_map (fun c => container_gpu_memory_bytes (c_name c) (c_id c) gpu_idx inference
                              (unknown_memory * ((fst acc !!! c_id c) / snd acc)))).
    exact Hin2.
  - subst allocation. cbv beta. rewrite !lookup_total_alt, Hw1, Hw2. simpl default.
    assert (Hinv : 0 < / snd acc) by (apply Qinv_lt_0_compat; exact Htw).
    assert (Hscale : 0 < unknown_memory * / snd acc) by (apply Qmult_lt_0_compat; assumption).
    set (k := unknown_memory * / snd acc) in *.
    assert (H1 : unknown_memory * (w1 / snd acc) == k * w1) by (subst k; unfold Qdiv; ring).
    assert (H2 : (3 # 2) * (unknown_memory * (w2 / snd acc)) == k * ((3 # 2) * w2))
      by (subst k; unfold Qdiv; ring).
    rewrite H1, H2. apply Qmult_le_l; [exact Hscale | lra].
Qed.

Lemma X4_flagged_allocation_dominates_witness :
  let acc :=
    value_of (collect_weights Scenario.wall_clock [Scenario.B; Scenario.C]
                (EnhancedGPUInference_init 1)) in
  (3 # 2) * (8 * Scenario.GiB * ((fst acc !!! c_id Scenario.C) / snd acc))
  <= 8 * Scenario.GiB * ((fst acc !!! c_id Scenario.B) / snd acc).
Proof.
  intros acc.
  refine (proj2 (proj2 (X4_flagged_allocation_dominates Scenario.wall_clock
                          (8 * Scenario.GiB) [Scenario.B; Scenario.C] 0
                          (EnhancedGPUInference_init 1) Scenario.B Scenario.C
                          _ _ _ _ _ _))).
  - reflexivity.
  - apply (bool_decide_unpack _). vm_compute. exact I.
  - left. reflexivity.
  - right. left. reflexivity.
  - reflexivity.
  - reflexivity.
Defined.

(** ** The driver query *)

Lemma first_matching_spec (uuid : string) (uuids : nat -> string) (n : nat) :
  forall a,
    match first_matching uuid uuids (seq a n) with
    | Some i =>
        (a <= i < a + n)%nat /\ str_in uuid (uuids i) = true
        /\ forall k, (a <= k < i)%nat -> str_in uuid (uuids k) = false
    | None => forall k, (a <= k < a + n)%nat -> str_in uuid (uuids k) = false
    end.
Proof.
  induction n as [|n IH]; intros a; simpl.
  - intros k Hk. lia.
  - destruct (str_in uuid (uuids a)) eqn:Ha.
    + split; [lia|]. split; [exact Ha|]. intros k Hk. lia.
    + specialize (IH (S a)). destruct (first_matching uuid uuids (seq (S a) n)) as [i|].
      * destruct IH as (Hi & Hm & Hfirst). split; [lia|]. split; [exact Hm|].
        intros k Hk. destruct (decide (k = a)) as [->|Hne]; [exact Ha | apply Hfirst; lia].
      * intros k Hk. destruct (decide (k = a)) as [->|Hne]; [exact Ha | apply IH; lia].
Qed.

Lemma gpu_index_bound (dc : nat) (uuids : nat -> string) (uuid : string) :
  (_get_gpu_index_from_uuid dc uuids uuid < Nat.max 1 dc)%nat.
Proof.
  unfold _get_gpu_index_from_uuid.
  pose proof (first_matching_spec uuid uuids dc 0) as Hspec.
  destruct (first_matching uuid uuids (seq 0 dc)) as [i|]; [|lia].
  destruct Hspec as (Hi & _). lia.
Qed.

(** X5.  [_get_gpu_index_from_uuid] returns an index below the device
    count (or 0 when there is no device); when some device's UUID
    contains the given one, it returns the first such device. *)
Theorem X5_gpu_index_first_match (dc : nat) (uuids : nat -> string) (uuid : string) :
  let i := _get_gpu_index_from_uuid dc uuids uuid in
  (i < Nat.max 1 dc)%nat
  /\ ((exists j, (j < dc)%nat /\ str_in uuid (uuids j) = true) ->
      (i < dc)%nat /\ str_in uuid (uuids i) = true
      /\ forall k, (k < i)%nat -> str_in uuid (uuids k) = false).
Proof.
  intros i. subst i. unfold _get_gpu_index_from_uuid.
  pose proof (first_matching_spec uuid uuids dc 0) as Hspec.
  destruct (first_matching uuid uuids (seq 0 dc)) as [i|].
  - destruct Hspec as (Hi & Hm & Hfirst). split; [lia|]. intros _.
    split; [lia|]. split; [exact Hm|]. intros k Hk. apply Hfirst. lia.
  - split; [lia|]. intros (j & Hj & Hm). rewrite Hspec in Hm by lia. discriminate.
Qed.

Lemma X5_gpu_index_first_match_witness :
  let uuids := fun i : nat =>
    if decide (i = 0%nat) then "GPU-5a1f0e2c"%string else "GPU-77aa41d0"%string in
  (_get_gpu_index_from_uuid 3 uuids "GPU-77aa41d0" < 3)%nat
  /\ str_in "GPU-77aa41d0" (uuids (_get_gpu_index_from_uuid 3 uuids "GPU-77aa41d0")) = true
  /\ forall k, (k < _get_gpu_index_from_uuid 3 uuids "GPU-77aa41d0")%nat ->
               str_in "GPU-77aa41d0" (uuids k) = false.
Proof.
  intros uuids.
  apply (proj2 (X5_gpu_index_first_match 3 uuids "GPU-77aa41d0")).
  exists 2%nat. split; [lia | reflexivity].
Defined.

Lemma dd_append_keys (k : nat) (p : Process) (d : list (nat * list Process)) :
  List.map fst (dd_append k p d)
  = if in_dec Nat.eq_dec k (List.map fst d)
    then List.map fst d else List.map fst d ++ [k].
Proof.
  induction d as [|[k' ps] d IH]; simpl; [reflexivity|].
  destruct (decide (k' = k)) as [->|Hne]; simpl.
  - destruct (Nat.eq_dec k k); [reflexivity | congruence].
  - rewrite IH. destruct (Nat.eq_dec k' k); [congruence|].
    destruct (in_dec Nat.eq_dec k (List.map fst d)); reflexivity.
Qed.

Lemma dd_append_all (k : nat) (p : Process) (d : list (nat * list Process)) :
  py_sum (List.map memory_bytes (all_known (dd_append k p d)))
  == py_sum (List.map memory_bytes (all_known d)) + memory_bytes p.
Proof.
  unfold all_known. induction d as [|[k' ps] d IH]; simpl.
  - rewrite py_sum_cons, !py_sum_nil. lra.
  - destruct (decide (k' = k)); simpl.
    + rewrite !List.map_app, !py_sum_app. simpl. rewrite py_sum_cons, py_sum_nil. lra.
    + rewrite !List.map_app, !py_sum_app, IH. lra.
Qed.

Lemma dd_append_entries (k : nat) (p : Process) (d : list (nat * list Process)) :
  (forall item, In item d -> snd item <> []) ->
  forall item, In item (dd_append k p d) -> snd item <> [].
Proof.
  induction d as [|[k' ps] d IH]; simpl; intros Hd item Hitem.
  - destruct Hitem as [<-|[]]. discriminate.
  - destruct (decide (k' = k)).
    + destruct Hitem as [<-|Hitem]; [simpl; destruct ps; discriminate|].
      apply Hd. right. exact Hitem.
    + destruct Hitem as [<-|Hitem]; [apply (Hd (k', ps)); left; reflexivity|].
      apply IH; [|exact Hitem]. intros item' H'. apply Hd. right. exact H'.
Qed.

Lemma known_processes_loop_inv (dc : nat) (uuids : nat -> string) (lines : list SmiLine) :
  forall d,
    NoDup (List.map fst d) ->
    (forall item, In item d -> (fst item < Nat.max 1 dc)%nat /\ snd item <> []) ->
    let kp := known_processes_loop dc uuids lines d in
    NoDup (List.map fst kp)
    /\ (forall item, In item kp -> (fst item < Nat.max 1 dc)%nat /\ snd item <> [])
    /\ py_sum (List.map memory_bytes (all_known kp))
       == py_sum (List.map memory_bytes (all_known d))
          + py_sum (List.map (fun row => snd row * 1024 * 1024) (parsed_rows lines)).
Proof.
  induction lines as [|line lines IH]; intros d Hnodup Hd kp; subst kp.
  - simpl. split; [exact Hnodup|]. split; [exact Hd|]. rewrite py_sum_nil. lra.
  - destruct line as [| |p uuid mb]; simpl known_processes_loop; simpl parsed_rows.
    + apply IH; assumption.
    + split; [exact Hnodup|]. split; [exact Hd|]. simpl. rewrite py_sum_nil. lra.
    + set (g := _get_gpu_index_from_uuid dc uuids uuid).
      set (q := {| pid := p; memory_bytes := mb * 1024 * 1024 |}).
      destruct (IH (dd_append g q d)) as (Hn & Hi & Hsum).
      * rewrite dd_append_keys. destruct (in_dec Nat.eq_dec g (List.map fst d)) as [Hin|Hnotin];
          [exact Hnodup|].
        apply NoDup_app. split; [exact Hnodup|]. split.
        -- intros x Hx Hx'. apply list_elem_of_In in Hx.
           apply list_elem_of_singleton in Hx'. subst x. contradiction.
        -- apply NoDup_singleton.
      * intros item Hitem. split.
        -- assert (Hkey : In (fst item) (List.map fst (dd_append g q d)))
             by (apply in_map; exact Hitem).
           rewrite dd_append_keys in Hkey.
           assert (Hg : (g < Nat.max 1 dc)%nat)
             by apply gpu_index_bound.
           destruct (in_dec Nat.eq_dec g (List.map fst d)).
           ++ apply in_map_iff in Hkey as (item' & <- & Hin'). apply Hd, Hin'.
           ++ apply in_app_or in Hkey as [Hkey|[<-|[]]]; [|exact Hg].
              apply in_map_iff in Hkey as (item' & <- & Hin'). apply Hd, Hin'.
        -- revert item Hitem. apply dd_append_entries. intros item' H'. apply Hd, H'.
      * split; [exact Hn|]. split; [exact Hi|].
        rewrite Hsum, dd_append_all. simpl List.map. rewrite py_sum_cons. simpl. lra.
Qed.

Lemma known_processes_loop_garbled (dc : nat) (uuids : nat -> string)
    (pre post : list SmiLine) :
  forall d,
    known_processes_loop dc uuids (pre ++ smi_garbled :: post) d
    = known_processes_loop dc uuids pre d.
Proof.
  induction pre as [|line pre IH]; intros d; simpl; [reflexivity|].
  destruct line; [apply IH | reflexivity | apply IH].
Qed.

(** X6.  [known_processes] has one entry per device index, each a valid
    index with at least one record; its records carry, in total, the
    memory of the rows parsed, converted from MiB to bytes; and a line
    that fails to parse discards every line after it. *)
Theorem X6_known_processes_accounting (dc : nat) (r : Readings) :
  let kp := get_known_gpu_processes dc r in
  NoDup (List.map fst kp)
  /\ (forall item, In item kp -> (fst item < Nat.max 1 dc)%nat /\ snd item <> [])
  /\ py_sum (List.map memory_bytes (all_known kp))
     == py_sum (List.map (fun row => snd row * 1024 * 1024)
                  (parsed_rows (nvidia_smi_stdout r)))
  /\ (forall pre post,
        nvidia_smi_stdout r = pre ++ smi_garbled :: post ->
        kp = known_processes_loop dc (nvmlDeviceGetUUID r) pre []).
Proof.
  intros kp. subst kp. unfold get_known_gpu_processes.
  destruct (known_processes_loop_inv dc (nvmlDeviceGetUUID r) (nvidia_smi_stdout r) [])
    as (Hn & Hi & Hsum).
  { constructor. }
  { intros item []. }
  split; [exact Hn|]. split; [exact Hi|]. split.
  - rewrite Hsum. unfold all_known. simpl. rewrite py_sum_nil. lra.
  - intros pre post ->. apply known_processes_loop_garbled.
Qed.

Lemma X6_known_processes_accounting_witness :
  let r :=
    {| nvmlDeviceGetMemoryInfo := nvmlDeviceGetMemoryInfo Scenario.readings;
       nvmlDeviceGetUUID := nvmlDeviceGetUUID Scenario.readings;
       nvidia_smi_stdout := [smi_row 4242 "GPU-5a1f0e2c" 2048; smi_garbled;
                             smi_row 977 "GPU-5a1f0e2c" 512];
       map_pid_to_container := map_pid_to_container Scenario.readings;
       docker_ps := docker_ps Scenario.readings |} in
  get_known_gpu_processes 1 r
  = known_processes_loop 1 (nvmlDeviceGetUUID r) [smi_row 4242 "GPU-5a1f0e2c" 2048] [].
Proof.
  intros r.
  apply (proj2 (proj2 (proj2 (X6_known_processes_accounting 1 r)))
           [smi_row 4242 "GPU-5a1f0e2c" 2048] [smi_row 977 "GPU-5a1f0e2c" 512]).
  reflexivity.
Defined.

(** ** The container listing *)








(** ** What the stores look like after any number of cycles *)

Lemma inv_bind {A B} (P : Engine -> Prop) (m : M A) (k : A -> M B) (s : Engine) :
  P (state_of (m s)) ->
  (forall a s1, P s1 -> P (state_of (k a s1))) ->
  P (state_of (bind m k s)).
Proof. intros Hm Hk. rewrite state_bind. apply Hk, Hm. Qed.

Lemma inv_for_fold {A B} (P : Engine -> Prop) (body : B -> A -> M B) (l : list A) :
  (forall acc x s, P s -> P (state_of (body acc x s))) ->
  forall acc s, P s -> P (state_of (for_fold l acc body s)).
Proof.
  intros Hbody. induction l as [|x l IH]; intros acc s Hs; simpl.
  - exact Hs.
  - rewrite state_bind. apply IH, Hbody, Hs.
Qed.

Lemma inv_for_each {A} (P : Engine -> Prop) (body : A -> M unit) (l : list A) :
  (forall x s, P s -> P (state_of (body x s))) ->
  forall s, P s -> P (state_of (for_each l body s)).
Proof.
  intros Hbody. induction l as [|x l IH]; intros s Hs; simpl.
  - exact Hs.
  - rewrite state_bind. apply IH, Hbody, Hs.
Qed.

Lemma deque_append_bounded {A} (maxlen : nat) (d : list A) (x : A) :
  (length d <= maxlen)%nat -> (length (deque_append maxlen d x) <= maxlen)%nat.
Proof.
  intros Hd. unfold deque_append. destruct maxlen as [|n]; [exact Hd|].
  destruct (length d <? S n)%nat eqn:Hroom.
  - apply Nat.ltb_lt in Hroom. rewrite length_app. simpl. lia.
  - rewrite length_app, length_drop. simpl. lia.
Qed.

Lemma well_formed_init (HISTORY_SIZE dc : nat) :
  well_formed HISTORY_SIZE (EnhancedGPUInference_init dc).
Proof. split; intros k v H; simpl in H; rewrite lookup_empty in H; discriminate. Qed.

Lemma well_formed_tick (HISTORY_SIZE : nat) (s : Engine) :
  well_formed HISTORY_SIZE s -> well_formed HISTORY_SIZE (tick s).
Proof. intros H. exact H. Qed.

Lemma well_formed_insert_profile (HISTORY_SIZE : nat) (cid : string)
    (profile : ContainerProfile) (s : Engine) :
  container_id profile = cid ->
  is_llm profile = _detect_llm_container (container_name profile) ->
  (length (gpu_history profile) <= HISTORY_SIZE)%nat ->
  well_formed HISTORY_SIZE s ->
  well_formed HISTORY_SIZE (set_profiles (insert cid profile) s).
Proof.
  intros Hid Hflag Hlen [Hprofiles Hhistory]. split; [|exact Hhistory].
  intros k p. simpl. destruct (decide (cid = k)) as [<-|Hne].
  - rewrite lookup_insert_eq. intros [= <-]. tauto.
  - rewrite lookup_insert_ne by exact Hne. apply Hprofiles.
Qed.

Lemma well_formed_update_if_profiled (HISTORY_SIZE : nat) (clock : nat -> Q) (cid : string)
    (has_visible_gpu : bool) (memory_bytes : Q) (s : Engine) :
  well_formed HISTORY_SIZE s ->
  well_formed HISTORY_SIZE
    (state_of (update_if_profiled HISTORY_SIZE clock cid has_visible_gpu memory_bytes s)).
Proof.
  intros Hwf. unfold update_if_profiled. autorewrite with run.
  destruct (container_profiles s !! cid) as [p|] eqn:E; [|exact Hwf].
  destruct (proj1 Hwf cid p E) as (Hid & Hflag & Hlen).
  autorewrite with run.
  apply well_formed_insert_profile.
  - exact Hid.
  - exact Hflag.
  - apply (deque_append_bounded HISTORY_SIZE (gpu_history p)). exact Hlen.
  - destruct has_visible_gpu; exact Hwf.
Qed.

Lemma well_formed_likelihood_score (HISTORY_SIZE : nat) (clock : nat -> Q)
    (profile : ContainerProfile) (s : Engine) :
  well_formed HISTORY_SIZE s ->
  well_formed HISTORY_SIZE (state_of (likelihood_score clock profile s)).
Proof. intros Hwf. unfold likelihood_score. destruct (truthy_time _); exact Hwf. Qed.

Lemma well_formed_get_container_weight (HISTORY_SIZE : nat) (clock : nat -> Q)
    (container : Container) (s : Engine) :
  well_formed HISTORY_SIZE s ->
  well_formed HISTORY_SIZE (state_of (get_container_weight clock container s)).
Proof.
  intros Hwf. unfold get_container_weight. autorewrite with run.
  destruct (container_profiles s !! c_id container) as [p|] eqn:E; autorewrite with run.
  - apply well_formed_likelihood_score, Hwf.
  - apply well_formed_likelihood_score, well_formed_insert_profile;
      [reflexivity | reflexivity | simpl; lia | exact Hwf].
Qed.

Lemma well_formed_distribute_unknown_memory (HISTORY_SIZE : nat) (clock : nat -> Q)
    (unknown_memory : Q) (unknown_containers : list Container) (gpu_idx : nat) (s : Engine) :
  well_formed HISTORY_SIZE s ->
  well_formed HISTORY_SIZE
    (state_of (distribute_unknown_memory clock unknown_memory unknown_containers gpu_idx s)).
Proof.
  intros Hwf. unfold distribute_unknown_memory.
  destruct unknown_containers as [|c0 rest]; [exact Hwf|].
  destruct (Qlt_le_dec 0 unknown_memory); [|exact Hwf].
  apply inv_bind.
  - unfold collect_weights. apply inv_for_fold; [|exact Hwf].
    intros acc c s' Hs'. unfold weigh. autorewrite with run.
    apply well_formed_get_container_weight, Hs'.
  - intros acc s1 Hs1. apply inv_for_each; [|exact Hs1].
    intros c s' Hs'. destruct (Qlt_le_dec 0 (snd acc)); exact Hs'.
Qed.

Lemma well_formed_read_device (HISTORY_SIZE : nat) (r : Readings)
    (gpu_stats : gmap nat MemInfo) (i : nat) (s : Engine) :
  well_formed HISTORY_SIZE s ->
  well_formed HISTORY_SIZE (state_of (read_device HISTORY_SIZE r gpu_stats i s)).
Proof.
  intros [Hprofiles Hhistory]. unfold read_device. cbv zeta. autorewrite with run.
  split; [exact Hprofiles|]. intros j h. simpl.
  destruct (decide (i = j)) as [<-|Hne].
  - rewrite lookup_insert_eq. intros [= <-]. apply deque_append_bounded.
    destruct (memory_history s !! i) as [h0|] eqn:E; simpl; [apply (Hhistory i h0 E) | lia].
  - rewrite lookup_insert_ne by exact Hne. apply Hhistory.
Qed.

Lemma well_formed_calculate_inference_confidence (HISTORY_SIZE : nat) (gpu_idx : nat)
    (unknown_memory total_memory : Q) (s : Engine) :
  well_formed HISTORY_SIZE s ->
  well_formed HISTORY_SIZE
    (state_of (calculate_inference_confidence gpu_idx unknown_memory total_memory s)).
Proof.
  intros Hwf. unfold calculate_inference_confidence.
  destruct (Qeq_dec total_memory 0); [exact Hwf|]. autorewrite with run.
  destruct (memory_history s !! gpu_idx) eqn:E; autorewrite with run; [exact Hwf|].
  destruct Hwf as [Hprofiles Hhistory]. split; [exact Hprofiles|].
  intros j h. simpl. destruct (decide (gpu_idx = j)) as [<-|Hne].
  - rewrite lookup_insert_eq. intros [= <-]. simpl. lia.
  - rewrite lookup_insert_ne by exact Hne. apply Hhistory.
Qed.

Lemma well_formed_calculate_inference (HISTORY_SIZE : nat) (clock : nat -> Q)
    (r : Readings) (s : Engine) :
  well_formed HISTORY_SIZE s ->
  well_formed HISTORY_SIZE (state_of (calculate_inference HISTORY_SIZE clock r s)).
Proof.
  intros Hwf. unfold calculate_inference.
  apply inv_bind.
  { unfold get_total_gpu_memory. apply inv_bind; [exact Hwf|]. intros dc s1 Hs1.
    apply inv_for_fold; [|exact Hs1]. intros; apply well_formed_read_device; assumption. }
  intros gpu_stats s1 Hs1. apply inv_bind; [exact Hs1|]. intros dc s2 Hs2.
  apply inv_bind.
  { apply inv_for_fold; [|exact Hs2]. intros ids item s' Hs'.
    unfold process_known. cbv zeta. apply inv_bind.
    - apply inv_for_fold; [|exact Hs']. intros acc proc s'' Hs''.
      unfold account_process. cbv zeta.
      destruct (map_pid_to_container r (pid proc)); [|exact Hs''].
      apply inv_bind; [apply well_formed_update_if_profiled, Hs''|].
      intros _ s3 Hs3. apply inv_bind; [exact Hs3 | intros; assumption].
    - intros res s3 Hs3. apply inv_bind; [exact Hs3 | intros; assumption]. }
  intros ids s3 Hs3. apply inv_for_each; [|exact Hs3].
  intros gpu_idx s' Hs'. unfold process_gpu. cbv zeta.
  apply inv_bind; [exact Hs'|]. intros _ s4 Hs4.
  apply inv_bind; [exact Hs4|]. intros _ s5 Hs5.
  apply inv_bind.
  { unfold find_unknown_containers. apply inv_for_fold; [|exact Hs5].
    intros acc c s'' Hs''. unfold classify_container.
    apply inv_bind; [exact Hs''|]. intros _ s6 Hs6.
    destruct (decide (c_id c ∈ ids)); [exact Hs6|].
    apply inv_bind; [apply well_formed_update_if_profiled, Hs6 | intros; assumption]. }
  intros unknown_containers s6 Hs6.
  destruct (Qlt_le_dec 0 _).
  - apply inv_bind; [exact Hs6|]. intros _ s7 Hs7.
    apply inv_bind; [apply well_formed_calculate_inference_confidence, Hs7|].
    intros confidence s8 Hs8. apply well_formed_distribute_unknown_memory, Hs8.
  - apply inv_bind; [exact Hs6 | intros; assumption].
Qed.

Lemma well_formed_run_cycles (HISTORY_SIZE : nat) (clock : nat -> Q)
    (rounds : list Readings) :
  forall s, well_formed HISTORY_SIZE s ->
            well_formed HISTORY_SIZE (run_cycles HISTORY_SIZE clock rounds s).
Proof.
  unfold run_cycles. induction rounds as [|r rounds IH]; intros s Hwf; simpl; [exact Hwf|].
  apply IH, well_formed_calculate_inference, Hwf.
Qed.

(** X8.  After any number of collection cycles from start-up, no device's
    used-memory history and no profile's observation history is longer
    than [HISTORY_SIZE]. *)
Theorem X8_histories_bounded (HISTORY_SIZE dc : nat) (clock : nat -> Q)
    (rounds : list Readings) :
  let s := run_cycles HISTORY_SIZE clock rounds (EnhancedGPUInference_init dc) in
  (forall i h, memory_history s !! i = Some h -> (length h <= HISTORY_SIZE)%nat)
  /\ (forall cid p, container_profiles s !! cid = Some p ->
        (length (gpu_history p) <= HISTORY_SIZE)%nat).
Proof.
  intros s.
  destruct (well_formed_run_cycles HISTORY_SIZE clock rounds _
              (well_formed_init HISTORY_SIZE dc)) as [Hprofiles Hhistory].
  split; [exact Hhistory|]. intros cid p Hp. apply (Hprofiles cid p Hp).
Qed.

Lemma X8_histories_bounded_witness :
  exists h,
    memory_history
      (run_cycles 2 Scenario.wall_clock
         [Scenario.readings; Scenario.readings; Scenario.readings]
         (EnhancedGPUInference_init 1)) !! 0%nat = Some h
    /\ (length h <= 2)%nat.
Proof.
  exists [10 * Scenario.GiB; 10 * Scenario.GiB].
  assert (Hlook : memory_history
            (run_cycles 2 Scenario.wall_clock
               [Scenario.readings; Scenario.readings; Scenario.readings]
               (EnhancedGPUInference_init 1)) !! 0%nat
          = Some [10 * Scenario.GiB; 10 * Scenario.GiB]) by (vm_compute; reflexivity).
  split; [exact Hlook|].
  exact (proj1 (X8_histories_bounded 2 1 Scenario.wall_clock
                  [Scenario.readings; Scenario.readings; Scenario.readings])
           0%nat _ Hlook).
Defined.

(** X9.  After any number of collection cycles from start-up, every
    profile in the store sits under its own container id, and its
    inference-workload flag is the one its name gives: the flag is fixed
    when the profile is created and never changes. *)
Theorem X9_profiles_keyed_and_flagged (HISTORY_SIZE dc : nat) (clock : nat -> Q)
    (rounds : list Readings) :
  let s := run_cycles HISTORY_SIZE clock rounds (EnhancedGPUInference_init dc) in
  forall cid p, container_profiles s !! cid = Some p ->
    container_id p = cid /\ is_llm p = _detect_llm_container (container_name p).
Proof.
  intros s cid p Hp.
  destruct (well_formed_run_cycles HISTORY_SIZE clock rounds _
              (well_formed_init HISTORY_SIZE dc)) as [Hprofiles _].
  destruct (Hprofiles cid p Hp) as (Hid & Hflag & _). split; assumption.
Qed.

Lemma X9_profiles_keyed_and_flagged_witness :
  exists p,
    container_profiles
      (run_cycles 30 Scenario.wall_clock [Scenario.readings; Scenario.readings]
         (EnhancedGPUInference_init 1)) !! c_id Scenario.B = Some p
    /\ container_id p = c_id Scenario.B
    /\ is_llm p = _detect_llm_container (container_name p).
Proof.
  destruct (container_profiles
              (run_cycles 30 Scenario.wall_clock [Scenario.readings; Scenario.readings]
                 (EnhancedGPUInference_init 1)) !! c_id Scenario.B) as [p|] eqn:Hlook.
  - exists p. split; [reflexivity|].
    exact (X9_profiles_keyed_and_flagged 30 1 Scenario.wall_clock
             [Scenario.readings; Scenario.readings] (c_id Scenario.B) p Hlook).
  - vm_compute in Hlook. discriminate.
Defined.

(** ** What a cycle reports *)

Lemma for_fold_omap_none {A B C} (f : Sample -> option C) (body : B -> A -> M B)
    (l : list A) :
  (forall acc x s, omap f (output_of (body acc x s)) = []) ->
  forall acc s, omap f (output_of (for_fold l acc body s)) = [].
Proof.
  intros Hbody. induction l as [|x l IH]; intros acc s; simpl; [reflexivity|].
  rewrite output_bind, omap_app, Hbody, IH. reflexivity.
Qed.

Lemma for_each_omap_In {A C} (f : Sample -> option C) (body : A -> M unit) (l : list A) :
  forall s y,
    In y (omap f (output_of (for_each l body s))) ->
    exists x s', In x l /\ In y (omap f (output_of (body x s'))).
Proof.
  induction l as [|x l IH]; intros s y Hy; simpl in Hy; [destruct Hy|].
  rewrite output_bind, omap_app in Hy. apply in_app_or in Hy as [Hy|Hy].
  - exists x, s. split; [left; reflexivity | exact Hy].
  - destruct (IH _ y Hy) as (x' & s' & Hin & Hy'). exists x', s'.
    split; [right; exact Hin | exact Hy'].
Qed.

Lemma container_level_no_unknown (out : list Sample) :
  Forall container_level out -> unknown_reports out = [].
Proof.
  intros H. apply omap_none. eapply Forall_impl; [exact H|].
  intros []; simpl; intros; tauto.
Qed.

Lemma get_total_gpu_memory_quiet {C} (f : Sample -> option C) (HISTORY_SIZE : nat)
    (r : Readings) (s : Engine) :
  (forall g v, f (gpu_memory_total_bytes g v) = None) ->
  (forall g v, f (gpu_memory_used_bytes g v) = None) ->
  (forall g v, f (gpu_memory_free_bytes g v) = None) ->
  omap f (output_of (get_total_gpu_memory HISTORY_SIZE r s)) = [].
Proof.
  intros Ht Hu Hf. unfold get_total_gpu_memory. rewrite output_bind. simpl app.
  apply for_fold_omap_none. intros acc i s'. unfold read_device. cbv zeta.
  autorewrite with run. simpl. rewrite Ht, Hu, Hf. reflexivity.
Qed.

Lemma process_known_quiet {C} (f : Sample -> option C) (HISTORY_SIZE : nat)
    (clock : nat -> Q) (r : Readings) (known_processes : list (nat * list Process))
    (ids : gset string) (s : Engine) :
  (forall name cid g v, f (container_gpu_memory_bytes name cid g nvidia_smi v) = None) ->
  (forall g v, f (gpu_memory_known_bytes g v) = None) ->
  omap f (output_of (for_fold known_processes ids (process_known HISTORY_SIZE clock r) s))
  = [].
Proof.
  intros Hc Hk. apply for_fold_omap_none. intros acc item s'.
  unfold process_known. cbv zeta. rewrite !output_bind, !omap_app.
  rewrite for_fold_omap_none.
  - simpl. rewrite Hk. reflexivity.
  - intros acc' proc s''. unfold account_process. cbv zeta.
    destruct (map_pid_to_container r (pid proc)); [|reflexivity].
    rewrite !output_bind, update_if_profiled_output. simpl. rewrite Hc. reflexivity.
Qed.

(** The writes of one device's iteration, part by part. *)
Lemma process_gpu_output_parts (HISTORY_SIZE : nat) (clock : nat -> Q)
    (gpu_stats : gmap nat MemInfo) (known_processes : list (nat * list Process))
    (gpu_containers : list Container) (known_container_ids : gset string)
    (gpu_idx : nat) (s : Engine) :
  let total_used := used (gpu_stats !!! gpu_idx) in
  let unknown_used := unknown_used_of total_used (known_used_of known_processes gpu_idx) in
  let found :=
    find_unknown_containers HISTORY_SIZE clock gpu_containers known_container_ids s in
  let scored :=
    calculate_inference_confidence gpu_idx unknown_used total_used (state_of found) in
  output_of (process_gpu HISTORY_SIZE clock gpu_stats known_processes gpu_containers
               known_container_ids gpu_idx s)
  = [gpu_memory_unknown_bytes gpu_idx unknown_used; unknown_memory_histogram unknown_used]
    ++ output_of found
    ++ (if Qlt_le_dec 0 unknown_used then
          [gpu_inference_active gpu_idx 1]
          ++ output_of scored
          ++ output_of (distribute_unknown_memory clock unknown_used (value_of found)
                          gpu_idx (state_of scored))
        else [gpu_inference_active gpu_idx 0; gpu_inference_confidence gpu_idx 0]).
Proof.
  intros total_used unknown_used found scored. unfold process_gpu.
  fold total_used. fold unknown_used. cbv zeta.
  rewrite !output_bind. autorewrite with run. fold found.
  destruct (Qlt_le_dec 0 unknown_used).
  - autorewrite with run. fold scored. reflexivity.
  - autorewrite with run. reflexivity.
Qed.

Lemma process_gpu_unknown_report (HISTORY_SIZE : nat) (clock : nat -> Q)
    (gpu_stats : gmap nat MemInfo) (known_processes : list (nat * list Process))
    (gpu_containers : list Container) (known_container_ids : gset string)
    (gpu_idx : nat) (s : Engine) :
  unknown_reports
    (output_of (process_gpu HISTORY_SIZE clock gpu_stats known_processes gpu_containers
                  known_container_ids gpu_idx s))
  = [(gpu_idx, unknown_used_of (used (gpu_stats !!! gpu_idx))
                 (known_used_of known_processes gpu_idx))].
Proof.
  rewrite process_gpu_output_parts. cbv zeta.
  unfold unknown_reports. rewrite !omap_app. simpl omap at 1.
  fold (unknown_reports
          (output_of (find_unknown_containers HISTORY_SIZE clock gpu_containers
                        known_container_ids s))).
  rewrite (container_level_no_unknown _ (find_unknown_containers_output _ _ _ _ _)).
  destruct (Qlt_le_dec 0 _); [|reflexivity].
  rewrite !omap_app, calculate_inference_confidence_output.
  match goal with
  | |- context [omap ?f (output_of (distribute_unknown_memory ?c ?u ?l ?g ?s'))] =>
      change (omap f (output_of (distribute_unknown_memory c u l g s')))
        with (unknown_reports (output_of (distribute_unknown_memory c u l g s')));
      rewrite (container_level_no_unknown _ (distribute_unknown_memory_output c u l g s'))
  end.
  destruct (Qeq_dec _ 0); reflexivity.
Qed.

(** X10.  A cycle writes [gpu_memory_unknown_bytes] exactly once for each
    device, in the order of the device indices, whether or not any
    process or container is found; the value is
    [max(0, used - known)] for the readings of that cycle. *)
Theorem X10_unknown_reported_per_device (HISTORY_SIZE : nat) (clock : nat -> Q)
    (r : Readings) (s : Engine) :
  unknown_reports (output_of (calculate_inference HISTORY_SIZE clock r s))
  = List.map (fun gpu_idx =>
                (gpu_idx,
                 unknown_used_of (used (nvmlDeviceGetMemoryInfo r gpu_idx))
                   (known_used_of (get_known_gpu_processes (device_count s) r) gpu_idx)))
      (seq 0 (device_count s)).
Proof.
  unfold calculate_inference. rewrite !output_bind. autorewrite with run.
  unfold unknown_reports. rewrite !omap_app.
  rewrite get_total_gpu_memory_quiet by reflexivity.
  rewrite process_known_quiet by reflexivity.
  destruct (get_total_gpu_memory_spec HISTORY_SIZE r s) as (Hext & Hstats).
  set (read := get_total_gpu_memory HISTORY_SIZE r s) in *.
  assert (Hdc : device_count (state_of read) = device_count s) by apply Hext.
  rewrite !Hdc. simpl app.
  set (kp := get_known_gpu_processes (device_count s) r).
  match goal with
  | |- omap _ (output_of (for_each _ (process_gpu _ _ _ _ ?gc ?ids) ?s0)) = _ =>
      generalize s0; generalize ids; generalize gc
  end.
  intros gc ids.
  assert (Hall : forall i, In i (seq 0 (device_count s)) -> (i < device_count s)%nat)
    by (intros i Hi; apply in_seq in Hi; lia).
  revert Hall. generalize (seq 0 (device_count s)) as indices.
  induction indices as [|i indices IH]; intros Hall s0; [reflexivity|].
  simpl for_each. rewrite output_bind, omap_app.
  fold (unknown_reports
          (output_of (process_gpu HISTORY_SIZE clock (value_of read) kp gc ids i s0))).
  rewrite process_gpu_unknown_report, IH by (intros j Hj; apply Hall; right; exact Hj).
  simpl. rewrite lookup_total_alt, (Hstats i) by (apply Hall; left; reflexivity).
  reflexivity.
Qed.

Lemma classify_container_value (HISTORY_SIZE : nat) (clock : nat -> Q)
    (known_container_ids : gset string) (gpu_containers : list Container) :
  forall (acc : list Container) (s : Engine) (c : Container),
    In c (value_of (for_fold gpu_containers acc
                      (classify_container HISTORY_SIZE clock known_container_ids) s)) ->
    In c acc \/ (In c gpu_containers /\ c_id c ∉ known_container_ids).
Proof.
  induction gpu_containers as [|c0 l IH]; intros acc s c Hc.
  - left. exact Hc.
  - simpl for_fold in Hc. rewrite value_bind in Hc.
    apply IH in Hc as [Hc|[Hc Hid]]; [|right; split; [right; exact Hc | exact Hid]].
    unfold classify_container in Hc. rewrite value_bind in Hc.
    destruct (decide (c_id c0 ∈ known_container_ids)) as [Hknown|Hunknown].
    + left. exact Hc.
    + rewrite value_bind in Hc. simpl value_of at 1 in Hc.
      apply in_app_or in Hc as [Hc|[<-|[]]]; [left; exact Hc|].
      right. split; [left; reflexivity | exact Hunknown].
Qed.

(** Every container some known process resolves to ends up in
    [known_container_ids]. *)
Lemma account_process_ids_complete (HISTORY_SIZE : nat) (clock : nat -> Q) (r : Readings)
    (gpu_idx : nat) (processes : list Process) :
  forall (acc : Q * gset string) (s : Engine) (cid : string),
    (cid ∈ snd acc)
    \/ (exists proc container,
          In proc processes
          /\ map_pid_to_container r (pid proc) = Some container /\ c_id container = cid) ->
    cid ∈ snd (value_of (for_fold processes acc
                           (account_process HISTORY_SIZE clock r gpu_idx) s)).
Proof.
  induction processes as [|proc processes IH]; intros acc s cid Hcid.
  - destruct Hcid as [Hcid|(proc & container & [] & _)]. exact Hcid.
  - simpl for_fold. rewrite value_bind. apply IH.
    unfold account_process. cbv zeta.
    destruct Hcid as [Hacc|(proc' & container & [<-|Hin] & Hmap & Hid)].
    + left. destruct (map_pid_to_container r (pid proc)); [|exact Hacc].
      rewrite !value_bind. simpl. apply elem_of_union. right. exact Hacc.
    + left. rewrite Hmap, !value_bind. simpl. apply elem_of_union. left.
      apply elem_of_singleton. congruence.
    + right. exists proc', container. tauto.
Qed.

Lemma process_known_ids_complete (HISTORY_SIZE : nat) (clock : nat -> Q) (r : Readings)
    (known_processes : list (nat * list Process)) :
  forall (known_container_ids : gset string) (s : Engine) (cid : string),
    (cid ∈ known_container_ids) \/ resolved r known_processes cid ->
    cid ∈ value_of (for_fold known_processes known_container_ids
                      (process_known HISTORY_SIZE clock r) s).
Proof.
  induction known_processes as [|item known_processes IH]; intros ids s cid Hcid.
  - destruct Hcid as [Hcid|(item & proc & container & [] & _)]. exact Hcid.
  - simpl for_fold. rewrite value_bind. apply IH.
    unfold process_known. cbv zeta. rewrite !value_bind. simpl value_of at 1.
    destruct Hcid as [Hold|(item' & proc & container & [<-|Hin] & Hproc & Hmap & Hid)].
    + left. apply account_process_ids_complete. left. exact Hold.
    + left. apply account_process_ids_complete. right. exists proc, container. tauto.
    + right. exists item', proc, container. tauto.
Qed.

Lemma distribute_inferred_ids (clock : nat -> Q) (unknown_memory : Q)
    (unknown_containers : list Container) (gpu_idx : nat) (s : Engine) (cid : string) :
  In cid (inferred_ids
            (output_of (distribute_unknown_memory clock unknown_memory unknown_containers
                          gpu_idx s))) ->
  exists c, In c unknown_containers /\ c_id c = cid.
Proof.
  unfold distribute_unknown_memory.
  destruct unknown_containers as [|c0 rest]; [intros []|].
  destruct (Qlt_le_dec 0 unknown_memory); [|intros []].
  rewrite output_bind. unfold inferred_ids. rewrite omap_app. intros Hcid.
  apply in_app_or in Hcid as [Hcid|Hcid].
  - exfalso. unfold collect_weights in Hcid. rewrite for_fold_omap_none in Hcid.
    + destruct Hcid.
    + intros acc c s'. rewrite weigh_output.
      destruct (get_container_weight_output clock c s') as [likelihood ->]. reflexivity.
  - apply for_each_omap_In in Hcid as (c & s' & Hin & Hcid). exists c. split; [exact Hin|].
    destruct (Qlt_le_dec 0 _); simpl in Hcid; [|destruct Hcid].
    destruct Hcid as [<-|[]]. reflexivity.
Qed.

Lemma process_gpu_inferred_ids (HISTORY_SIZE : nat) (clock : nat -> Q)
    (gpu_stats : gmap nat MemInfo) (known_processes : list (nat * list Process))
    (gpu_containers : list Container) (known_container_ids : gset string)
    (gpu_idx : nat) (s : Engine) (cid : string) :
  In cid (inferred_ids
            (output_of (process_gpu HISTORY_SIZE clock gpu_stats known_processes
                          gpu_containers known_container_ids gpu_idx s))) ->
  0 < unknown_used_of (used (gpu_stats !!! gpu_idx)) (known_used_of known_processes gpu_idx)
  /\ exists c, In c gpu_containers /\ (c_id c ∉ known_container_ids) /\ c_id c = cid.
Proof.
  rewrite process_gpu_output_parts. cbv zeta.
  unfold inferred_ids. rewrite !omap_app. simpl omap at 1. rewrite app_nil_l.
  unfold find_unknown_containers at 1.
  rewrite for_fold_omap_none, app_nil_l.
  2:{ intros acc c s'. unfold classify_container. rewrite output_bind. simpl.
      destruct (decide (c_id c ∈ known_container_ids)); [reflexivity|].
      rewrite output_bind, update_if_profiled_output. reflexivity. }
  destruct (Qlt_le_dec 0 _) as [Hpos|Hnone]; [|intros []].
  rewrite !omap_app, calculate_inference_confidence_output. simpl omap at 1.
  intros Hcid. split; [exact Hpos|].
  assert (Hdist : In cid (inferred_ids
            (output_of (distribute_unknown_memory clock
               (unknown_used_of (used (gpu_stats !!! gpu_idx))
                  (known_used_of known_processes gpu_idx))
               (value_of (find_unknown_containers HISTORY_SIZE clock gpu_containers
                            known_container_ids s))
               gpu_idx
               (state_of (calculate_inference_confidence gpu_idx
                  (unknown_used_of (used (gpu_stats !!! gpu_idx))
                     (known_used_of known_processes gpu_idx))
                  (used (gpu_stats !!! gpu_idx))
                  (state_of (find_unknown_containers HISTORY_SIZE clock gpu_containers
                               known_container_ids s)))))))).
  { destruct (Qeq_dec _ 0); exact Hcid. }
  apply distribute_inferred_ids in Hdist as (c & Hin & Hid).
  apply classify_container_value in Hin as [[]|[Hin Hunknown]].
  exists c. tauto.
Qed.

Lemma no_inferred_ids (out : list Sample) :
  inferred_ids out = [] -> inferred_allocations out = [].
Proof.
  unfold inferred_ids, inferred_allocations.
  induction out as [|x out IH]; [reflexivity|]. simpl.
  destruct x as [| | | | | |name cid g [] v| | | |]; simpl; try exact IH.
  intros H. discriminate H.
Qed.

(** X11.  A cycle writes an inferred allocation only for a container with
    GPU access that no known process resolves to, and only when some
    device has positive unknown memory: a directly attributed container
    never receives one, and a cycle without unknown memory writes none. *)
Theorem X11_inference_only_for_unresolved (HISTORY_SIZE : nat) (clock : nat -> Q)
    (r : Readings) (s : Engine) :
  let out := output_of (calculate_inference HISTORY_SIZE clock r s) in
  let known_processes := get_known_gpu_processes (device_count s) r in
  let gpu_containers := get_containers_with_gpu_access (docker_ps r) in
  let unknown_of gpu_idx :=
    unknown_used_of (used (nvmlDeviceGetMemoryInfo r gpu_idx))
      (known_used_of known_processes gpu_idx) in
  (forall cid, In cid (inferred_ids out) ->
     ~ resolved r known_processes cid
     /\ (exists c, In c gpu_containers /\ c_id c = cid)
     /\ exists gpu_idx, (gpu_idx < device_count s)%nat /\ 0 < unknown_of gpu_idx)
  /\ ((forall gpu_idx, (gpu_idx < device_count s)%nat -> unknown_of gpu_idx <= 0) ->
      inferred_ids out = [] /\ inferred_allocations out = []).
Proof.
  intros out known_processes gpu_containers unknown_of.
  assert (Hmain : forall cid, In cid (inferred_ids out) ->
     ~ resolved r known_processes cid
     /\ (exists c, In c gpu_containers /\ c_id c = cid)
     /\ exists gpu_idx, (gpu_idx < device_count s)%nat /\ 0 < unknown_of gpu_idx).
  { subst out. unfold calculate_inference. rewrite !output_bind. autorewrite with run.
    unfold inferred_ids. rewrite !omap_app.
    rewrite get_total_gpu_memory_quiet by reflexivity.
    rewrite process_known_quiet by reflexivity.
    destruct (get_total_gpu_memory_spec HISTORY_SIZE r s) as (Hext & Hstats).
    set (read := get_total_gpu_memory HISTORY_SIZE r s) in *.
    assert (Hdc : device_count (state_of read) = device_count s) by apply Hext.
    rewrite !Hdc. fold known_processes. fold gpu_containers. simpl app.
    set (known := for_fold known_processes ∅ (process_known HISTORY_SIZE clock r)
                    (state_of read)).
    intros cid Hcid.
    apply for_each_omap_In in Hcid as (gpu_idx & s' & Hidx & Hcid).
    apply in_seq in Hidx.
    apply process_gpu_inferred_ids in Hcid as (Hpos & c & Hin & Hunknown & Hid).
    rewrite lookup_total_alt, (Hstats gpu_idx) in Hpos by lia.
    split; [|split].
    - intros Hres. apply Hunknown. rewrite Hid.
      apply process_known_ids_complete. right. exact Hres.
    - exists c. tauto.
    - exists gpu_idx. split; [lia | exact Hpos]. }
  split; [exact Hmain|].
  intros Hquiet.
  assert (Hids : inferred_ids out = []).
  { destruct (inferred_ids out) as [|cid rest] eqn:E; [reflexivity|].
    destruct (Hmain cid (or_introl eq_refl)) as (_ & _ & gpu_idx & Hidx & Hpos).
    specialize (Hquiet gpu_idx Hidx). lra. }
  split; [exact Hids | apply no_inferred_ids, Hids].
Qed.

Lemma X11_inference_only_for_unresolved_witness :
  ~ resolved Scenario.readings (get_known_gpu_processes 1 Scenario.readings)
      (c_id Scenario.B).
Proof.
  refine (proj1 (proj1 (X11_inference_only_for_unresolved 30 Scenario.wall_clock
                          Scenario.readings (EnhancedGPUInference_init 1))
                   (c_id Scenario.B) _)).
  vm_compute. left. reflexivity.
Defined.

(** ** The equal split of the sibling exporters *)









(** ** More on the active-probe detector *)

Lemma py_max_list_spec (l : list Q) :
  forall x, In (py_max_list x l) (x :: l) /\ forall y, In y (x :: l) -> y <= py_max_list x l.
Proof.
  unfold py_max_list. induction l as [|z l IH]; intros x; simpl.
  - split; [left; reflexivity|]. intros y [<-|[]]. lra.
  - destruct (Qlt_le_dec x z) as [Hlt|Hge].
    + destruct (IH z) as [Hin Hmax]. split.
      * right. exact Hin.
      * intros y [<-|Hy]; [|apply Hmax, Hy].
        specialize (Hmax z (or_introl eq_refl)). lra.
    + destruct (IH x) as [Hin Hmax]. split.
      * destruct Hin as [<-|Hin]; [left; reflexivity | right; right; exact Hin].
      * intros y [<-|[<-|Hy]].
        -- apply Hmax. left. reflexivity.
        -- specialize (Hmax x (or_introl eq_refl)). lra.
        -- apply Hmax. right. exact Hy.
Qed.

Lemma recent_inferences_spec (now t : Q) (history : list Q) :
  In t (InferenceDetector.recent_inferences now history) <-> In t history /\ now - t < 30.
Proof.
  unfold InferenceDetector.recent_inferences. rewrite filter_In.
  destruct (Qlt_le_dec (now - t) 30); split; intros [Hin H]; split;
    try assumption; try reflexivity; try discriminate; lra.
Qed.

(** X14.  Whatever the detector's state, after [update_status] at [now]
    the detector is active exactly when its deque holds an observation
    less than 30 s old, and exactly when the decayed likelihood it writes
    is positive; the likelihood is never negative, is 0 when idle, and is
    at most 1 when no held observation lies in the future. *)
Theorem X14_update_status_signal (now : Q) (self : InferenceDetector.Detector) :
  let after := InferenceDetector.update_status now self in
  (InferenceDetector.is_active after = true
   <-> exists t, In t (InferenceDetector.inference_history self) /\ now - t < 30)
  /\ (InferenceDetector.is_active after = true
      <-> 0 < InferenceDetector.ollama_gpu_likely_active after)
  /\ 0 <= InferenceDetector.ollama_gpu_likely_active after
  /\ (InferenceDetector.is_active after = false ->
      InferenceDetector.ollama_gpu_likely_active after = 0)
  /\ ((forall t, In t (InferenceDetector.inference_history self) -> t <= now) ->
      InferenceDetector.ollama_gpu_likely_active after <= 1)
  /\ InferenceDetector.inference_history after = InferenceDetector.inference_history self.
Proof.
  intros after. subst after. unfold InferenceDetector.update_status.
  destruct (InferenceDetector.recent_inferences now
              (InferenceDetector.inference_history self)) as [|t0 rest] eqn:Hrecent.
  - simpl. unfold InferenceDetector.is_active. simpl.
    split; [|split; [|split; [|split; [|split]]]].
    + split; [discriminate|]. intros (t & Hin & Ht).
      assert (Hr : In t (InferenceDetector.recent_inferences now
                           (InferenceDetector.inference_history self)))
        by (apply recent_inferences_spec; split; assumption).
      rewrite Hrecent in Hr. destruct Hr.
    + split; [discriminate | intros H; exfalso; revert H; apply Qlt_irrefl].
    + lra.
    + reflexivity.
    + intros _. lra.
    + reflexivity.
  - destruct (py_max_list_spec rest t0) as [Hin Hmax].
    assert (Hlatest : In (py_max_list t0 rest) (InferenceDetector.inference_history self)
                      /\ now - py_max_list t0 rest < 30).
    { apply recent_inferences_spec. rewrite Hrecent. exact Hin. }
    destruct Hlatest as [Hheld Hfresh].
    assert (Hdecay : (now - py_max_list t0 rest) / 30 < 1) by (apply Qlt_shift_div_r; lra).
    unfold InferenceDetector.is_active. simpl.
    unfold py_max0.
    set (d := (now - py_max_list t0 rest) / 30) in *.
    split; [|split; [|split; [|split; [|split]]]].
    + split; [|reflexivity]. intros _. exists (py_max_list t0 rest). split; assumption.
    + destruct (Qlt_le_dec 0 (1 - d)); [|lra]. split; [intros _; assumption | reflexivity].
    + destruct (Qlt_le_dec 0 (1 - d)); lra.
    + discriminate.
    + intros Hpast. specialize (Hpast _ Hheld).
      assert (Hd0 : 0 <= d).
      { subst d. apply Qdiv_nonneg; lra. }
      destruct (Qlt_le_dec 0 (1 - d)); lra.
    + reflexivity.
Qed.

Lemma X14_update_status_signal_witness :
  InferenceDetector.ollama_gpu_likely_active
    (InferenceDetector.update_status 110
       (InferenceDetector.mark_inference_active 100 InferenceDetector.init)) <= 1.
Proof.
  refine (proj1 (proj2 (proj2 (proj2 (proj2
            (X14_update_status_signal 110
               (InferenceDetector.mark_inference_active 100 InferenceDetector.init))))))
            _).
  intros t [<-|[]]. vm_compute. discriminate.
Defined.

Lemma requests_total_counts (steps : list InferenceDetector.Step) :
  InferenceDetector.ollama_inference_requests_total
    (InferenceDetector.run steps InferenceDetector.init)
  == Qnat (length (InferenceDetector.marks steps)).
Proof.
  induction steps as [|e steps IH] using rev_ind; [reflexivity|].
  rewrite InferenceDetectorFacts.run_snoc, InferenceDetectorFacts.marks_app, length_app.
  destruct e as [t|l|t]; simpl.
  - rewrite IH. unfold Qnat. rewrite Nat2Z.inj_add, inject_Z_plus. simpl. ring.
  - rewrite IH, Nat.add_0_r. reflexivity.
  - unfold InferenceDetector.update_status.
    destruct (InferenceDetector.recent_inferences _ _); simpl;
      rewrite IH, Nat.add_0_r; reflexivity.
Qed.

(** X15.  In every run of the detector from its initial state the deque
    never holds more than 10 observations and holds the latest ones (the
    qualifying observations of the run end with the deque's content, and
    nothing is dropped while there is room), while the request counter
    counts every qualifying observation, dropped or not. *)
Theorem X15_detector_history_and_counter (steps : list InferenceDetector.Step) :
  let d := InferenceDetector.run steps InferenceDetector.init in
  (length (InferenceDetector.inference_history d) <= 10)%nat
  /\ (exists dropped,
        InferenceDetector.marks steps = dropped ++ InferenceDetector.inference_history d
        /\ (dropped <> [] -> length (InferenceDetector.inference_history d) = 10%nat))
  /\ InferenceDetector.ollama_inference_requests_total d
     == Qnat (length (InferenceDetector.marks steps)).
Proof.
  intros d. subst d.
  destruct (InferenceDetectorFacts.history_is_suffix steps) as (dropped & Hmarks & Hlen & Hfull).
  split; [exact Hlen|]. split; [exists dropped; split; assumption|].
  apply requests_total_counts.
Qed.

Lemma update_status_active (now : Q) (self : InferenceDetector.Detector) :
  (exists t, In t (InferenceDetector.inference_history self) /\ now - t < 30) ->
  InferenceDetector.is_active (InferenceDetector.update_status now self) = true.
Proof.
  intros (t & Hin & Ht). unfold InferenceDetector.update_status.
  destruct (InferenceDetector.recent_inferences now
              (InferenceDetector.inference_history self)) eqn:Hrecent; [|reflexivity].
  assert (Hr : In t (InferenceDetector.recent_inferences now
                       (InferenceDetector.inference_history self)))
    by (apply recent_inferences_spec; split; assumption).
  rewrite Hrecent in Hr. destruct Hr.
Qed.

(** X16.  Once a qualifying observation has been made at reading [t], every
    [update_status] taken at a reading less than 30 s after [t] finds the
    detector active, whatever steps came in between, provided the
    qualifying observations carry non-decreasing clock readings. *)
Theorem X16_active_within_window (before between : list InferenceDetector.Step)
    (t now : Q) :
  StronglySorted Qle
    (InferenceDetector.marks (before ++ InferenceDetector.MarkActive t :: between)) ->
  now - t < 30 ->
  InferenceDetector.is_active
    (InferenceDetector.run
       ((before ++ InferenceDetector.MarkActive t :: between)
        ++ [InferenceDetector.UpdateStatus now])
       InferenceDetector.init) = true.
Proof.
  intros Hsorted Hfresh.
  rewrite InferenceDetectorFacts.run_snoc.
  set (steps := before ++ InferenceDetector.MarkActive t :: between) in *.
  change (InferenceDetector.step (InferenceDetector.UpdateStatus now)
            (InferenceDetector.run steps InferenceDetector.init))
    with (InferenceDetector.update_status now
            (InferenceDetector.run steps InferenceDetector.init)).
  apply update_status_active.
  destruct (InferenceDetectorFacts.history_is_suffix steps) as (dropped & Hmarks & Hlen & Hfull).
  assert (Ht : In t (InferenceDetector.marks steps)).
  { subst steps. rewrite InferenceDetectorFacts.marks_app. apply in_or_app. right.
    left. reflexivity. }
  rewrite Hmarks in Ht, Hsorted. apply in_app_or in Ht as [Hdropped|Hheld].
  - assert (Hne : dropped <> []) by (intros ->; destruct Hdropped).
    specialize (Hfull Hne).
    destruct (InferenceDetector.inference_history
                (InferenceDetector.run steps InferenceDetector.init))
      as [|h kept] eqn:Hh; [simpl in Hfull; lia|].
    exists h. split; [left; reflexivity|].
    assert (Hle : t <= h).
    { eapply (StronglySorted_app_1_elem_of Qle); [exact Hsorted | |].
      - apply list_elem_of_In, Hdropped.
      - left. }
    lra.
  - exists t. split; assumption.
Qed.

Lemma X16_active_within_window_witness :
  InferenceDetector.is_active
    (InferenceDetector.run
       (([] ++ InferenceDetector.MarkActive 100
            :: [InferenceDetector.UpdateStatus 110; InferenceDetector.MarkLikely (7 # 10)])
        ++ [InferenceDetector.UpdateStatus 129])
       InferenceDetector.init) = true.
Proof.
  apply (X16_active_within_window []
           [InferenceDetector.UpdateStatus 110; InferenceDetector.MarkLikely (7 # 10)]
           100 129).
  - simpl. repeat constructor; vm_compute; discriminate.
  - reflexivity.
Defined.

(** X17.  One call of [check_inference] records a qualifying observation
    exactly when the backend takes more than 0.3 s to answer the probe or
    never answers: then the detector is active, the reading enters the
    deque and the request counter grows by one.  A backend that answers
    within 0.3 s or refuses the connection leaves the deque, the active
    flag and the counter as they were; the listing request can only move
    the likelihood gauge. *)
Theorem X17_check_inference_threshold (backend : InferenceDetector.Backend)
    (tags : InferenceDetector.Outcome) (now : Q) (self : InferenceDetector.Detector) :
  let after :=
    InferenceDetector.run
      (InferenceDetector.check_inference (InferenceDetector.post_generate backend) tags now)
      self in
  ((backend = InferenceDetector.never_answers
    \/ exists seconds, backend = InferenceDetector.answers_after seconds /\ 3 # 10 < seconds) ->
   InferenceDetector.is_active after = true
   /\ InferenceDetector.inference_history after
      = deque_append 10 (InferenceDetector.inference_history self) now
   /\ InferenceDetector.ollama_inference_requests_total after
      = InferenceDetector.ollama_inference_requests_total self + 1)
  /\ ((backend = InferenceDetector.refuses
       \/ exists seconds, backend = InferenceDetector.answers_after seconds
                          /\ seconds <= 3 # 10) ->
      InferenceDetector.inference_history after = InferenceDetector.inference_history self
      /\ InferenceDetector.ollama_inference_active after
         = InferenceDetector.ollama_inference_active self
      /\ InferenceDetector.ollama_inference_requests_total after
         = InferenceDetector.ollama_inference_requests_total self).
Proof.
  intros after. subst after.
  assert (Htags : forall d,
    let d' := InferenceDetector.run
                (match tags with
                 | InferenceDetector.responded response_time =>
                     if Qlt_le_dec (1 # 2) response_time
                     then [InferenceDetector.MarkLikely (7 # 10)] else []
                 | _ => []
                 end) d in
    InferenceDetector.inference_history d' = InferenceDetector.inference_history d
    /\ InferenceDetector.ollama_inference_active d'
       = InferenceDetector.ollama_inference_active d
    /\ InferenceDetector.ollama_inference_requests_total d'
       = InferenceDetector.ollama_inference_requests_total d).
  { intros d. destruct tags as [response_time| |]; simpl; try tauto.
    destruct (Qlt_le_dec (1 # 2) response_time); simpl; tauto. }
  unfold InferenceDetector.check_inference, InferenceDetector.run.
  rewrite fold_left_app.
  split.
  - intros Hslow.
    assert (Hmark : match InferenceDetector.post_generate backend with
                    | InferenceDetector.responded response_time =>
                        if Qlt_le_dec (3 # 10) response_time
                        then [InferenceDetector.MarkActive now] else []
                    | InferenceDetector.timed_out => [InferenceDetector.MarkActive now]
                    | InferenceDetector.failed => []
                    end = [InferenceDetector.MarkActive now]).
    { destruct Hslow as [->|(seconds & -> & Hslow)]; [reflexivity|]. simpl.
      destruct (Qlt_le_dec (1 # 2) seconds); [reflexivity|].
      destruct (Qlt_le_dec (3 # 10) seconds); [reflexivity | lra]. }
    rewrite Hmark.
    change (fold_left (fun d e => InferenceDetector.step e d)
              [InferenceDetector.MarkActive now] self)
      with (InferenceDetector.mark_inference_active now self).
    destruct (Htags (InferenceDetector.mark_inference_active now self)) as (Hh & Ha & Hc).
    unfold InferenceDetector.run in Hh, Ha, Hc.
    unfold InferenceDetector.is_active. rewrite Hh, Ha, Hc. simpl. tauto.
  - intros Hfast.
    assert (Hmark : match InferenceDetector.post_generate backend with
                    | InferenceDetector.responded response_time =>
                        if Qlt_le_dec (3 # 10) response_time
                        then [InferenceDetector.MarkActive now] else []
                    | InferenceDetector.timed_out => [InferenceDetector.MarkActive now]
                    | InferenceDetector.failed => []
                    end = []).
    { destruct Hfast as [->|(seconds & -> & Hfast)]; [reflexivity|]. simpl.
      destruct (Qlt_le_dec (1 # 2) seconds); [lra|].
      destruct (Qlt_le_dec (3 # 10) seconds); [lra | reflexivity]. }
    rewrite Hmark.
    change (fold_left (fun d e => InferenceDetector.step e d) [] self) with self.
    apply (Htags self).
Qed.

Lemma X17_check_inference_threshold_witness :
  InferenceDetector.inference_history
    (InferenceDetector.run
       (InferenceDetector.check_inference
          (InferenceDetector.post_generate InferenceDetector.refuses)
          (InferenceDetector.responded (6 # 10)) 100)
       InferenceDetector.init)
  = InferenceDetector.inference_history InferenceDetector.init.
Proof.
  refine (proj1 (proj2 (X17_check_inference_threshold InferenceDetector.refuses
                          (InferenceDetector.responded (6 # 10)) 100
                          InferenceDetector.init) _)).
  left. reflexivity.
Defined.

(** ** The dashboard's history *)

Lemma deque_append_lastn {A} (n : nat) (l : list A) (x : A) :
  deque_append n (lastn n l) x = lastn n (l ++ [x]).
Proof.
  unfold deque_append, lastn. destruct n as [|n].
  - rewrite !Nat.sub_0_r, !drop_all. reflexivity.
  - rewrite length_drop, length_app. simpl length.
    destruct (Nat.ltb_spec (length l - (length l - S n)) (S n)) as [Hlt|Hge].
    + replace (length l - S n)%nat with 0%nat by lia.
      replace (length l + 1 - S n)%nat with 0%nat by lia. reflexivity.
    + rewrite drop_drop.
      replace (length l + 1 - S n)%nat with (length l - S n + 1)%nat by lia.
      rewrite drop_app_le by (rewrite ?length_app; lia). reflexivity.
Qed.

Lemma lastn_nil {A} (n : nat) : lastn n (@nil A) = [].
Proof. reflexivity. Qed.

Lemma lastn_map {A B} (f : A -> B) (n : nat) (l : list A) :
  lastn n (map f l) = map f (lastn n l).
Proof. unfold lastn. rewrite length_map. symmetry. apply (fmap_drop f). Qed.

Module HistoricalDataFacts.
Import HistoricalData.

Lemma record_snoc (rounds : list (Q * MetricsData)) (round : Q * MetricsData)
    (self : Store) :
  record (rounds ++ [round]) self
  = add_data_point (fst round) (snd round) (record rounds self).
Proof. unfold record. rewrite fold_left_app. reflexivity. Qed.

Lemma appends_max_points (points : list (string * Q)) :
  forall self, max_points (fold_left data_append points self) = max_points self.
Proof.
  induction points as [|p points IH]; intros self; simpl; [reflexivity|].
  rewrite IH. reflexivity.
Qed.

Lemma appends_timestamps (points : list (string * Q)) :
  forall self, timestamps (fold_left data_append points self) = timestamps self.
Proof.
  induction points as [|p points IH]; intros self; simpl; [reflexivity|].
  rewrite IH. reflexivity.
Qed.

Lemma record_max_points (rounds : list (Q * MetricsData)) (self : Store) :
  max_points (record rounds self) = max_points self.
Proof.
  induction rounds as [|round rounds IH] using rev_ind; [reflexivity|].
  rewrite record_snoc. unfold add_data_point. rewrite appends_max_points. exact IH.
Qed.

(** Appends under other keys leave a series alone. *)
Lemma appends_other (metric_name : string) (points : list (string * Q)) :
  Forall (fun point => fst point <> metric_name) points ->
  forall self, series (fold_left data_append points self) metric_name
               = series self metric_name.
Proof.
  induction 1 as [|p points Hp _ IH]; intros self; simpl; [reflexivity|].
  rewrite IH. unfold series, data_append. simpl.
  rewrite lookup_insert_ne by exact Hp. reflexivity.
Qed.

Lemma appends_app (l1 l2 : list (string * Q)) (self : Store) :
  fold_left data_append (l1 ++ l2) self
  = fold_left data_append l2 (fold_left data_append l1 self).
Proof. apply fold_left_app. Qed.

(** A round that appends under a key once extends its series by that
    value. *)
Lemma appends_once (metric_name : string) (v : Q) (before after : list (string * Q))
    (self : Store) :
  Forall (fun point => fst point <> metric_name) before ->
  Forall (fun point => fst point <> metric_name) after ->
  series (fold_left data_append (before ++ (metric_name, v) :: after) self) metric_name
  = deque_append (max_points self) (series self metric_name) v.
Proof.
  intros Hbefore Hafter. rewrite appends_app. simpl fold_left.
  rewrite (appends_other _ _ Hafter).
  unfold series at 1, data_append at 1. simpl.
  rewrite lookup_insert_eq. simpl.
  rewrite appends_max_points, (appends_other _ _ Hbefore). reflexivity.
Qed.

Lemma gpu_points_keys (gpus : list GpuData) :
  Forall (fun point => exists rest, fst point = String "g" rest)
         (flat_map gpu_points gpus).
Proof.
  induction gpus as [|g gpus IH]; simpl; [constructor|].
  repeat (constructor; [eexists; reflexivity|]). exact IH.
Qed.

Lemma container_points_keys (docker : list ContainerData) :
  Forall (fun point => exists rest, fst point = String "c" (String "o" rest))
         (flat_map container_points docker).
Proof.
  induction docker as [|c docker IH]; simpl; [constructor|].
  repeat (constructor; [eexists; reflexivity|]). exact IH.
Qed.

(** Each scalar metric is appended once per round. *)
Lemma scalar_once (metric_name : string) (reading : MetricsData -> Q)
    (metrics_data : MetricsData) :
  In (metric_name, reading) scalar_metrics ->
  exists before after,
    points_of metrics_data = before ++ (metric_name, reading metrics_data) :: after
    /\ Forall (fun point => fst point <> metric_name) before
    /\ Forall (fun point => fst point <> metric_name) after.
Proof.
  intros Hin.
  assert (Hgpu : forall k, (forall rest, k <> String "g" rest) ->
            Forall (fun point : string * Q => fst point <> k)
                   (flat_map gpu_points (gpu metrics_data))).
  { intros k Hk. eapply Forall_impl; [apply gpu_points_keys|].
    intros point (rest & Hrest) Heq. apply (Hk rest). rewrite <- Heq. exact Hrest. }
  assert (Hdocker : forall k, (forall rest, k <> String "c" (String "o" rest)) ->
            Forall (fun point : string * Q => fst point <> k)
                   (flat_map container_points (docker metrics_data))).
  { intros k Hk. eapply Forall_impl; [apply container_points_keys|].
    intros point (rest & Hrest) Heq. apply (Hk rest). rewrite <- Heq. exact Hrest. }
  unfold points_of, docker_points, system_points.
  simpl in Hin.
  repeat (destruct Hin as [Hin|Hin];
          [injection Hin as <- <-|]); [..|contradiction].
  - exists [], (skipn 1 (system_points (system metrics_data))
                ++ flat_map gpu_points (gpu metrics_data)
                ++ docker_points (docker metrics_data)).
    split; [reflexivity|]. split; [constructor|].
    unfold docker_points. simpl.
    repeat (constructor; [discriminate|]).
    apply Forall_app. split; [apply Hgpu; discriminate|].
    repeat (constructor; [discriminate|]). apply Hdocker; discriminate.
  - exists (firstn 1 (system_points (system metrics_data))),
           (skipn 2 (system_points (system metrics_data))
                ++ flat_map gpu_points (gpu metrics_data)
                ++ docker_points (docker metrics_data)).
    split; [reflexivity|]. split; [repeat (constructor; [discriminate|]); constructor|].
    unfold docker_points. simpl.
    repeat (constructor; [discriminate|]).
    apply Forall_app. split; [apply Hgpu; discriminate|].
    repeat (constructor; [discriminate|]). apply Hdocker; discriminate.
  - exists (firstn 2 (system_points (system metrics_data))),
           (skipn 3 (system_points (system metrics_data))
                ++ flat_map gpu_points (gpu metrics_data)
                ++ docker_points (docker metrics_data)).
    split; [reflexivity|]. split; [repeat (constructor; [discriminate|]); constructor|].
    unfold docker_points. simpl.
    repeat (constructor; [discriminate|]).
    apply Forall_app. split; [apply Hgpu; discriminate|].
    repeat (constructor; [discriminate|]). apply Hdocker; discriminate.
  - exists (firstn 3 (system_points (system metrics_data))),
           (skipn 4 (system_points (system metrics_data))
                ++ flat_map gpu_points (gpu metrics_data)
                ++ docker_points (docker metrics_data)).
    split; [reflexivity|]. split; [repeat (constructor; [discriminate|]); constructor|].
    unfold docker_points. simpl.
    repeat (constructor; [discriminate|]).
    apply Forall_app. split; [apply Hgpu; discriminate|].
    repeat (constructor; [discriminate|]). apply Hdocker; discriminate.
  - exists (firstn 4 (system_points (system metrics_data))),
           (flat_map gpu_points (gpu metrics_data)
                ++ docker_points (docker metrics_data)).
    split; [reflexivity|]. split; [repeat (constructor; [discriminate|]); constructor|].
    unfold docker_points. simpl.
    apply Forall_app. split; [apply Hgpu; discriminate|].
    repeat (constructor; [discriminate|]). apply Hdocker; discriminate.
  - exists (system_points (system metrics_data)
            ++ flat_map gpu_points (gpu metrics_data)),
           (("running_containers"%string, running_containers (docker metrics_data))
              :: flat_map container_points (docker metrics_data)).
    split; [simpl; rewrite <- ?app_assoc; reflexivity|]. split.
    + apply Forall_app. split; [repeat (constructor; [discriminate|]); constructor|].
      apply Hgpu; discriminate.
    + constructor; [discriminate|]. apply Hdocker; discriminate.
  - exists (system_points (system metrics_data)
            ++ flat_map gpu_points (gpu metrics_data)
            ++ [("total_containers"%string, Qnat (length (docker metrics_data)))]),
           (flat_map container_points (docker metrics_data)).
    split; [simpl; rewrite <- ?app_assoc; reflexivity|]. split.
    + apply Forall_app. split; [repeat (constructor; [discriminate|]); constructor|].
      apply Forall_app. split; [apply Hgpu; discriminate|].
      constructor; [discriminate|constructor].
    + apply Hdocker; discriminate.
Qed.

(** The store holds the last [max_points] timestamps... *)
Lemma record_timestamps (max_points : nat) (rounds : list (Q * MetricsData)) :
  timestamps (record rounds (init max_points))
  = lastn max_points (map (fun round => fst round * 1000) rounds).
Proof.
  induction rounds as [|round rounds IH] using rev_ind; [reflexivity|].
  rewrite record_snoc. unfold add_data_point.
  rewrite appends_timestamps. simpl.
  rewrite record_max_points, IH, map_app. simpl.
  apply deque_append_lastn.
Qed.

(** ... and, under each scalar metric, the last [max_points] readings. *)
Lemma record_scalar (max_points : nat) (metric_name : string)
    (reading : MetricsData -> Q) (rounds : list (Q * MetricsData)) :
  In (metric_name, reading) scalar_metrics ->
  series (record rounds (init max_points)) metric_name
  = lastn max_points (map (fun round => reading (snd round)) rounds).
Proof.
  intros Hin.
  induction rounds as [|round rounds IH] using rev_ind; [reflexivity|].
  rewrite record_snoc. unfold add_data_point.
  destruct (scalar_once metric_name reading (snd round) Hin)
    as (before & after & -> & Hbefore & Hafter).
  rewrite (appends_once _ _ _ _ _ Hbefore Hafter). simpl.
  unfold series in IH |- *. simpl. rewrite record_max_points. simpl.
  rewrite IH, map_app. simpl. apply deque_append_lastn.
Qed.

(** The loop of [get_time_series] pairs the two deques position by
    position and keeps the pairs inside the window. *)
Lemma data_points_zip (cutoff : Q) (skipped values : list Q) (timestamps : list Q) :
  data_points cutoff (skipped ++ values) (length skipped) timestamps
  = List.filter (fun point => Qle_bool cutoff (fst point)) (zip timestamps values).
Proof.
  revert skipped values.
  induction timestamps as [|ts timestamps IH]; intros skipped values; [reflexivity|].
  simpl data_points.
  destruct values as [|y values].
  - rewrite app_nil_r, lookup_ge_None_2 by lia.
    specialize (IH (skipped ++ []) []). rewrite app_nil_r in IH.
    assert (Hrest : forall i, (length skipped <= i)%nat ->
              data_points cutoff skipped i timestamps = []).
    { clear. induction timestamps as [|ts timestamps IH]; intros i Hi; [reflexivity|].
      simpl. rewrite lookup_ge_None_2 by lia. rewrite IH by lia.
      destruct (Qle_bool cutoff ts); reflexivity. }
    rewrite Hrest by lia. destruct (Qle_bool cutoff ts); reflexivity.
  - rewrite lookup_app_r by lia. rewrite Nat.sub_diag. simpl lookup.
    specialize (IH (skipped ++ [y]) values).
    rewrite <- app_assoc, length_app in IH. simpl in IH.
    rewrite Nat.add_1_r in IH. rewrite IH. simpl.
    destruct (Qle_bool cutoff ts); reflexivity.
Qed.

End HistoricalDataFacts.

(** X18.  For the system metrics and the two container counts, which
    every round appends once, [get_time_series] returns the recorded
    (timestamp, value) pairs of the last [max_points] rounds that lie in
    the requested window, each value with the timestamp of its own
    round, in the order recorded; timestamps are in milliseconds. *)
Theorem X18_scalar_series_aligned (max_points : nat)
    (rounds : list (Q * HistoricalData.MetricsData))
    (metric_name : string) (reading : HistoricalData.MetricsData -> Q)
    (time_range_minutes now : Q) :
  In (metric_name, reading) HistoricalData.scalar_metrics ->
  HistoricalData.get_time_series metric_name time_range_minutes now
    (HistoricalData.record rounds (HistoricalData.init max_points))
  = List.filter
      (fun point => Qle_bool (now * 1000 - time_range_minutes * 60 * 1000) (fst point))
      (map (fun round => (fst round * 1000, reading (snd round)))
           (lastn max_points rounds)).
Proof.
  intros Hin. unfold HistoricalData.get_time_series.
  match goal with
  | |- HistoricalData.data_points ?cutoff ?values 0 ?ts = _ =>
      pose proof (HistoricalDataFacts.data_points_zip cutoff [] values ts) as Hzip
  end.
  cbn [app length] in Hzip. rewrite Hzip. clear Hzip.
  rewrite HistoricalDataFacts.record_timestamps,
          (HistoricalDataFacts.record_scalar _ _ reading _ Hin).
  rewrite !lastn_map. f_equal.
  generalize (lastn max_points rounds). intros l.
  induction l as [|round l IH]; simpl; [reflexivity|]. rewrite <- IH. reflexivity.
Qed.

Lemma X18_scalar_series_aligned_witness :
  HistoricalData.get_time_series "cpu_percent" 5 20
    (HistoricalData.record
       [(10, {| HistoricalData.system := None;
                HistoricalData.gpu := [];
                HistoricalData.docker := [] |});
        (20, {| HistoricalData.system :=
                  Some {| HistoricalData.cpu_percent := 12;
                          HistoricalData.memory_percent := 40;
                          HistoricalData.load_1m := 1 # 2;
                          HistoricalData.load_5m := 3 # 4;
                          HistoricalData.load_15m := 1 |};
                HistoricalData.gpu := [];
                HistoricalData.docker := [] |})]
       (HistoricalData.init 300))
  = [(10000, 0); (20000, 12)].
Proof.
  refine (eq_trans
            (X18_scalar_series_aligned 300 _ "cpu_percent"
               (fun m => from_option HistoricalData.cpu_percent 0 (HistoricalData.system m))
               5 20 _) _).
  - simpl. tauto.
  - reflexivity.
Defined.

Lemma lastn_fold {A} (n : nat) (xs l : list A) :
  fold_left (deque_append n) xs (lastn n l) = lastn n (l ++ xs).
Proof.
  revert l. induction xs as [|x xs IH]; intros l; simpl.
  - rewrite app_nil_r. reflexivity.
  - rewrite deque_append_lastn, IH, <- app_assoc. reflexivity.
Qed.

Lemma last_lastn {A} (n : nat) (l : list A) :
  (0 < n)%nat -> last (lastn n l) = last l.
Proof.
  intros Hn. destruct l as [|x l] using rev_ind; [reflexivity|].
  unfold lastn. rewrite length_app. simpl length.
  rewrite drop_app_le by lia. rewrite !last_snoc. reflexivity.
Qed.

Lemma last_char_append (s1 s2 : string) :
  s2 <> EmptyString -> last_char (s1 +:+ s2) = last_char s2.
Proof.
  intros Hs2. induction s1 as [|c s1 IH]; [reflexivity|].
  change (String c s1 +:+ s2) with (String c (s1 +:+ s2)).
  simpl. rewrite IH.
  destruct (s1 +:+ s2) eqn:Happ; [|reflexivity].
  destruct s1; [|discriminate Happ]. contradiction.
Qed.

Lemma append_length (s1 s2 : string) :
  String.length (s1 +:+ s2) = (String.length s1 + String.length s2)%nat.
Proof.
  induction s1 as [|c s1 IH]; [reflexivity|].
  change (String c s1 +:+ s2) with (String c (s1 +:+ s2)). simpl. rewrite IH. reflexivity.
Qed.

Lemma append_cancel_r (s1 s2 suffix : string) :
  s1 +:+ suffix = s2 +:+ suffix -> s1 = s2.
Proof.
  revert s2. induction s1 as [|c s1 IH]; intros [|c' s2] Heq.
  - reflexivity.
  - apply (f_equal String.length) in Heq. rewrite !append_length in Heq.
    simpl in Heq. lia.
  - apply (f_equal String.length) in Heq. rewrite !append_length in Heq.
    simpl in Heq. lia.
  - change (String c (s1 +:+ suffix) = String c' (s2 +:+ suffix)) in Heq.
    injection Heq as -> Heq. f_equal. apply IH. exact Heq.
Qed.

Module HistoricalDataSeries.
Import HistoricalData.

(** A round extends each series by what it appends under its key. *)
Lemma appends_series (metric_name : string) (points : list (string * Q)) :
  forall self,
    series (fold_left data_append points self) metric_name
    = fold_left (deque_append (max_points self)) (values_under metric_name points)
                (series self metric_name).
Proof.
  induction points as [|p points IH]; intros self; [reflexivity|].
  simpl fold_left. rewrite IH. unfold values_under. simpl.
  destruct (String.eqb_spec (fst p) metric_name) as [Heq|Hne]; simpl.
  - unfold series, data_append. simpl.
    rewrite Heq, lookup_insert_eq. reflexivity.
  - unfold series, data_append. simpl.
    rewrite lookup_insert_ne by exact Hne. reflexivity.
Qed.

Lemma record_series (max_points : nat) (metric_name : string)
    (rounds : list (Q * MetricsData)) :
  series (record rounds (init max_points)) metric_name
  = lastn max_points
      (flat_map (fun round => values_under metric_name (points_of (snd round))) rounds).
Proof.
  induction rounds as [|round rounds IH] using rev_ind; [reflexivity|].
  rewrite HistoricalDataFacts.record_snoc. unfold add_data_point.
  rewrite appends_series. simpl.
  rewrite HistoricalDataFacts.record_max_points. simpl.
  change (series {| max_points := max_points;
                   data := data (record rounds (init max_points));
                   timestamps := deque_append max_points
                                   (timestamps (record rounds (init max_points)))
                                   (fst round * 1000) |} metric_name)
    with (series (record rounds (init max_points)) metric_name).
  rewrite IH, lastn_fold, flat_map_app. simpl. rewrite app_nil_r. reflexivity.
Qed.

Lemma values_under_app (metric_name : string) (l1 l2 : list (string * Q)) :
  values_under metric_name (l1 ++ l2)
  = values_under metric_name l1 ++ values_under metric_name l2.
Proof. unfold values_under. rewrite List.filter_app, map_app. reflexivity. Qed.

Lemma values_under_none (metric_name : string) (points : list (string * Q)) :
  Forall (fun point => fst point <> metric_name) points ->
  values_under metric_name points = [].
Proof.
  induction 1 as [|p points Hp _ IH]; [reflexivity|].
  unfold values_under in *. simpl.
  destruct (String.eqb_spec (fst p) metric_name); [contradiction|]. exact IH.
Qed.

(** The keys of one device end in distinct letters. *)
Lemma gpu_points_values (metric_name : string) (gpu : GpuData) :
  last_char metric_name = Some "t"%char ->
  values_under metric_name (gpu_points gpu) = []
  \/ values_under metric_name (gpu_points gpu) = [gpu_memory_percent gpu].
Proof.
  intros Hlast. unfold values_under, gpu_points. cbn [List.filter fst].
  assert (Hkey : forall suffix c, suffix <> EmptyString -> last_char suffix = Some c ->
            c <> "t"%char ->
            String.eqb ("gpu_" +:+ pretty (index gpu) +:+ suffix) metric_name = false).
  { intros suffix c Hne Hc Hct. apply String.eqb_neq. intros Heq.
    rewrite <- Heq in Hlast.
    rewrite !last_char_append in Hlast; [congruence |exact Hne|].
    intros Hempty. apply (f_equal String.length) in Hempty.
    rewrite append_length in Hempty. destruct suffix; [contradiction|].
    simpl in Hempty. lia. }
  rewrite (Hkey "_utilization"%string "n"%char), (Hkey "_temperature"%string "e"%char),
          (Hkey "_power"%string "r"%char) by (discriminate || reflexivity).
  destruct (String.eqb _ metric_name); [right|left]; reflexivity.
Qed.

End HistoricalDataSeries.

Lemma append_cancel_l (s s1 s2 : string) : s +:+ s1 = s +:+ s2 -> s1 = s2.
Proof.
  induction s as [|c s IH]; intros Heq; [exact Heq|].
  change (String c (s +:+ s1) = String c (s +:+ s2)) in Heq.
  injection Heq as Heq. apply IH. exact Heq.
Qed.

Lemma Forall_lastn {A} (P : A -> Prop) (n : nat) (l : list A) :
  Forall P l -> Forall P (lastn n l).
Proof. intros H. unfold lastn. apply Forall_drop. exact H. Qed.

Module HistoricalDataKeys.
Import HistoricalData.

Lemma last_char_gpu_memory_percent (i : nat) :
  last_char ("gpu_" +:+ pretty i +:+ "_memory_percent") = Some "t"%char.
Proof.
  rewrite !last_char_append; [reflexivity|discriminate|].
  intros Hempty. apply (f_equal String.length) in Hempty.
  rewrite append_length in Hempty. simpl in Hempty. lia.
Qed.

Lemma gpu_memory_percent_range (gpu : GpuData) :
  plausible gpu -> 0 <= gpu_memory_percent gpu /\ gpu_memory_percent gpu <= 100.
Proof.
  intros [Hused Htotal]. unfold gpu_memory_percent.
  destruct (Qlt_le_dec 0 (memory_total gpu)) as [Hpos|_]; [|lra].
  assert (Hlo : 0 <= memory_used gpu / memory_total gpu)
    by (apply Qle_shift_div_l; [exact Hpos | lra]).
  assert (Hhi : memory_used gpu / memory_total gpu <= 1)
    by (apply Qle_shift_div_r; [exact Hpos | lra]).
  set (ratio := memory_used gpu / memory_total gpu) in *. lra.
Qed.

(** What a round appends under a device's memory-percent key are
    memory percentages of its devices. *)
Lemma memory_percent_values (i : nat) (metrics_data : MetricsData) :
  Forall (fun v => exists g, In g (gpu metrics_data) /\ v = gpu_memory_percent g)
         (values_under ("gpu_" +:+ pretty i +:+ "_memory_percent")
                       (points_of metrics_data)).
Proof.
  set (key := "gpu_" +:+ pretty i +:+ "_memory_percent").
  assert (Hg : exists rest, key = String "g" rest) by (eexists; reflexivity).
  destruct Hg as (rest & Hg).
  unfold points_of, docker_points.
  rewrite !HistoricalDataSeries.values_under_app.
  rewrite (HistoricalDataSeries.values_under_none key (system_points _)).
  2:{ rewrite Hg. repeat (constructor; [discriminate|]). constructor. }
  rewrite (HistoricalDataSeries.values_under_none key
             (flat_map container_points _)).
  2:{ eapply Forall_impl; [apply HistoricalDataFacts.container_points_keys|].
      intros point (rest' & Hrest) Heq. rewrite Hrest, Hg in Heq. discriminate Heq. }
  rewrite (HistoricalDataSeries.values_under_none key [_; _]).
  2:{ rewrite Hg. repeat (constructor; [discriminate|]). constructor. }
  rewrite !app_nil_r. simpl app.
  induction (gpu metrics_data) as [|g gpus IH]; [constructor|].
  change (flat_map gpu_points (g :: gpus))
    with (gpu_points g ++ flat_map gpu_points gpus).
  rewrite HistoricalDataSeries.values_under_app.
  apply Forall_app. split.
  - destruct (HistoricalDataSeries.gpu_points_values key g
                (last_char_gpu_memory_percent i)) as [-> | ->]; [constructor|].
    constructor; [|constructor]. exists g. split; [left; reflexivity | reflexivity].
  - eapply Forall_impl; [exact IH|].
    intros v (g' & Hin & Hv). exists g'. split; [right; exact Hin | exact Hv].
Qed.

(** What a round appends under a container's CPU key are the CPU
    readings of the containers of that name. *)
Lemma container_cpu_values (container_name : string) (metrics_data : MetricsData) :
  values_under ("container_" +:+ container_name +:+ "_cpu") (points_of metrics_data)
  = cpu_readings container_name metrics_data.
Proof.
  set (key := "container_" +:+ container_name +:+ "_cpu").
  assert (Hc : exists rest, key = String "c" (String "o" rest))
    by (eexists; reflexivity).
  destruct Hc as (rest & Hc).
  assert (Hlast : last_char key = Some "u"%char).
  { unfold key. rewrite !last_char_append; [reflexivity|discriminate|].
    intros Hempty. apply (f_equal String.length) in Hempty.
    rewrite append_length in Hempty. simpl in Hempty. lia. }
  unfold points_of, docker_points.
  rewrite !HistoricalDataSeries.values_under_app.
  rewrite (HistoricalDataSeries.values_under_none key (system_points _)).
  2:{ rewrite Hc. repeat (constructor; [discriminate|]). constructor. }
  rewrite (HistoricalDataSeries.values_under_none key (flat_map gpu_points _)).
  2:{ eapply Forall_impl; [apply HistoricalDataFacts.gpu_points_keys|].
      intros point (rest' & Hrest) Heq. rewrite Hrest, Hc in Heq. discriminate Heq. }
  rewrite (HistoricalDataSeries.values_under_none key [_; _]).
  2:{ rewrite Hc. repeat (constructor; [discriminate|]). constructor. }
  simpl app. unfold cpu_readings.
  induction (docker metrics_data) as [|c containers IH]; [reflexivity|].
  change (flat_map container_points (c :: containers))
    with (container_points c ++ flat_map container_points containers).
  rewrite HistoricalDataSeries.values_under_app, IH.
  unfold values_under at 1, container_points. cbn [List.filter fst].
  assert (Hmem : String.eqb ("container_" +:+ name c +:+ "_memory_mb") key = false).
  { apply String.eqb_neq. intros Heq. rewrite <- Heq in Hlast.
    rewrite !last_char_append in Hlast; [discriminate Hlast|discriminate|].
    intros Hempty. apply (f_equal String.length) in Hempty.
    rewrite append_length in Hempty. simpl in Hempty. lia. }
  rewrite Hmem.
  destruct (String.eqb_spec ("container_" +:+ name c +:+ "_cpu") key) as [Heq|Hne].
  - unfold key in Heq. apply append_cancel_l, append_cancel_r in Heq.
    simpl List.filter. rewrite Heq, String.eqb_refl. reflexivity.
  - simpl List.filter.
    destruct (String.eqb_spec (name c) container_name) as [Heq|_]; [|reflexivity].
    exfalso. apply Hne. unfold key. rewrite Heq. reflexivity.
Qed.

End HistoricalDataKeys.

(** X19.  With room for at least one point, [get_latest_value] of a
    system metric or container count is what the latest round recorded
    for it, and the running count it reads lies between 0 and the total
    count; a metric nothing was recorded under reads 0, as does every
    metric of a store with no room. *)
Theorem X19_latest_value (max_points : nat)
    (rounds : list (Q * HistoricalData.MetricsData))
    (round : Q * HistoricalData.MetricsData)
    (metric_name : string) (reading : HistoricalData.MetricsData -> Q) :
  (In (metric_name, reading) HistoricalData.scalar_metrics -> (0 < max_points)%nat ->
   let store := HistoricalData.record (rounds ++ [round])
                  (HistoricalData.init max_points) in
   HistoricalData.get_latest_value metric_name store = reading (snd round)
   /\ 0 <= HistoricalData.get_latest_value "running_containers" store
   /\ HistoricalData.get_latest_value "running_containers" store
      <= HistoricalData.get_latest_value "total_containers" store)
  /\ HistoricalData.get_latest_value metric_name (HistoricalData.init max_points) = 0
  /\ HistoricalData.get_latest_value metric_name
       (HistoricalData.record rounds (HistoricalData.init 0)) = 0.
Proof.
  assert (Hlatest : forall k f, In (k, f) HistoricalData.scalar_metrics ->
            (0 < max_points)%nat ->
            HistoricalData.get_latest_value k
              (HistoricalData.record (rounds ++ [round]) (HistoricalData.init max_points))
            = f (snd round)).
  { intros k f Hin Hn. unfold HistoricalData.get_latest_value.
    rewrite (HistoricalDataFacts.record_scalar _ _ f _ Hin).
    rewrite last_lastn by exact Hn. rewrite map_app. simpl map.
    rewrite last_snoc. reflexivity. }
  split; [|split].
  - intros Hin Hn store. subst store. split; [apply Hlatest; assumption|].
    rewrite (Hlatest "running_containers"%string
               (fun m => HistoricalData.running_containers (HistoricalData.docker m)))
      by (simpl; tauto).
    rewrite (Hlatest "total_containers"%string
               (fun m => Qnat (length (HistoricalData.docker m))))
      by (simpl; tauto).
    unfold HistoricalData.running_containers, Qnat.
    split.
    + unfold Qle. simpl. lia.
    + unfold Qle. simpl. rewrite !Z.mul_1_r. apply inj_le. apply List.filter_length_le.
  - reflexivity.
  - unfold HistoricalData.get_latest_value.
    rewrite HistoricalDataSeries.record_series. unfold lastn.
    rewrite Nat.sub_0_r, drop_all. reflexivity.
Qed.

Lemma X19_latest_value_witness :
  HistoricalData.get_latest_value "load_5m"
    (HistoricalData.record
       ([(10, {| HistoricalData.system := None;
                 HistoricalData.gpu := [];
                 HistoricalData.docker := [] |})]
        ++ [(25, {| HistoricalData.system :=
                      Some {| HistoricalData.cpu_percent := 12;
                              HistoricalData.memory_percent := 40;
                              HistoricalData.load_1m := 1 # 2;
                              HistoricalData.load_5m := 3 # 4;
                              HistoricalData.load_15m := 1 |};
                    HistoricalData.gpu := [];
                    HistoricalData.docker := [] |})])
       (HistoricalData.init 300))
  = 3 # 4.
Proof.
  refine (proj1 (proj1 (X19_latest_value 300 _ _ "load_5m"
                          (fun m => from_option HistoricalData.load_5m 0
                                      (HistoricalData.system m))) _ _)).
  - simpl. tauto.
  - lia.
Defined.

(** X20.  When every device of every round reports a usage between 0
    and its total, every value held under a device's memory-percent key
    lies between 0 and 100; a device reporting a total of 0 contributes
    0 rather than a division by zero. *)
Theorem X20_gpu_memory_percent_range (max_points : nat)
    (rounds : list (Q * HistoricalData.MetricsData)) (gpu_idx : nat) :
  Forall (fun round => Forall HistoricalData.plausible (HistoricalData.gpu (snd round)))
         rounds ->
  Forall (fun v => 0 <= v /\ v <= 100)
         (HistoricalData.series
            (HistoricalData.record rounds (HistoricalData.init max_points))
            ("gpu_" +:+ pretty gpu_idx +:+ "_memory_percent")).
Proof.
  intros Hplausible. rewrite HistoricalDataSeries.record_series.
  apply Forall_lastn. apply Forall_flat_map.
  eapply Forall_impl; [exact Hplausible|].
  intros round Hround. simpl.
  eapply Forall_impl; [apply HistoricalDataKeys.memory_percent_values|].
  intros v (g & Hin & ->). simpl.
  apply HistoricalDataKeys.gpu_memory_percent_range.
  rewrite Forall_forall in Hround. apply Hround. apply list_elem_of_In. exact Hin.
Qed.

Lemma X20_gpu_memory_percent_range_witness :
  Forall (fun v => 0 <= v /\ v <= 100)
         (HistoricalData.series
            (HistoricalData.record
               [(10, {| HistoricalData.system := None;
                        HistoricalData.gpu :=
                          [{| HistoricalData.index := 0;
                              HistoricalData.memory_total := 16;
                              HistoricalData.memory_used := 4;
                              HistoricalData.utilization := 250;
                              HistoricalData.temperature := 60;
                              HistoricalData.power := 120 |};
                           {| HistoricalData.index := 1;
                              HistoricalData.memory_total := 0;
                              HistoricalData.memory_used := 0;
                              HistoricalData.utilization := 0;
                              HistoricalData.temperature := 0;
                              HistoricalData.power := 0 |}];
                        HistoricalData.docker := [] |})]
               (HistoricalData.init 300))
            ("gpu_" +:+ pretty 0%nat +:+ "_memory_percent")).
Proof.
  apply (X20_gpu_memory_percent_range 300 _ 0).
  repeat constructor; simpl; lra.
Defined.

(** X21.  [get_time_series] pairs a container's retained CPU readings
    with the retained timestamps position by position, oldest first, and
    keeps the pairs inside the window.  So when the container is missing
    from the first rounds and appears once in each later one, and the
    store has not yet dropped a point, its readings are paired with the
    timestamps of the first rounds of the run, not with those of the
    rounds that recorded them. *)
Theorem X21_container_series_by_position (max_points : nat)
    (rounds : list (Q * HistoricalData.MetricsData)) (container_name : string)
    (time_range_minutes now : Q) :
  let series :=
    HistoricalData.get_time_series ("container_" +:+ container_name +:+ "_cpu")
      time_range_minutes now
      (HistoricalData.record rounds (HistoricalData.init max_points)) in
  let in_window := fun point : Q * Q =>
    Qle_bool (now * 1000 - time_range_minutes * 60 * 1000) (fst point) in
  series
  = List.filter in_window
      (zip (lastn max_points (map (fun round => fst round * 1000) rounds))
           (lastn max_points
              (flat_map (fun round => HistoricalData.cpu_readings container_name
                                        (snd round)) rounds)))
  /\ forall early late cpu,
       rounds = early ++ late ->
       Forall (fun round => HistoricalData.cpu_readings container_name (snd round) = [])
              early ->
       Forall2 (fun round v => HistoricalData.cpu_readings container_name (snd round) = [v])
               late cpu ->
       (length rounds <= max_points)%nat ->
       series
       = List.filter in_window
           (zip (map (fun round => fst round * 1000) (take (length late) rounds)) cpu).
Proof.
  intros series in_window.
  assert (Hgeneral : series
    = List.filter in_window
        (zip (lastn max_points (map (fun round => fst round * 1000) rounds))
             (lastn max_points
                (flat_map (fun round => HistoricalData.cpu_readings container_name
                                          (snd round)) rounds)))).
  { subst series. unfold HistoricalData.get_time_series.
    match goal with
    | |- HistoricalData.data_points ?cutoff ?values 0 ?ts = _ =>
        pose proof (HistoricalDataFacts.data_points_zip cutoff [] values ts) as Hzip
    end.
    cbn [app length] in Hzip. rewrite Hzip. clear Hzip.
    rewrite HistoricalDataFacts.record_timestamps, HistoricalDataSeries.record_series.
    do 3 f_equal. clear.
    induction rounds as [|round rounds IH]; [reflexivity|].
    simpl. rewrite IH, HistoricalDataKeys.container_cpu_values. reflexivity. }
  split; [exact Hgeneral|].
  intros early late cpu -> Hearly Hlate Hroom. rewrite Hgeneral. f_equal.
  assert (Hcpu : flat_map (fun round => HistoricalData.cpu_readings container_name
                                          (snd round)) (early ++ late) = cpu).
  { rewrite flat_map_app.
    assert (He : flat_map (fun round => HistoricalData.cpu_readings container_name
                                          (snd round)) early = []).
    { clear -Hearly. induction Hearly as [|round early Hr _ IH]; [reflexivity|].
      simpl. rewrite Hr, IH. reflexivity. }
    rewrite He. simpl. clear -Hlate.
    induction Hlate as [|round v late cpu Hr _ IH]; [reflexivity|].
    simpl. rewrite Hr, IH. reflexivity. }
  rewrite Hcpu.
  assert (Hlen : length cpu = length late)
    by (symmetry; eapply Forall2_length; exact Hlate).
  unfold lastn. rewrite length_map.
  replace (length (early ++ late) - max_points)%nat with 0%nat by lia.
  replace (length cpu - max_points)%nat with 0%nat
    by (rewrite length_app in Hroom; lia).
  rewrite !drop_0, <- Hlen. rewrite <- List.firstn_map.
  clear. generalize (map (fun round : Q * HistoricalData.MetricsData => fst round * 1000)
                         (early ++ late)). intros ts.
  revert ts. induction cpu as [|v cpu IH]; intros [|t ts]; simpl; try reflexivity.
  rewrite IH. reflexivity.
Qed.

Lemma X21_container_series_by_position_witness :
  HistoricalData.get_time_series "container_web_cpu" 5 20
    (HistoricalData.record
       ([(10, {| HistoricalData.system := None;
                 HistoricalData.gpu := [];
                 HistoricalData.docker := [] |})]
        ++ [(20, {| HistoricalData.system := None;
                    HistoricalData.gpu := [];
                    HistoricalData.docker :=
                      [{| HistoricalData.name := "web";
                          HistoricalData.status := "running";
                          HistoricalData.container_cpu_percent := 7;
                          HistoricalData.memory_usage := 1048576 |}] |})])
       (HistoricalData.init 300))
  = [(10000, 7)].
Proof.
  refine (eq_trans
            (proj2 (X21_container_series_by_position 300 _ "web" 5 20)
                   [_] [_] [7] eq_refl _ _ _) _).
  - constructor; [reflexivity | constructor].
  - constructor; [reflexivity | constructor].
  - simpl. lia.
  - reflexivity.
Defined.

(** ** From a process to its container *)

Module ResolverFacts.
Import Resolver.

Lemma strip_prefix_spec (p s rest : string) :
  strip_prefix p s = Some rest <-> s = p +:+ rest.
Proof.
  revert s. induction p as [|a p IH]; intros s.
  - simpl. rewrite append_nil_l. split; [intros [= ->]|intros ->]; reflexivity.
  - rewrite append_cons. destruct s as [|b s]; simpl; [split; discriminate|].
    destruct (Ascii.eqb_spec a b) as [->|Hne].
    + rewrite IH. split; [intros ->; reflexivity | intros [= ->]; reflexivity].
    + split; [discriminate | intros [= <- _]; contradiction].
Qed.

Lemma hex_group_spec (n : nat) (s group : string) :
  hex_group n s = Some group
  <-> exists after, s = group +:+ after
                    /\ String.length group = n /\ all_hex group = true.
Proof.
  revert s group. induction n as [|n IH]; intros s group; simpl.
  - split.
    + intros [= <-]. exists s. rewrite append_nil_l. tauto.
    + intros (after & _ & Hlen & _). destruct group; [reflexivity|discriminate].
  - destruct s as [|c s].
    + split; [discriminate|]. intros (after & Hs & Hlen & _).
      destruct group; [discriminate Hlen|]. rewrite append_cons in Hs. discriminate.
    + destruct (is_hex c) eqn:Hc.
      * destruct (hex_group n s) as [g|] eqn:Hg; simpl.
        -- apply IH in Hg. destruct Hg as (after & -> & Hlen & Hhex). split.
           ++ intros [= <-]. exists after. rewrite append_cons. simpl.
              rewrite Hc, Hhex, Hlen. tauto.
           ++ intros (after' & Hs & Hlen' & Hhex').
              destruct group as [|c' group]; [discriminate Hlen'|].
              rewrite append_cons in Hs. injection Hs as <- Hs.
              simpl in Hlen', Hhex'. apply andb_prop in Hhex' as [_ Hhex'].
              assert (Hg' : hex_group n (g +:+ after) = Some group).
              { apply IH. exists after'. split; [exact Hs|]. split; [lia|exact Hhex']. }
              assert (Hg : hex_group n (g +:+ after) = Some g).
              { apply IH. exists after. tauto. }
              congruence.
        -- split; [discriminate|]. intros (after' & Hs & Hlen' & Hhex').
           destruct group as [|c' group]; [discriminate Hlen'|].
           rewrite append_cons in Hs. injection Hs as <- Hs.
           simpl in Hlen', Hhex'. apply andb_prop in Hhex' as [_ Hhex'].
           assert (Hg' : hex_group n s = Some group).
           { apply IH. exists after'. split; [exact Hs|]. split; [lia|exact Hhex']. }
           congruence.
      * split; [discriminate|]. intros (after' & Hs & Hlen' & Hhex').
        destruct group as [|c' group]; [discriminate Hlen'|].
        rewrite append_cons in Hs. injection Hs as <- Hs.
        simpl in Hhex'. rewrite Hc in Hhex'. discriminate.
Qed.

Lemma match_here_spec (s group : string) :
  match_here s = Some group
  <-> exists sep after,
        s = "docker" +:+ String sep (group +:+ after)
        /\ (sep = "/"%char \/ sep = "-"%char)
        /\ String.length group = 64%nat /\ all_hex group = true.
Proof.
  unfold match_here. split.
  - destruct (strip_prefix "docker" s) as [[|sep rest]|] eqn:Hstrip; try discriminate.
    apply strip_prefix_spec in Hstrip.
    destruct (Ascii.eqb sep "/" || Ascii.eqb sep "-") eqn:Hsep; [|discriminate].
    intros Hgroup. apply hex_group_spec in Hgroup.
    destruct Hgroup as (after & -> & Hlen & Hhex).
    exists sep, after. split; [exact Hstrip|]. split; [|tauto].
    apply orb_prop in Hsep as [Hsep|Hsep]; apply Ascii.eqb_eq in Hsep; tauto.
  - intros (sep & after & -> & Hsep & Hlen & Hhex).
    assert (Hstrip : strip_prefix "docker" ("docker" +:+ String sep (group +:+ after))
                     = Some (String sep (group +:+ after)))
      by (apply strip_prefix_spec; reflexivity).
    rewrite Hstrip.
    assert (Hok : Ascii.eqb sep "/" || Ascii.eqb sep "-" = true)
      by (destruct Hsep as [-> | ->]; reflexivity).
    rewrite Hok. apply hex_group_spec. exists after. tauto.
Qed.

Lemma re_search_eq (s : string) :
  re_search s
  = match match_here s with
    | Some group => Some group
    | None => match s with EmptyString => None | String _ rest => re_search rest end
    end.
Proof. destruct s; reflexivity. Qed.

Lemma re_search_sound (s group : string) :
  re_search s = Some group ->
  exists before sep after,
    s = before +:+ "docker" +:+ String sep (group +:+ after)
    /\ (sep = "/"%char \/ sep = "-"%char)
    /\ String.length group = 64%nat /\ all_hex group = true.
Proof.
  induction s as [|c s IH]; rewrite re_search_eq.
  - destruct (match_here EmptyString) as [g|] eqn:Hm; [|discriminate].
    intros [= ->]. apply match_here_spec in Hm.
    destruct Hm as (sep & after & Hs & Hrest).
    exists EmptyString, sep, after. rewrite append_nil_l. tauto.
  - destruct (match_here (String c s)) as [g|] eqn:Hm.
    + intros [= ->]. apply match_here_spec in Hm.
      destruct Hm as (sep & after & Hs & Hrest).
      exists EmptyString, sep, after. rewrite append_nil_l. tauto.
    + intros Hsearch. destruct (IH Hsearch) as (before & sep & after & -> & Hrest).
      exists (String c before), sep, after. rewrite append_cons. tauto.
Qed.

Lemma prefix_append_long (p y z : string) :
  (String.length p <= String.length y)%nat ->
  String.prefix p (y +:+ z) = String.prefix p y.
Proof.
  revert y. induction p as [|a p IH]; intros y Hlen.
  - destruct y; destruct z; reflexivity.
  - destruct y as [|b y]; [simpl in Hlen; lia|].
    rewrite append_cons. simpl. destruct (ascii_dec a b); [|reflexivity].
    apply IH. simpl in Hlen. lia.
Qed.

(** No match starts before the first occurrence of [docker]. *)
Lemma re_search_first (before rest group : string) :
  str_in "docker" (before +:+ "docke") = false ->
  match_here ("docker" +:+ rest) = Some group ->
  re_search (before +:+ "docker" +:+ rest) = Some group.
Proof.
  intros Hfirst Hmatch. induction before as [|c before IH].
  - rewrite append_nil_l, re_search_eq, Hmatch. reflexivity.
  - rewrite append_cons in Hfirst |- *.
    change (str_in "docker" (String c (before +:+ "docke")))
      with (String.prefix "docker" (String c (before +:+ "docke"))
            || str_in "docker" (before +:+ "docke")) in Hfirst.
    apply orb_false_elim in Hfirst as [Hhere Hlater].
    assert (Hnone : match_here (String c (before +:+ "docker" +:+ rest)) = None).
    { destruct (match_here (String c (before +:+ "docker" +:+ rest))) as [g|] eqn:Hm;
        [|reflexivity].
      exfalso. apply match_here_spec in Hm. destruct Hm as (sep & after & Hs & _).
      assert (Hp : String.prefix "docker" (String c (before +:+ "docker" +:+ rest))
                   = true).
      { apply prefix_split. eexists. exact Hs. }
      replace (String c (before +:+ "docker" +:+ rest))
        with (String c (before +:+ "docke") +:+ ("r" +:+ rest)) in Hp.
      - rewrite prefix_append_long in Hp; [congruence|].
        simpl. rewrite append_length. simpl. lia.
      - rewrite append_cons. f_equal. rewrite <- append_assoc. reflexivity. }
    rewrite re_search_eq, Hnone. apply IH. exact Hlater.
Qed.

Lemma substring_length (n : nat) (s : string) :
  (n <= String.length s)%nat -> String.length (String.substring 0 n s) = n.
Proof.
  revert s. induction n as [|n IH]; intros s Hn.
  - destruct s; reflexivity.
  - destruct s as [|c s]; [simpl in Hn; lia|]. simpl. rewrite IH; [reflexivity|].
    simpl in Hn. lia.
Qed.

End ResolverFacts.

(** X22.  A container that [map_pid_to_container] returns comes from an
    occurrence of [docker/] or [docker-] in the process's cgroup file
    that is followed by 64 lower-case hexadecimal characters: its id is
    the first twelve of them, the id [docker inspect] answered for, and
    its name is the inspected name without leading slashes. *)
Theorem X22_resolved_container_from_cgroup (proc_cgroup : Z -> option string)
    (docker_inspect : string -> option Inspect) (pid : Z) (container : Container) :
  Resolver.map_pid_to_container proc_cgroup docker_inspect pid = Some container ->
  exists cgroup_content before sep full after data,
    proc_cgroup pid = Some cgroup_content
    /\ cgroup_content = before +:+ "docker" +:+ String sep (full +:+ after)
    /\ (sep = "/"%char \/ sep = "-"%char)
    /\ String.length full = 64%nat
    /\ Resolver.all_hex full = true
    /\ c_id container = take12 full
    /\ String.length (c_id container) = 12%nat
    /\ docker_inspect (c_id container) = Some data
    /\ c_name container = lstrip_slash (Name data).
Proof.
  unfold Resolver.map_pid_to_container.
  destruct (proc_cgroup pid) as [cgroup_content|]; [|discriminate].
  destruct (Resolver.re_search cgroup_content) as [group|] eqn:Hsearch; [|discriminate].
  destruct (docker_inspect (take12 group)) as [data|] eqn:Hinspect; [|discriminate].
  intros [= <-]. simpl.
  destruct (ResolverFacts.re_search_sound _ _ Hsearch)
    as (before & sep & after & Hcontent & Hsep & Hlen & Hhex).
  exists cgroup_content, before, sep, group, after, data.
  repeat split; try assumption; try reflexivity.
  unfold take12. apply ResolverFacts.substring_length. lia.
Qed.

Lemma X22_resolved_container_from_cgroup_witness :
  exists cgroup_content before sep full after data,
    ResolverScenario.proc_cgroup 4242 = Some cgroup_content
    /\ cgroup_content = before +:+ "docker" +:+ String sep (full +:+ after)
    /\ (sep = "/"%char \/ sep = "-"%char)
    /\ String.length full = 64%nat
    /\ Resolver.all_hex full = true
    /\ c_id Scenario.A = take12 full
    /\ String.length (c_id Scenario.A) = 12%nat
    /\ ResolverScenario.docker_inspect (c_id Scenario.A) = Some data
    /\ c_name Scenario.A = lstrip_slash (Name data).
Proof.
  apply (X22_resolved_container_from_cgroup ResolverScenario.proc_cgroup
           ResolverScenario.docker_inspect 4242 Scenario.A).
  reflexivity.
Defined.

(** X23.  When the first occurrence of [docker] in the cgroup file is
    followed by [/] or [-] and the container's 64-character hexadecimal
    id, and [docker inspect] answers for the first twelve characters of
    that id, the process resolves to that container, whatever follows
    the id. *)
Theorem X23_cgroup_resolves (proc_cgroup : Z -> option string)
    (docker_inspect : string -> option Inspect) (pid : Z)
    (before full after : string) (sep : ascii) (data : Inspect) :
  proc_cgroup pid = Some (before +:+ "docker" +:+ String sep (full +:+ after)) ->
  str_in "docker" (before +:+ "docke") = false ->
  sep = "/"%char \/ sep = "-"%char ->
  String.length full = 64%nat ->
  Resolver.all_hex full = true ->
  docker_inspect (take12 full) = Some data ->
  Resolver.map_pid_to_container proc_cgroup docker_inspect pid
  = Some {| c_id := take12 full; c_name := lstrip_slash (Name data) |}.
Proof.
  intros Hcgroup Hfirst Hsep Hlen Hhex Hinspect.
  unfold Resolver.map_pid_to_container. rewrite Hcgroup.
  rewrite (ResolverFacts.re_search_first before (String sep (full +:+ after)) full Hfirst).
  - rewrite Hinspect. reflexivity.
  - apply ResolverFacts.match_here_spec. exists sep, after. tauto.
Qed.

Lemma X23_cgroup_resolves_witness :
  Resolver.map_pid_to_container ResolverScenario.proc_cgroup
    ResolverScenario.docker_inspect 4242
  = Some Scenario.A.
Proof.
  refine (eq_trans
            (X23_cgroup_resolves ResolverScenario.proc_cgroup
               ResolverScenario.docker_inspect 4242
               "0::/system.slice/" ResolverScenario.full_id ".scope" "-"
               (Scenario.inspect_of ResolverScenario.full_id "trainer") _ _ _ _ _ _) _).
  - reflexivity.
  - reflexivity.
  - right. reflexivity.
  - reflexivity.
  - reflexivity.
  - reflexivity.
  - reflexivity.
Defined.


Lemma Qnat_pos (n : nat) : 1 <= Qnat (S n).
Proof. unfold Qnat, Qle. simpl. lia. Qed.

(** X24.  The CPU block of [collect_docker_stats] writes the gauge
    [docker_cpu_usage] only when both counters have advanced, and then a
    value above 0 that is at most 100 for each counted CPU whenever the
    container's share of the system's CPU time is at most one; it never
    writes 0, so the gauge of a container that has gone idle keeps its
    last value while the dashboard's figure is 0.  At least one CPU is
    always counted, and a missing counter raises before anything is
    written. *)
Theorem X24_cpu_percent (cpu_stats precpu_stats : DockerStats.CpuStats) :
  1 <= DockerStats.number_cpus cpu_stats
  /\ match DockerStats.cpu_percent cpu_stats precpu_stats with
     | Some (shown, gauge) =>
         exists usage pre_usage system_usage pre_system_usage,
           DockerStats.total_usage cpu_stats = Some usage
           /\ DockerStats.total_usage precpu_stats = Some pre_usage
           /\ DockerStats.system_cpu_usage cpu_stats = Some system_usage
           /\ DockerStats.system_cpu_usage precpu_stats = Some pre_system_usage
           /\ match gauge with
              | Some v =>
                  shown = v /\ 0 < v
                  /\ pre_usage < usage /\ pre_system_usage < system_usage
                  /\ (usage - pre_usage <= system_usage - pre_system_usage ->
                      v <= 100 * DockerStats.number_cpus cpu_stats)
              | None =>
                  shown = 0
                  /\ (usage <= pre_usage \/ system_usage <= pre_system_usage)
              end
     | None =>
         DockerStats.total_usage cpu_stats = None
         \/ DockerStats.total_usage precpu_stats = None
         \/ DockerStats.system_cpu_usage cpu_stats = None
         \/ DockerStats.system_cpu_usage precpu_stats = None
     end.
Proof.
  assert (Hcpus : 1 <= DockerStats.number_cpus cpu_stats).
  { unfold DockerStats.number_cpus.
    destruct (length (default [] (DockerStats.percpu_usage cpu_stats)));
      [lra | apply Qnat_pos]. }
  split; [exact Hcpus|].
  unfold DockerStats.cpu_percent.
  destruct (DockerStats.total_usage cpu_stats) as [usage|]; [|tauto].
  destruct (DockerStats.total_usage precpu_stats) as [pre_usage|]; [|tauto].
  destruct (DockerStats.system_cpu_usage cpu_stats) as [system_usage|]; [|tauto].
  destruct (DockerStats.system_cpu_usage precpu_stats) as [pre_system_usage|]; [|tauto].
  cbv zeta.
  destruct (Qlt_le_dec 0 (system_usage - pre_system_usage)) as [Hsys|Hsys].
  - destruct (Qlt_le_dec 0 (usage - pre_usage)) as [Hcpu|Hcpu].
    + exists usage, pre_usage, system_usage, pre_system_usage.
      do 4 (split; [reflexivity|]).
      assert (Hratio : 0 < (usage - pre_usage) / (system_usage - pre_system_usage))
        by (apply Qlt_shift_div_l; [exact Hsys | lra]).
      set (ratio := (usage - pre_usage) / (system_usage - pre_system_usage)) in *.
      set (n := DockerStats.number_cpus cpu_stats) in *.
      split; [reflexivity|]. split; [|split; [lra|split; [lra|]]].
      * assert (H : 0 < ratio * n) by (apply Qmult_lt_0_compat; lra). lra.
      * intros Hshare.
        assert (Hle : ratio <= 1).
        { subst ratio. apply Qle_shift_div_r; [exact Hsys | lra]. }
        assert (H : ratio * n <= 1 * n) by (apply Qmult_le_compat_r; lra). lra.
    + exists usage, pre_usage, system_usage, pre_system_usage.
      do 4 (split; [reflexivity|]). split; [reflexivity|]. left. lra.
  - exists usage, pre_usage, system_usage, pre_system_usage.
    do 4 (split; [reflexivity|]). split; [reflexivity|]. right. lra.
Qed.

(** ** A visible process, from the driver's listing to the registry *)

Lemma for_fold_output_In {A B} (body : B -> A -> M B) (l : list A) (x : A) (y : Sample) :
  In x l ->
  (forall acc s, In y (output_of (body acc x s))) ->
  forall acc s, In y (output_of (for_fold l acc body s)).
Proof.
  intros Hx Hbody. induction l as [|x0 l IH]; intros acc s; [destruct Hx|].
  simpl for_fold. rewrite output_bind. apply in_or_app.
  destruct Hx as [->|Hx]; [left; apply Hbody | right; apply IH; exact Hx].
Qed.

Lemma dd_append_in (k : nat) (p : Process) (d : list (nat * list Process)) :
  exists ps, In (k, ps) (dd_append k p d) /\ In p ps.
Proof.
  induction d as [|[k' ps] d IH]; simpl.
  - exists [p]. split; left; reflexivity.
  - destruct (decide (k' = k)) as [->|Hne].
    + exists (ps ++ [p]). split; [left; reflexivity|].
      apply in_or_app. right. left. reflexivity.
    + destruct IH as (ps' & Hin & Hp). exists ps'. split; [right; exact Hin | exact Hp].
Qed.

Lemma dd_append_keeps (k : nat) (p : Process) (d : list (nat * list Process))
    (k0 : nat) (proc : Process) :
  (exists ps, In (k0, ps) d /\ In proc ps) ->
  exists ps, In (k0, ps) (dd_append k p d) /\ In proc ps.
Proof.
  induction d as [|[k' ps'] d IH]; intros (ps & Hin & Hproc); [destruct Hin|].
  simpl. destruct (decide (k' = k)) as [->|Hne].
  - destruct Hin as [[= <- <-]|Hin].
    + exists (ps' ++ [p]). split; [left; reflexivity|].
      apply in_or_app. left. exact Hproc.
    + exists ps. split; [right; exact Hin | exact Hproc].
  - destruct Hin as [[= <- <-]|Hin].
    + exists ps'. split; [left; reflexivity | exact Hproc].
    + destruct IH as (ps'' & Hin' & Hproc'); [exists ps; tauto|].
      exists ps''. split; [right; exact Hin' | exact Hproc'].
Qed.

Lemma known_processes_loop_keeps (dc : nat) (uuids : nat -> string)
    (lines : list SmiLine) (k0 : nat) (proc : Process) :
  forall d,
    (exists ps, In (k0, ps) d /\ In proc ps) ->
    exists ps, In (k0, ps) (known_processes_loop dc uuids lines d) /\ In proc ps.
Proof.
  induction lines as [|line lines IH]; intros d Hd; [exact Hd|].
  destruct line as [| |p uuid mb]; simpl.
  - apply IH. exact Hd.
  - exact Hd.
  - apply IH. apply dd_append_keeps. exact Hd.
Qed.

(** Every row read before a line fails to parse is held under the device
    its UUID maps to. *)
Lemma known_processes_loop_rows (dc : nat) (uuids : nat -> string)
    (lines : list SmiLine) (p : Z) (gpu_uuid : string) (memory_mb : Q) :
  In (p, gpu_uuid, memory_mb) (parsed_rows lines) ->
  forall d,
    exists ps,
      In (_get_gpu_index_from_uuid dc uuids gpu_uuid, ps)
         (known_processes_loop dc uuids lines d)
      /\ In {| pid := p; memory_bytes := memory_mb * 1024 * 1024 |} ps.
Proof.
  induction lines as [|line lines IH]; intros Hrow d; [destruct Hrow|].
  destruct line as [| |p' uuid' mb']; simpl in Hrow |- *.
  - apply IH. exact Hrow.
  - destruct Hrow.
  - destruct Hrow as [[= -> -> ->]|Hrow].
    + apply known_processes_loop_keeps. apply dd_append_in.
    + apply IH. exact Hrow.
Qed.

(** X25.  End to end: when nvidia-smi lists a process whose cgroup file
    names a container (the first occurrence of [docker] is followed by
    [/] or [-] and the 64-character id, and [docker inspect] answers for
    its first twelve characters), the cycle writes the process's memory
    for that container with [method='nvidia-smi'] on the device its UUID
    maps to, and writes no inferred allocation under that container id,
    whatever the unknown memory and the other containers. *)
Theorem X25_visible_process_excludes_inference (HISTORY_SIZE : nat) (clock : nat -> Q)
    (r : Readings) (s : Engine)
    (proc_cgroup : Z -> option string) (docker_inspect : string -> option Inspect)
    (p : Z) (gpu_uuid : string) (memory_mb : Q)
    (before full after : string) (sep : ascii) (data : Inspect) :
  map_pid_to_container r = Resolver.map_pid_to_container proc_cgroup docker_inspect ->
  In (p, gpu_uuid, memory_mb) (parsed_rows (nvidia_smi_stdout r)) ->
  proc_cgroup p = Some (before +:+ "docker" +:+ String sep (full +:+ after)) ->
  str_in "docker" (before +:+ "docke") = false ->
  sep = "/"%char \/ sep = "-"%char ->
  String.length full = 64%nat ->
  Resolver.all_hex full = true ->
  docker_inspect (take12 full) = Some data ->
  let out := output_of (calculate_inference HISTORY_SIZE clock r s) in
  In (container_gpu_memory_bytes (lstrip_slash (Name data)) (take12 full)
        (_get_gpu_index_from_uuid (device_count s) (nvmlDeviceGetUUID r) gpu_uuid)
        nvidia_smi (memory_mb * 1024 * 1024)) out
  /\ ~ In (take12 full) (inferred_ids out).
Proof.
  intros Hresolver Hrow Hcgroup Hfirst Hsep Hlen Hhex Hinspect out.
  set (proc := {| pid := p; memory_bytes := memory_mb * 1024 * 1024 |}).
  set (gpu_index :=
         _get_gpu_index_from_uuid (device_count s) (nvmlDeviceGetUUID r) gpu_uuid).
  set (container := {| c_id := take12 full; c_name := lstrip_slash (Name data) |}).
  assert (Hmap : map_pid_to_container r (pid proc) = Some container).
  { rewrite Hresolver. unfold Resolver.map_pid_to_container. simpl pid. rewrite Hcgroup.
    rewrite (ResolverFacts.re_search_first before (String sep (full +:+ after)) full
               Hfirst).
    - rewrite Hinspect. reflexivity.
    - apply ResolverFacts.match_here_spec. exists sep, after. tauto. }
  destruct (known_processes_loop_rows (device_count s) (nvmlDeviceGetUUID r)
              (nvidia_smi_stdout r) p gpu_uuid memory_mb Hrow [])
    as (ps & Hitem & Hproc).
  fold gpu_index in Hitem. fold proc in Hproc.
  change (known_processes_loop (device_count s) (nvmlDeviceGetUUID r)
            (nvidia_smi_stdout r) [])
    with (get_known_gpu_processes (device_count s) r) in Hitem.
  destruct (get_total_gpu_memory_spec HISTORY_SIZE r s) as (Hext & Hstats).
  assert (Hdc : device_count (state_of (get_total_gpu_memory HISTORY_SIZE r s))
                = device_count s) by apply Hext.
  subst out. unfold calculate_inference. rewrite !output_bind. autorewrite with run.
  rewrite !Hdc. simpl app.
  set (known_processes := get_known_gpu_processes (device_count s) r) in *.
  split.
  - apply in_or_app. right. apply in_or_app. left.
    apply (for_fold_output_In _ _ (gpu_index, ps)); [exact Hitem|].
    intros acc s1. unfold process_known. cbv zeta. rewrite output_bind.
    apply in_or_app. left. simpl fst. simpl snd.
    apply (for_fold_output_In _ _ proc); [exact Hproc|].
    intros acc' s2. unfold account_process. cbv zeta. rewrite Hmap.
    rewrite !output_bind, update_if_profiled_output. simpl. left. reflexivity.
  - unfold inferred_ids. rewrite !omap_app.
    rewrite get_total_gpu_memory_quiet by reflexivity.
    rewrite process_known_quiet by reflexivity.
    simpl app. intros Hcid.
    apply for_each_omap_In in Hcid as (gpu_idx & s' & _ & Hcid).
    apply process_gpu_inferred_ids in Hcid as (_ & c & _ & Hunknown & Hid).
    apply Hunknown. rewrite Hid.
    apply process_known_ids_complete. right.
    exists (gpu_index, ps), proc, container. tauto.
Qed.

Lemma X25_visible_process_excludes_inference_witness :
  let out :=
    output_of (calculate_inference 30 Scenario.wall_clock ResolverScenario.readings
                 (EnhancedGPUInference_init 1)) in
  In (container_gpu_memory_bytes "trainer" "aaaaaaaaaaaa" 0 nvidia_smi (2048 * 1024 * 1024))
     out
  /\ ~ In "aaaaaaaaaaaa"%string (inferred_ids out).
Proof.
  refine (X25_visible_process_excludes_inference 30 Scenario.wall_clock
            ResolverScenario.readings (EnhancedGPUInference_init 1)
            ResolverScenario.proc_cgroup ResolverScenario.docker_inspect
            4242 "GPU-5a1f0e2c" 2048
            "0::/system.slice/" ResolverScenario.full_id ".scope" "-"
            (Scenario.inspect_of ResolverScenario.full_id "trainer") _ _ _ _ _ _ _ _).
  - reflexivity.
  - simpl. left. reflexivity.
  - reflexivity.
  - reflexivity.
  - right. reflexivity.
  - reflexivity.
  - reflexivity.
  - reflexivity.
Defined.

(** ** The used-memory history of a device *)

Lemma history_is_update_if_profiled (HISTORY_SIZE : nat) (clock : nat -> Q) (cid : string)
    (has_visible_gpu : bool) (memory_bytes : Q) (dc : nat) (f : nat -> list Q) (s : Engine) :
  history_is dc f s ->
  history_is dc f
    (state_of (update_if_profiled HISTORY_SIZE clock cid has_visible_gpu memory_bytes s)).
Proof.
  intros Hs. unfold update_if_profiled. autorewrite with run.
  destruct (container_profiles s !! cid) as [p|]; [|exact Hs].
  autorewrite with run. destruct has_visible_gpu; exact Hs.
Qed.

Lemma history_is_likelihood_score (clock : nat -> Q) (profile : ContainerProfile)
    (dc : nat) (f : nat -> list Q) (s : Engine) :
  history_is dc f s -> history_is dc f (state_of (likelihood_score clock profile s)).
Proof. intros Hs. unfold likelihood_score. destruct (truthy_time _); exact Hs. Qed.

Lemma history_is_get_container_weight (clock : nat -> Q) (container : Container)
    (dc : nat) (f : nat -> list Q) (s : Engine) :
  history_is dc f s -> history_is dc f (state_of (get_container_weight clock container s)).
Proof.
  intros Hs. unfold get_container_weight. autorewrite with run.
  destruct (container_profiles s !! c_id container) as [p|]; autorewrite with run;
    apply history_is_likelihood_score; exact Hs.
Qed.

Lemma history_is_distribute_unknown_memory (clock : nat -> Q) (unknown_memory : Q)
    (unknown_containers : list Container) (gpu_idx : nat)
    (dc : nat) (f : nat -> list Q) (s : Engine) :
  history_is dc f s ->
  history_is dc f
    (state_of (distribute_unknown_memory clock unknown_memory unknown_containers gpu_idx s)).
Proof.
  intros Hs. unfold distribute_unknown_memory.
  destruct unknown_containers as [|c0 rest]; [exact Hs|].
  destruct (Qlt_le_dec 0 unknown_memory); [|exact Hs].
  apply inv_bind.
  - unfold collect_weights. apply inv_for_fold; [|exact Hs].
    intros acc c s' Hs'. unfold weigh. autorewrite with run.
    apply history_is_get_container_weight, Hs'.
  - intros acc s1 Hs1. apply inv_for_each; [|exact Hs1].
    intros c s' Hs'. destruct (Qlt_le_dec 0 (snd acc)); exact Hs'.
Qed.

(** Indexing the [defaultdict] may create an empty deque; what the
    histories read as does not change. *)
Lemma history_is_calculate_inference_confidence (gpu_idx : nat)
    (unknown_memory total_memory : Q) (dc : nat) (f : nat -> list Q) (s : Engine) :
  history_is dc f s ->
  history_is dc f
    (state_of (calculate_inference_confidence gpu_idx unknown_memory total_memory s)).
Proof.
  intros Hs. unfold calculate_inference_confidence.
  destruct (Qeq_dec total_memory 0); [exact Hs|]. autorewrite with run.
  destruct (memory_history s !! gpu_idx) eqn:E; autorewrite with run; [exact Hs|].
  destruct Hs as [Hdc Hf]. split; [exact Hdc|].
  intros i. unfold used_history. simpl. destruct (decide (gpu_idx = i)) as [<-|Hne].
  - rewrite lookup_insert_eq. simpl. rewrite <- Hf. unfold used_history. rewrite E.
    reflexivity.
  - rewrite lookup_insert_ne by exact Hne. apply Hf.
Qed.

(** [get_total_gpu_memory] appends each listed device's reading. *)
Lemma history_is_read_devices (HISTORY_SIZE : nat) (r : Readings) (indices : list nat) :
  NoDup indices ->
  forall (gpu_stats : gmap nat MemInfo) (dc : nat) (f : nat -> list Q) (s : Engine),
    history_is dc f s ->
    history_is dc
      (fun i => if bool_decide (i ∈ indices)
                then deque_append HISTORY_SIZE (f i) (used (nvmlDeviceGetMemoryInfo r i))
                else f i)
      (state_of (for_fold indices gpu_stats (read_device HISTORY_SIZE r) s)).
Proof.
  induction 1 as [|i0 indices Hnotin Hnodup IH]; intros gpu_stats dc f s Hs.
  - simpl. destruct Hs as [Hdc Hf]. split; [exact Hdc|]. intros i. apply Hf.
  - simpl for_fold. rewrite state_bind.
    set (s1 := state_of (read_device HISTORY_SIZE r gpu_stats i0 s)).
    assert (Hs1 : history_is dc
              (fun i => if decide (i = i0)
                        then deque_append HISTORY_SIZE (f i)
                               (used (nvmlDeviceGetMemoryInfo r i))
                        else f i) s1).
    { subst s1. unfold read_device. cbv zeta. autorewrite with run.
      destruct Hs as [Hdc Hf]. split; [exact Hdc|].
      intros i. unfold used_history. simpl.
      destruct (decide (i = i0)) as [->|Hne].
      - rewrite lookup_insert_eq. simpl. rewrite <- Hf. reflexivity.
      - rewrite lookup_insert_ne by congruence. apply Hf. }
    destruct (IH (value_of (read_device HISTORY_SIZE r gpu_stats i0 s)) dc _ s1 Hs1)
      as [Hdc Hf']. split; [exact Hdc|].
    intros i. rewrite Hf'. cbv beta.
    destruct (decide (i = i0)) as [->|Hne].
    + rewrite (bool_decide_eq_false_2 (i0 ∈ indices)) by exact Hnotin.
      rewrite bool_decide_eq_true_2 by (apply list_elem_of_here). reflexivity.
    + destruct (bool_decide (i ∈ indices)) eqn:Hin.
      * apply bool_decide_eq_true_1 in Hin.
        rewrite bool_decide_eq_true_2 by (apply list_elem_of_further; exact Hin).
        reflexivity.
      * apply bool_decide_eq_false_1 in Hin.
        rewrite bool_decide_eq_false_2; [reflexivity|].
        intros Hin'. apply elem_of_cons in Hin' as [Heq|Hin']; contradiction.
Qed.

Lemma history_is_calculate_inference (HISTORY_SIZE : nat) (clock : nat -> Q)
    (r : Readings) (dc : nat) (f : nat -> list Q) (s : Engine) :
  history_is dc f s ->
  history_is dc
    (fun i => if (i <? dc)%nat
              then deque_append HISTORY_SIZE (f i) (used (nvmlDeviceGetMemoryInfo r i))
              else f i)
    (state_of (calculate_inference HISTORY_SIZE clock r s)).
Proof.
  intros Hs. unfold calculate_inference.
  apply inv_bind.
  { unfold get_total_gpu_memory. rewrite state_bind.
    change (value_of (gets device_count s)) with (device_count s).
    change (state_of (gets device_count s)) with s.
    destruct (history_is_read_devices HISTORY_SIZE r (seq 0 (device_count s))
                (NoDup_seq 0 (device_count s)) ∅ dc f s Hs) as [Hdc Hf].
    split; [exact Hdc|]. intros i. rewrite Hf. cbv beta. destruct Hs as [<- _].
    destruct (Nat.ltb_spec i (device_count s)) as [Hlt|Hge].
    - rewrite bool_decide_eq_true_2; [reflexivity|].
      apply list_elem_of_In, in_seq. lia.
    - rewrite bool_decide_eq_false_2; [reflexivity|].
      intros Hin. apply list_elem_of_In, in_seq in Hin. lia. }
  intros gpu_stats s1 Hs1. apply inv_bind; [exact Hs1|]. intros dc' s2 Hs2.
  apply inv_bind.
  { apply inv_for_fold; [|exact Hs2]. intros ids item s' Hs'.
    unfold process_known. cbv zeta. apply inv_bind.
    - apply inv_for_fold; [|exact Hs']. intros acc proc s'' Hs''.
      unfold account_process. cbv zeta.
      destruct (map_pid_to_container r (pid proc)); [|exact Hs''].
      apply inv_bind; [apply history_is_update_if_profiled, Hs''|].
      intros _ s3 Hs3. apply inv_bind; [exact Hs3 | intros; assumption].
    - intros res s3 Hs3. apply inv_bind; [exact Hs3 | intros; assumption]. }
  intros ids s3 Hs3. apply inv_for_each; [|exact Hs3].
  intros gpu_idx s' Hs'. unfold process_gpu. cbv zeta.
  apply inv_bind; [exact Hs'|]. intros _ s4 Hs4.
  apply inv_bind; [exact Hs4|]. intros _ s5 Hs5.
  apply inv_bind.
  { unfold find_unknown_containers. apply inv_for_fold; [|exact Hs5].
    intros acc c s'' Hs''. unfold classify_container.
    apply inv_bind; [exact Hs''|]. intros _ s6 Hs6.
    destruct (decide (c_id c ∈ ids)); [exact Hs6|].
    apply inv_bind; [apply history_is_update_if_profiled, Hs6 | intros; assumption]. }
  intros unknown_containers s6 Hs6.
  destruct (Qlt_le_dec 0 _).
  - apply inv_bind; [exact Hs6|]. intros _ s7 Hs7.
    apply inv_bind; [apply history_is_calculate_inference_confidence, Hs7|].
    intros confidence s8 Hs8. apply history_is_distribute_unknown_memory, Hs8.
  - apply inv_bind; [exact Hs6 | intros; assumption].
Qed.

(** X26.  After any number of collection cycles from start-up, the
    used-memory history of each device holds exactly the device's used
    memory of the last [HISTORY_SIZE] cycles, oldest first, the latest
    cycle included; nothing is recorded for an index that is not a
    device. *)
Theorem X26_memory_history_content (HISTORY_SIZE dc : nat) (clock : nat -> Q)
    (rounds : list Readings) (gpu_idx : nat) :
  used_history (run_cycles HISTORY_SIZE clock rounds (EnhancedGPUInference_init dc)) gpu_idx
  = if (gpu_idx <? dc)%nat
    then lastn HISTORY_SIZE
           (List.map (fun r => used (nvmlDeviceGetMemoryInfo r gpu_idx)) rounds)
    else [].
Proof.
  assert (Hall : history_is dc
            (fun i => if (i <? dc)%nat
                      then lastn HISTORY_SIZE
                             (List.map (fun r => used (nvmlDeviceGetMemoryInfo r i)) rounds)
                      else [])
            (run_cycles HISTORY_SIZE clock rounds (EnhancedGPUInference_init dc))).
  { induction rounds as [|r rounds IH] using rev_ind.
    - split; [reflexivity|]. intros i. unfold used_history. simpl.
      rewrite lookup_empty. destruct (i <? dc)%nat; reflexivity.
    - unfold run_cycles in *. rewrite fold_left_app. simpl fold_left.
      destruct (history_is_calculate_inference HISTORY_SIZE clock r dc _ _ IH)
        as [Hdc Hf].
      split; [exact Hdc|]. intros i. rewrite Hf. cbv beta.
      destruct (i <? dc)%nat; [|reflexivity].
      rewrite List.map_app. simpl List.map. apply deque_append_lastn. }
  apply Hall.
Qed.
